(** * AI-Invoice-Assistant-Pro: the conversational core, embedded and verified

    A shallow embedding of the core modules of the backend
    ([core/agent.py], [core/llm_manager.py], [core/rag_system.py],
    [core/currency_converter.py]), the properties the specification
    states about them, and further properties of the same code.

    Conventions of the embedding.
    - A Python [str] is a [string]; a character stands for one code point
      below 256.  Display strings of the knowledge base that hold other
      code points are kept as the bytes of the source literal: they are
      only stored and returned, never inspected.
    - A call that can raise returns a [result]; an exception that a
      [try/except] of the source catches is handled where the source
      handles it.
    - A [dict] is an association list in insertion order.
    - Library calls whose code is not part of the repository (the TF-IDF
      vectoriser, [cosine_similarity], [argsort], [eval], [json.loads],
      the model back ends) are parameters of the definitions that use
      them. *)

From Stdlib Require Import List String Ascii Bool Arith ZArith QArith Lia.
From Stdlib Require Import Permutation Sorted.
Import ListNotations.

Local Close Scope Q_scope.
Local Open Scope nat_scope.
Local Open Scope string_scope.
Local Open Scope list_scope.

(* ================================================================== *)
(** * Python values, exceptions and string primitives *)
(* ================================================================== *)

Module Py.

Inductive exc : Type :=
| KeyError (key : string)
| NameError (name : string)
| AttributeError (attr : string)
| TypeError
| IndexError
| UnboundLocalError (name : string)
| NotFittedError
| LibraryError.

Inductive result (A : Type) : Type :=
| Ok (a : A)
| Raise (e : exc).

Arguments Ok {A} a.
Arguments Raise {A} e.

Definition bind {A B : Type} (m : result A) (k : A -> result B) : result B :=
  match m with
  | Ok a => k a
  | Raise e => Raise e
  end.

Notation "x <- m ;; k" := (bind m (fun x => k))
  (at level 61, m at next level, right associativity).

(** [try: body  except: handler] with a bare [except]. *)
Definition try_except {A : Type} (body : result A) (handler : A) : A :=
  match body with
  | Ok a => a
  | Raise _ => handler
  end.

(** The values that flow through dictionaries of the program. *)
#[warnings="-register-all"]
Inductive value : Type :=
| VNone
| VBool (b : bool)
| VInt (z : Z)
| VFloat (q : Q)
| VStr (s : string)
| VList (l : list value)
| VDict (d : list (string * value)).

Definition dict : Type := list (string * value).

(** [d.get(k)] *)
Fixpoint dict_get (k : string) (d : dict) : option value :=
  match d with
  | [] => None
  | (k', v) :: rest => if String.eqb k k' then Some v else dict_get k rest
  end.

(** [k in d] *)
Definition dict_in (k : string) (d : dict) : bool :=
  match dict_get k d with
  | Some _ => true
  | None => false
  end.

(** [d.get(k, default)] *)
Definition dict_get_default (k : string) (default : value) (d : dict) : value :=
  match dict_get k d with
  | Some v => v
  | None => default
  end.

(** [d[k] = v]: an existing key keeps its place. *)
Fixpoint dict_set (k : string) (v : value) (d : dict) : dict :=
  match d with
  | [] => [(k, v)]
  | (k', v') :: rest =>
      if String.eqb k k' then (k', v) :: rest else (k', v') :: dict_set k v rest
  end.

(** A dict display [{k1: v1, ..., kn: vn}]: keys are stored left to right. *)
Definition dict_literal (items : list (string * value)) : dict :=
  fold_left (fun d kv => dict_set (fst kv) (snd kv) d) items [].

(** [v[k]] *)
Definition getitem (v : value) (k : string) : result value :=
  match v with
  | VDict d =>
      match dict_get k d with
      | Some x => Ok x
      | None => Raise (KeyError k)
      end
  | _ => Raise TypeError
  end.

(** [k in v] for a key that is a [str] or [None]; [None] is never a key. *)
Definition contains_key (k : option string) (v : value) : result bool :=
  match v with
  | VDict d =>
      match k with
      | Some s => Ok (dict_in s d)
      | None => Ok false
      end
  | _ => Raise TypeError
  end.

(** Truth value of an optional string: [None] and the empty string are
    false. *)
Definition truthy (s : option string) : bool :=
  match s with
  | Some (String _ _) => true
  | _ => false
  end.

(** [c.lower()] on code points below 256. *)
Definition lower_char (c : ascii) : ascii :=
  let n := nat_of_ascii c in
  if ((65 <=? n)%nat && (n <=? 90)%nat)
     || ((192 <=? n)%nat && (n <=? 222)%nat && negb (n =? 215)%nat)
  then ascii_of_nat (n + 32)
  else c.

(** [s.lower()] *)
Fixpoint lower (s : string) : string :=
  match s with
  | EmptyString => EmptyString
  | String c rest => String (lower_char c) (lower rest)
  end.

(** [needle in hay] on strings. *)
Fixpoint contains (needle hay : string) : bool :=
  String.prefix needle hay
  || match hay with
     | EmptyString => false
     | String _ rest => contains needle rest
     end.

(** [any(w in s for w in words)] *)
Definition any_in (words : list string) (s : string) : bool :=
  existsb (fun w => contains w s) words.

(** [c.isspace()] on code points below 256. *)
Definition isspace (c : ascii) : bool :=
  let n := nat_of_ascii c in
  ((9 <=? n)%nat && (n <=? 13)%nat) || ((28 <=? n)%nat && (n <=? 32)%nat)
  || (n =? 133)%nat || (n =? 160)%nat.

Fixpoint lstrip (s : string) : string :=
  match s with
  | EmptyString => EmptyString
  | String c rest => if isspace c then lstrip rest else s
  end.

Fixpoint rstrip (s : string) : string :=
  match s with
  | EmptyString => EmptyString
  | String c rest =>
      match rstrip rest with
      | EmptyString => if isspace c then EmptyString else String c EmptyString
      | r => String c r
      end
  end.

(** [s.strip()] *)
Definition strip (s : string) : string := rstrip (lstrip s).

(** Every character of [s] is white space (the empty string included). *)
Fixpoint all_space (s : string) : bool :=
  match s with
  | EmptyString => true
  | String c rest => isspace c && all_space rest
  end.

(** [not s] for a string *)
Definition is_empty_str (s : string) : bool :=
  match s with
  | EmptyString => true
  | String _ _ => false
  end.

(** [l[-k:]] *)
Definition last_k {A : Type} (k : nat) (l : list A) : list A :=
  match k with
  | 0 => l
  | S _ => skipn (List.length l - k) l
  end.

End Py.

Import Py.

(* ================================================================== *)
(** * core/agent.py *)
(* ================================================================== *)

Module Agent.

Inductive QuestionType : Type :=
| PRICING | CONTACT | LOCATION | FACILITY | GENERAL.

Record UserIntent : Type := mkUserIntent {
  type : QuestionType;
  is_specific : bool;
  entity : option string;
  timeframe : option string
}.

(** ** IntentParser *)

Definition pricing_patterns : list (string * list string) :=
  [ ("co-working", ["coworking"; "shared desk"; "hot desk"; "shared space";
                    "per seat"; "seat cost"]);
    ("private_office", ["private office"; "private cabin"; "dedicated office";
                        "team room"]);
    ("day_pass", ["day pass"; "daily pass"; "trial"; "visit day"]);
    ("virtual_office", ["virtual office"; "business address"; "mail service"]);
    ("meeting_room", ["meeting room"; "conference room"; "board room"]);
    ("parking", ["parking"; "car parking"; "vehicle parking"]) ].

Definition location_patterns : list (string * list string) :=
  [ ("koramangala", ["koramangala"; "koramangla"]);
    ("whitefield", ["whitefield"; "itpl"]);
    ("electronic_city", ["electronic city"; "ecity"]);
    ("indiranagar", ["indiranagar"; "indira nagar"]);
    ("mg_road", ["mg road"; "brigade road"]) ].

Definition contact_patterns : list (string * list string) :=
  [ ("sales", ["sales"; "visit"; "tour"; "demo"; "book"]);
    ("support", ["support"; "help"; "issue"; "problem"; "complaint"]);
    ("corporate", ["corporate"; "business"; "enterprise"; "company"]);
    ("general", ["contact"; "phone"; "email"; "number"; "reach"]) ].

Definition pricing_keywords : list string :=
  ["price"; "cost"; "how much"; "rate"; "fee"].
Definition contact_keywords : list string :=
  ["contact"; "call"; "email"; "phone"; "number"; "visit"; "tour"].
Definition location_keywords : list string :=
  ["where"; "location"; "address"; "center"; "branch"].
Definition facility_keywords : list string :=
  ["facility"; "amenity"; "service"; "wifi"; "internet"; "parking"; "meeting"].

(** The loop [for entity_type, patterns in table.items(): if any(...):
    entity = entity_type; break]. *)
Fixpoint first_entity (table : list (string * list string)) (question : string)
  : option string :=
  match table with
  | [] => None
  | (entity_type, patterns) :: rest =>
      if any_in patterns question then Some entity_type
      else first_entity rest question
  end.

Definition is_not_None {A : Type} (o : option A) : bool :=
  match o with
  | Some _ => true
  | None => false
  end.

Definition _parse_pricing_intent (question : string) : UserIntent :=
  let entity := first_entity pricing_patterns question in
  let timeframe :=
    if contains "month" question || contains "monthly" question then Some "monthly"
    else if contains "day" question || contains "daily" question then Some "daily"
    else if contains "hour" question || contains "hourly" question then Some "hourly"
    else None in
  mkUserIntent PRICING (is_not_None entity) entity timeframe.

Definition _parse_contact_intent (question : string) : UserIntent :=
  let entity := first_entity contact_patterns question in
  mkUserIntent CONTACT (is_not_None entity) entity None.

Definition _parse_location_intent (question : string) : UserIntent :=
  let entity := first_entity location_patterns question in
  mkUserIntent LOCATION (is_not_None entity) entity None.

Definition _parse_facility_intent (question : string) : UserIntent :=
  let entity :=
    if contains "parking" question then Some "parking"
    else if contains "wifi" question || contains "internet" question
         then Some "internet"
    else if contains "meeting" question then Some "meeting_room"
    else if contains "24/7" question || contains "24 hour" question
         then Some "access_hours"
    else None in
  mkUserIntent FACILITY (is_not_None entity) entity None.

Definition parse (question : string) : UserIntent :=
  let question_lower := lower question in
  if any_in pricing_keywords question_lower then
    _parse_pricing_intent question_lower
  else if any_in contact_keywords question_lower then
    _parse_contact_intent question_lower
  else if any_in location_keywords question_lower then
    _parse_location_intent question_lower
  else if any_in facility_keywords question_lower then
    _parse_facility_intent question_lower
  else
    mkUserIntent GENERAL false None None.

(** ** BizzHubKnowledgeBase *)

Definition strs (l : list string) : value := VList (map VStr l).

Definition pricing_table : dict :=
  [ ("co-working", VDict
      [ ("description", VStr "Hot desk in shared workspace");
        ("monthly", VStr "₹8,000 - ₹12,000");
        ("daily", VStr "₹800 - ₹1,200");
        ("includes", strs ["Workspace access"; "High-speed WiFi"; "Tea/Coffee";
                           "Community events"; "Basic printing"]) ]);
    ("dedicated_desk", VDict
      [ ("description", VStr "Personal dedicated desk");
        ("monthly", VStr "₹10,000 - ₹15,000");
        ("includes", strs ["Personal desk"; "24/7 access"; "Lockable storage";
                           "Meeting room credits"; "Priority support"]) ]);
    ("private_cabin_2p", VDict
      [ ("description", VStr "Private office for 2 people");
        ("monthly", VStr "₹25,000 - ₹30,000");
        ("includes", strs ["Private locked room"; "2 ergonomic chairs";
                           "Custom branding"; "2 meeting room hours/day"]) ]);
    ("private_cabin_4p", VDict
      [ ("description", VStr "Private office for 4 people");
        ("monthly", VStr "₹35,000 - ₹40,000");
        ("includes", strs ["Private locked room"; "4 ergonomic chairs";
                           "Custom layout"; "4 meeting room hours/day"]) ]);
    ("day_pass", VDict
      [ ("description", VStr "Daily workspace access");
        ("daily", VStr "₹800 - ₹1,200");
        ("includes", strs ["Basic workspace"; "WiFi"; "Tea/Coffee";
                           "Common areas"]) ]);
    ("virtual_office", VDict
      [ ("description", VStr "Business address & mail services");
        ("monthly", VStr "₹2,000 - ₹5,000");
        ("includes", strs ["Business address"; "Mail handling";
                           "Meeting room discount"; "Call answering"]) ]);
    ("parking", VDict
      [ ("description", VStr "Dedicated parking spot");
        ("monthly", VStr "₹800 - ₹2,000");
        ("variations", VDict
          [ ("koramangala", VStr "₹1,000/month");
            ("whitefield", VStr "₹1,500/month");
            ("electronic_city", VStr "₹800/month");
            ("indiranagar", VStr "₹1,200/month");
            ("mg_road", VStr "₹2,000/month") ]) ]);
    ("meeting_room", VDict
      [ ("description", VStr "Meeting/conference room");
        ("hourly", VStr "₹500 - ₹1,500");
        ("variations", VDict
          [ ("4_seats", VStr "₹500/hour");
            ("8_seats", VStr "₹800/hour");
            ("12_seats", VStr "₹1,200/hour");
            ("board_room", VStr "₹1,500/hour") ]) ]) ].

Definition contact_table : dict :=
  [ ("general", VDict
      [ ("phone", VStr "080-4111-1000");
        ("email", VStr "info@bizzhub.com");
        ("hours", VStr "9 AM - 7 PM");
        ("website", VStr "https://www.bizzhubworkspaces.com") ]);
    ("sales", VDict
      [ ("phone", VStr "080-4111-2000");
        ("email", VStr "sales@bizzhub.com");
        ("person", VStr "Priya Patel");
        ("hours", VStr "9 AM - 8 PM");
        ("whatsapp", VStr "+91-9876543210") ]);
    ("support", VDict
      [ ("phone", VStr "080-4111-3000");
        ("email", VStr "support@bizzhub.com");
        ("hours", VStr "24/7");
        ("emergency", VStr "+91-9000000000") ]);
    ("centers", VDict
      [ ("koramangala", VDict [("phone", VStr "080-4111-2222"); ("manager", VStr "Rajesh")]);
        ("whitefield", VDict [("phone", VStr "080-4111-3333"); ("manager", VStr "Meera")]);
        ("electronic_city", VDict [("phone", VStr "080-4111-4444"); ("manager", VStr "Arjun")]);
        ("indiranagar", VDict [("phone", VStr "080-4111-5555"); ("manager", VStr "Sanjay")]);
        ("mg_road", VDict [("phone", VStr "080-4111-6666"); ("manager", VStr "Priya")]) ]) ].

Definition locations_table : dict :=
  [ ("koramangala", VStr "3rd Block, 80ft Road, Koramangala");
    ("whitefield", VStr "ITPL Main Road, Whitefield");
    ("electronic_city", VStr "Phase 1, Near Infosys, Electronic City");
    ("indiranagar", VStr "100ft Road, Indiranagar");
    ("mg_road", VStr "Brigade Road Cross, MG Road") ].

Definition facilities_table : dict :=
  [ ("internet", VDict
      [ ("description", VStr "High-speed dedicated fiber");
        ("speed", VStr "100 Mbps");
        ("included", VBool true) ]);
    ("parking", VDict
      [ ("description", VStr "Secure parking facilities");
        ("availability", VStr "All centers");
        ("cost", VStr "₹800 - ₹2,000/month") ]);
    ("meeting_rooms", VDict
      [ ("description", VStr "Fully equipped meeting spaces");
        ("sizes", strs ["4-seater"; "8-seater"; "12-seater"; "Board room"]);
        ("cost", VStr "₹500 - ₹1,500/hour") ]);
    ("access_hours", VDict
      [ ("description", VStr "Center access hours");
        ("co_working", VStr "8 AM - 10 PM");
        ("dedicated_desk", VStr "24/7");
        ("private_office", VStr "24/7") ]);
    ("additional", strs
      [ "Pantry with tea/coffee";
        "Printing & scanning (100 pages free)";
        "Mail handling services";
        "Reception support";
        "Community events";
        "IT support (basic included)" ]) ].

(** [_load_knowledge_base()] *)
Definition _load_knowledge_base : value :=
  VDict [ ("pricing", VDict pricing_table);
          ("contact", VDict contact_table);
          ("locations", VDict locations_table);
          ("facilities", VDict facilities_table) ].

Record BizzHubKnowledgeBase : Type := mkKB { data : value }.

(** [BizzHubKnowledgeBase()] *)
Definition kb : BizzHubKnowledgeBase := mkKB _load_knowledge_base.

(** The key of a subscript [d[k]] where [k] may be [None]. *)
Definition getitem_opt (v : value) (k : option string) : result value :=
  match k with
  | Some s => getitem v s
  | None => match v with
            | VDict _ => Raise (KeyError "None")
            | _ => Raise TypeError
            end
  end.

Definition get_pricing (self : BizzHubKnowledgeBase)
    (entity : option string) (timeframe : option string) : result value :=
  pricing <- getitem (data self) "pricing" ;;
  known <- contains_key entity pricing ;;
  if known then
    item <- getitem_opt pricing entity ;;   (* .copy() *)
    tf_in_item <- (if truthy timeframe then contains_key timeframe item
                   else Ok false) ;;
    if tf_in_item then
      description <- getitem item "description" ;;
      tf_value <- getitem_opt item timeframe ;;
      includes <- match item with
                  | VDict d => Ok (dict_get_default "includes" (VList []) d)
                  | _ => Raise (AttributeError "get")
                  end ;;
      let tf_key := match timeframe with Some s => s | None => EmptyString end in
      let filtered := dict_literal [ ("description", description);
                                     (tf_key, tf_value);
                                     ("includes", includes) ] in
      has_variations <- contains_key (Some "variations") item ;;
      if has_variations then
        variations <- getitem item "variations" ;;
        Ok (VDict (dict_set "variations" variations filtered))
      else Ok (VDict filtered)
    else Ok item
  else Ok (VDict []).

Definition get_contact (self : BizzHubKnowledgeBase) (entity : option string)
  : result value :=
  contact <- getitem (data self) "contact" ;;
  known <- contains_key entity contact ;;
  if known then getitem_opt contact entity
  else getitem contact "general".

Definition get_location (self : BizzHubKnowledgeBase) (center : option string)
  : result value :=
  locations <- getitem (data self) "locations" ;;
  known <- (if truthy center then contains_key center locations else Ok false) ;;
  if known then
    address <- getitem_opt locations center ;;
    contact <- getitem (data self) "contact" ;;
    centers <- getitem contact "centers" ;;
    center_contact <- getitem_opt centers center ;;
    let center_key := match center with Some s => s | None => EmptyString end in
    Ok (VDict [ (center_key,
                 VDict (dict_literal [ ("address", address);
                                       ("contact", center_contact) ])) ])
  else Ok locations.

Definition get_facility (self : BizzHubKnowledgeBase) (facility : option string)
  : result value :=
  facilities <- getitem (data self) "facilities" ;;
  known <- (if truthy facility then contains_key facility facilities
            else Ok false) ;;
  if known then getitem_opt facilities facility
  else Ok facilities.

(** An argument that is no key of the table: [None], or a string that
    the table does not hold. *)
Definition unknown (k : option string) (table : dict) : Prop :=
  forall s, k = Some s -> dict_in s table = false.

End Agent.

(* ================================================================== *)
(** * core/llm_manager.py *)
(* ================================================================== *)

Module LLM.

Local Open Scope string_scope.

Inductive LLMProvider : Type := GEMINI | OPENAI | LOCAL.

(** [provider.value] *)
Definition provider_value (p : LLMProvider) : string :=
  match p with
  | GEMINI => "gemini"
  | OPENAI => "openai"
  | LOCAL => "local"
  end.

(** [for provider in LLMProvider]: members in definition order. *)
Definition LLMProvider_members : list LLMProvider := [GEMINI; OPENAI; LOCAL].

Definition provider_eqb (a b : LLMProvider) : bool :=
  match a, b with
  | GEMINI, GEMINI | OPENAI, OPENAI | LOCAL, LOCAL => true
  | _, _ => false
  end.

(** The names bound at module level of [llm_manager.py]: its imports
    ([os], [time], [genai], the [typing] names, [Enum], [requests],
    [openai], [convert_currency]) and its own definitions.  The two
    [import re] statements of the file stand inside [register_tool] and
    [_call_gemini] and bind [re] in those functions only. *)
Definition module_globals : list string :=
  [ "os"; "time"; "genai"; "Dict"; "List"; "Optional"; "Any"; "Callable";
    "Enum"; "requests"; "openai"; "convert_currency";
    "LLMProvider"; "ToolCall"; "LLMManager"; "llm_manager";
    "generate_with_fallback" ].

(** Evaluating a global name inside a function that does not bind it. *)
Definition global_name (n : string) : result unit :=
  if existsb (String.eqb n) module_globals then Ok tt
  else Raise (NameError n).

(** ** Strings of the module *)

Definition dq : string := String (ascii_of_nat 34) EmptyString.
Definition nl : string := String (ascii_of_nat 10) EmptyString.

(** [s] without the literal prefix [p], when it has it. *)
Fixpoint drop_prefix (p s : string) : option string :=
  match p with
  | EmptyString => Some s
  | String c p' =>
      match s with
      | EmptyString => None
      | String d s' => if Ascii.eqb c d then drop_prefix p' s' else None
      end
  end.

(** The longest prefix without the character [c], and the rest. *)
Fixpoint span_not (c : ascii) (s : string) : string * string :=
  match s with
  | EmptyString => (EmptyString, EmptyString)
  | String d s' =>
      if Ascii.eqb c d then (EmptyString, s)
      else let (run, rest) := span_not c s' in (String d run, rest)
  end.

(** The character class [[0-9+\-*/().\s]]. *)
Definition whitelisted (c : ascii) : bool :=
  let n := nat_of_ascii c in
  ((48 <=? n)%nat && (n <=? 57)%nat)
  || existsb (Ascii.eqb c) ["+"; "-"; "*"; "/"; "("; ")"; "."]%char
  || isspace c.

Fixpoint all_whitelisted (s : string) : bool :=
  match s with
  | EmptyString => true
  | String c rest => whitelisted c && all_whitelisted rest
  end.

(** [re.match(r'^[0-9+\-*/().\s]+$', expression)] is a match: one or more
    characters of the class up to the end ([$] also stands before a final
    newline, which the class contains). *)
Definition whitelist_match (expression : string) : bool :=
  negb (is_empty_str expression) && all_whitelisted expression.

(** The optional group [(?:,\s*QargumentsQ:\s*(\{[^}]+\}))?] of the tool
    pattern (Q stands for the double quote) tried at [s]: the text of
    group 2 and what follows the group. *)
Definition arguments_group (s : string) : option (string * string) :=
  match drop_prefix "," s with
  | None => None
  | Some s1 =>
      match drop_prefix (dq ++ "arguments" ++ dq ++ ":") (lstrip s1) with
      | None => None
      | Some s2 =>
          match drop_prefix "{" (lstrip s2) with
          | None => None
          | Some s3 =>
              let (body, s4) := span_not "}"%char s3 in
              if is_empty_str body then None
              else match drop_prefix "}" s4 with
                   | None => None
                   | Some s5 => Some ("{" ++ body ++ "}", s5)
                   end
          end
      end
  end.

(** The tool pattern
    [\{QtoolQ:\s*Q([^Q]+)Q(?:,\s*QargumentsQ:\s*(\{[^}]+\}))?\}]
    (Q stands for the double quote) anchored at the start of [s]: groups 1
    and 2.  Each repetition is followed by a character it cannot take, so
    the greedy match is the only one to try; only the optional group needs
    the second alternative. *)
Definition tool_match_at (s : string) : option (string * option string) :=
  match drop_prefix ("{" ++ dq ++ "tool" ++ dq ++ ":") s with
  | None => None
  | Some s1 =>
      match drop_prefix dq (lstrip s1) with
      | None => None
      | Some s2 =>
          let (tool_name, s3) := span_not (ascii_of_nat 34) s2 in
          if is_empty_str tool_name then None
          else
            match drop_prefix dq s3 with
            | None => None
            | Some s4 =>
                let without_group :=
                  match drop_prefix "}" s4 with
                  | Some _ => Some (tool_name, None)
                  | None => None
                  end in
                match arguments_group s4 with
                | Some (arguments_str, s5) =>
                    match drop_prefix "}" s5 with
                    | Some _ => Some (tool_name, Some arguments_str)
                    | None => without_group
                    end
                | None => without_group
                end
            end
      end
  end.

(** [re.search] of that pattern: the leftmost position where it matches. *)
Fixpoint tool_search (s : string) : option (string * option string) :=
  match tool_match_at s with
  | Some groups => Some groups
  | None =>
      match s with
      | EmptyString => None
      | String _ rest => tool_search rest
      end
  end.

(** [', '.join(names)] *)
Fixpoint join (sep : string) (names : list string) : string :=
  match names with
  | [] => EmptyString
  | [x] => x
  | x :: rest => x ++ sep ++ join sep rest
  end.

(** ** ToolCall *)

Record ToolCall : Type := mkToolCall {
  name : string;
  arguments : value
}.

(** [self.arguments.get(key, default)] *)
Definition arguments_get (args : value) (key : string) (default : value)
  : result value :=
  match args with
  | VDict d => Ok (dict_get_default key default d)
  | _ => Raise (AttributeError "get")
  end.

Record tool_record : Type := mkToolRecord {
  tr_name : string;
  tr_arguments : value;
  tr_result : value
}.

Record response : Type := mkResponse {
  content : option string;
  tool_calls : list tool_record;
  provider : string
}.

Record environ : Type := mkEnviron {
  GOOGLE_API_KEY : option string;
  OPENAI_API_KEY : option string
}.

Inductive role : Type := user | function_role (fname : string).

Record chat_message : Type := mkChatMessage {
  msg_role : role;
  msg_content : string
}.

Record function_call_t : Type := mkFunctionCall {
  fc_name : string;
  fc_arguments : string
}.

(** [response.choices[i].message] of the OpenAI client. *)
Record message : Type := mkMessage {
  message_content : option string;
  function_call : option function_call_t
}.

Inductive local (A : Type) : Type :=
| Unbound
| Bound (a : A).
Arguments Unbound {A}.
Arguments Bound {A} a.

(** The collaborators of the module whose code is outside the
    repository's core: what the module calls, as an interface. *)
Class Collaborators : Type := {
  (** the callables that a decorator registers *)
  Callable : Type;
  (** [currency_converter.convert_currency] *)
  convert_currency : value -> value -> value -> result value;
  (** [time.strftime] with the date-and-time format, at the time of the
      call *)
  strftime_now : string;
  (** the builtin [eval] *)
  py_eval : string -> result value;
  (** [json.loads] *)
  json_loads : string -> result value;
  (** the text an f-string gives for a value *)
  format_value : value -> string;
  (** [model.generate_content(prompt).text] of the Gemini client *)
  generate_content : string -> result string;
  (** [openai.ChatCompletion.create(model=..., messages=..., functions=...)]:
      the messages of the choices *)
  ChatCompletion_create :
    list chat_message -> option (list value) -> result (list message)
}.

Section WithCollaborators.

Context {W : Collaborators}.

(** The body of the [try] of the arithmetic tool once [re] is resolved. *)
Definition calculate_checked (expression : value) : result value :=
  match expression with
  | VStr e =>
      if whitelist_match e then py_eval e
      else Ok (VStr "Invalid expression")
  | _ => Raise TypeError
  end.

Definition execute (self : ToolCall) : result value :=
  if String.eqb (name self) "currency_converter" then
    amount <- arguments_get (arguments self) "amount" (VInt 0) ;;
    from_currency <- arguments_get (arguments self) "from_currency" (VStr "USD") ;;
    to_currency <- arguments_get (arguments self) "to_currency" (VStr "INR") ;;
    convert_currency amount from_currency to_currency
  else if String.eqb (name self) "get_current_time" then
    Ok (VStr strftime_now)
  else if String.eqb (name self) "calculate" then
    expression <- arguments_get (arguments self) "expression" (VStr EmptyString) ;;
    Ok (try_except
          (_ <- global_name "re" ;;
           calculate_checked expression)
          (VStr "Calculation error"))
  else
    Ok (VStr ("Unknown tool: " ++ name self)).

(** ** LLMManager *)

Record tool_entry : Type := mkToolEntry {
  function : Callable;
  schema : value
}.

Record LLMManager : Type := mkLLMManager {
  providers : list LLMProvider;
  active_provider : option LLMProvider;
  tool_registry : list (string * tool_entry)
}.

(** Methods that update [self] thread the object through. *)
Definition St (A : Type) : Type := LLMManager -> A * LLMManager.

Definition st_ret {A : Type} (a : A) : St A := fun self => (a, self).

Definition st_bind {A B : Type} (m : St A) (k : A -> St B) : St B :=
  fun self => let (a, self') := m self in k a self'.

Notation "x <~ m ;; k" := (st_bind m (fun x => k))
  (at level 61, m at next level, right associativity).

Definition provider_in (p : LLMProvider) (ps : list LLMProvider) : bool :=
  existsb (provider_eqb p) ps.

(** [self.providers[p] = ...] *)
Definition providers_set (p : LLMProvider) (ps : list LLMProvider)
  : list LLMProvider :=
  if provider_in p ps then ps else (ps ++ [p])%list.

Definition _setup_providers (env : environ) : St unit := fun self =>
  let self1 :=
    if truthy (GOOGLE_API_KEY env) then
      mkLLMManager (providers_set GEMINI (providers self)) (Some GEMINI)
                   (tool_registry self)
    else self in
  let self2 :=
    if truthy (OPENAI_API_KEY env) then
      mkLLMManager (providers_set OPENAI (providers self1))
                   (match active_provider self1 with
                    | None => Some OPENAI
                    | Some a => Some a
                    end)
                   (tool_registry self1)
    else self1 in
  (tt, self2).

Fixpoint registry_set (key : string) (e : tool_entry)
    (reg : list (string * tool_entry)) : list (string * tool_entry) :=
  match reg with
  | [] => [(key, e)]
  | (k, e') :: rest =>
      if String.eqb key k then (k, e) :: rest
      else (k, e') :: registry_set key e rest
  end.

(** The closure [wrapper] that [register_tool] builds: calling it stores
    the entry and gives the function back. *)
Definition wrapper (tool_name : string) (tool_schema : value)
    (func : Callable) : St Callable := fun self =>
  (func,
   mkLLMManager (providers self) (active_provider self)
     (registry_set tool_name (mkToolEntry func tool_schema)
        (tool_registry self))).

(** [register_tool(name, schema)] returns the closure and does nothing
    else. *)
Definition register_tool (tool_name : string) (tool_schema : value)
  : St (Callable -> St Callable) :=
  st_ret (wrapper tool_name tool_schema).

Definition prop (type_name description : string) : value :=
  VDict [("type", VStr type_name); ("description", VStr description)].

Definition currency_converter_schema : value :=
  VDict
    [ ("description",
       VStr "Convert currency amounts between different currencies");
      ("parameters", VDict
         [ ("type", VStr "object");
           ("properties", VDict
              [ ("amount", prop "number" "Amount to convert");
                ("from_currency",
                 prop "string" "Source currency code (e.g., USD)");
                ("to_currency",
                 prop "string" "Target currency code (e.g., EUR)") ]);
           ("required",
            VList [VStr "amount"; VStr "from_currency"; VStr "to_currency"]) ]) ].

Definition get_current_time_schema : value :=
  VDict
    [ ("description", VStr "Get the current time and date");
      ("parameters", VDict
         [ ("type", VStr "object"); ("properties", VDict []) ]) ].

Definition calculate_schema : value :=
  VDict
    [ ("description", VStr "Perform mathematical calculations");
      ("parameters", VDict
         [ ("type", VStr "object");
           ("properties", VDict
              [ ("expression",
                 prop "string" "Mathematical expression to evaluate") ]);
           ("required", VList [VStr "expression"]) ]) ].

(** Three expression statements: each value, a closure, is dropped. *)
Definition _register_default_tools : St unit :=
  _ <~ register_tool "currency_converter" currency_converter_schema ;;
  _ <~ register_tool "get_current_time" get_current_time_schema ;;
  _ <~ register_tool "calculate" calculate_schema ;;
  st_ret tt.

(** [LLMManager()] in an environment. *)
Definition __init__ (env : environ) : LLMManager :=
  let self := mkLLMManager [] None [] in
  let (_, self) := _setup_providers env self in
  let (_, self) := _register_default_tools self in
  self.

Fixpoint available_tools_of (reg : list (string * tool_entry))
  : result (list value) :=
  match reg with
  | [] => Ok []
  | (tool_name, tool) :: rest =>
      description <- getitem (schema tool) "description" ;;
      parameters <- getitem (schema tool) "parameters" ;;
      others <- available_tools_of rest ;;
      Ok (VDict [ ("type", VStr "function");
                  ("function", VDict [ ("name", VStr tool_name);
                                       ("description", description);
                                       ("parameters", parameters) ]) ]
          :: others)
  end.

Definition get_available_tools (self : LLMManager) : result (list value) :=
  available_tools_of (tool_registry self).

(** [[tool["function"]["name"] for tool in tools]] *)
Fixpoint tool_names_of (tools : list value) : result (list value) :=
  match tools with
  | [] => Ok []
  | tool :: rest =>
      f <- getitem tool "function" ;;
      n <- getitem f "name" ;;
      others <- tool_names_of rest ;;
      Ok (n :: others)
  end.

(** The items of [', '.join(...)] have to be strings. *)
Fixpoint as_strings (vs : list value) : result (list string) :=
  match vs with
  | [] => Ok []
  | VStr s :: rest => others <- as_strings rest ;; Ok (s :: others)
  | _ :: _ => Raise TypeError
  end.

Definition enhanced_prompt_of (prompt : string) (tool_names : list string)
  : string :=
  prompt ++ nl ++ nl ++ "Available tools: " ++ join ", " tool_names ++ ". "
  ++ "If you need to use any of these tools, respond with the tool name "
  ++ "and arguments in JSON format: {" ++ dq ++ "tool" ++ dq ++ ": " ++ dq
  ++ "tool_name" ++ dq ++ ", " ++ dq ++ "arguments" ++ dq ++ ": {...}}".

Definition followup_prompt_of (prompt tool_name : string)
    (args tool_result : value) : string :=
  prompt ++ nl ++ nl ++ "Tool '" ++ tool_name
  ++ "' was called with arguments " ++ format_value args
  ++ " and returned: " ++ format_value tool_result ++ ". "
  ++ "Provide the final answer based on this information.".

(** The body of the [try] of [_call_gemini]; [Ok None] is the end of the
    function reached without a [return]. *)
Definition _call_gemini_body (self : LLMManager) (prompt : string)
    (tools : option (list value)) : result (option response) :=
  _ <- (if provider_in GEMINI (providers self) then Ok tt
        else Raise (KeyError "LLMProvider.GEMINI")) ;;
  match tools with
  | Some (tool :: more) =>
      names <- tool_names_of (tool :: more) ;;
      tool_names <- as_strings names ;;
      response_text <- generate_content (enhanced_prompt_of prompt tool_names) ;;
      match tool_search response_text with
      | Some (tool_name, Some arguments_str) =>
          if is_empty_str arguments_str then Ok None
          else
            args <- json_loads arguments_str ;;
            tool_result <- execute (mkToolCall tool_name args) ;;
            followup_text <-
              generate_content
                (followup_prompt_of prompt tool_name args tool_result) ;;
            Ok (Some (mkResponse (Some followup_text)
                        [mkToolRecord tool_name args tool_result]
                        (provider_value GEMINI)))
      | Some (_, None) => Ok None
      | None => Ok None
      end
  | _ =>
      text <- generate_content prompt ;;
      Ok (Some (mkResponse (Some text) [] (provider_value GEMINI)))
  end.

(** [except Exception: return None] *)
Definition _call_gemini (self : LLMManager) (prompt : string)
    (tools : option (list value)) : option response :=
  try_except (_call_gemini_body self prompt tools) None.

(** [response.choices[0].message] *)
Definition first_message (choices : list message) : result message :=
  match choices with
  | m :: _ => Ok m
  | [] => Raise IndexError
  end.

Definition _call_openai_body (self : LLMManager) (prompt : string)
    (tools : option (list value)) : result (option response) :=
  match tools with
  | Some (_ :: _) =>
      functions <- get_available_tools self ;;
      choices <- ChatCompletion_create [mkChatMessage user prompt]
                   (Some functions) ;;
      msg <- first_message choices ;;
      match function_call msg with
      | Some fc =>
          let function_name := fc_name fc in
          function_args <- py_eval (fc_arguments fc) ;;
          tool_result <- execute (mkToolCall function_name function_args) ;;
          followup <- ChatCompletion_create
                        [ mkChatMessage user prompt;
                          mkChatMessage (function_role function_name)
                            (format_value tool_result) ]
                        None ;;
          followup_msg <- first_message followup ;;
          Ok (Some (mkResponse (message_content followup_msg)
                      [mkToolRecord function_name function_args tool_result]
                      (provider_value OPENAI)))
      | None =>
          Ok (Some (mkResponse (message_content msg) []
                      (provider_value OPENAI)))
      end
  | _ =>
      choices <- ChatCompletion_create [mkChatMessage user prompt] None ;;
      msg <- first_message choices ;;
      Ok (Some (mkResponse (message_content msg) [] (provider_value OPENAI)))
  end.

Definition _call_openai (self : LLMManager) (prompt : string)
    (tools : option (list value)) : option response :=
  try_except (_call_openai_body self prompt tools) None.

Definition is_active (p : LLMProvider) (self : LLMManager) : bool :=
  match active_provider self with
  | Some a => provider_eqb a p
  | None => false
  end.

(** The loop [for provider in LLMProvider] of [generate_response].  The
    local [result] is what the code above the loop left in it; a member
    with neither branch of the [if/elif] keeps it.  [Ok (Some r)] is the
    [return result] inside the loop, [Ok None] the end of the loop. *)
Fixpoint try_other_providers (self : LLMManager) (prompt : string)
    (tools : option (list value)) (members : list LLMProvider)
    (result_var : local (option response)) : result (option response) :=
  match members with
  | [] => Ok None
  | p :: rest =>
      if negb (is_active p self) && provider_in p (providers self) then
        let result_var :=
          match p with
          | GEMINI => Bound (_call_gemini self prompt tools)
          | OPENAI => Bound (_call_openai self prompt tools)
          | LOCAL => result_var
          end in
        match result_var with
        | Unbound => Raise (UnboundLocalError "result")
        | Bound (Some r) => Ok (Some r)
        | Bound None => try_other_providers self prompt tools rest result_var
        end
      else try_other_providers self prompt tools rest result_var
  end.

(** [prompt[:100]] *)
Definition first_100 (prompt : string) : string := substring 0 100 prompt.

Definition fallback_response (prompt : string) : response :=
  mkResponse
    (Some ("I'm sorry, but I couldn't process your request. The input was: "
           ++ first_100 prompt ++ "..."))
    [] "fallback".

(** The first statement of [generate_response]. *)
Definition tools_for (self : LLMManager) (use_tools : bool)
  : result (option (list value)) :=
  if use_tools then ts <- get_available_tools self ;; Ok (Some ts)
  else Ok None.

Definition generate_response (self : LLMManager) (prompt : string)
    (use_tools : bool) : result response :=
  tools <- tools_for self use_tools ;;
  let result_var : local (option response) := Unbound in
  let result_var :=
    if is_active GEMINI self && provider_in GEMINI (providers self)
    then Bound (_call_gemini self prompt tools) else result_var in
  match result_var with
  | Bound (Some r) => Ok r
  | _ =>
      let result_var :=
        if is_active OPENAI self && provider_in OPENAI (providers self)
        then Bound (_call_openai self prompt tools) else result_var in
      match result_var with
      | Bound (Some r) => Ok r
      | _ =>
          found <- try_other_providers self prompt tools
                     LLMProvider_members result_var ;;
          match found with
          | Some r => Ok r
          | None => Ok (fallback_response prompt)
          end
      end
  end.

(** The call [generate_response] makes for a provider; [LOCAL] has none. *)
Definition call_of (self : LLMManager) (p : LLMProvider) (prompt : string)
    (tools : option (list value)) : option (option response) :=
  match p with
  | GEMINI => Some (_call_gemini self prompt tools)
  | OPENAI => Some (_call_openai self prompt tools)
  | LOCAL => None
  end.

(** [@self.register_tool(name, schema)] above the definition of [func]:
    the closure is applied to the function. *)
Definition decorate (tool_name : string) (tool_schema : value)
    (func : Callable) : St Callable :=
  w <~ register_tool tool_name tool_schema ;;
  w func.

(** A schema from which [get_available_tools] can read its two keys. *)
Definition well_formed_schema (sch : value) : Prop :=
  exists description parameters,
    getitem sch "description" = Ok description
    /\ getitem sch "parameters" = Ok parameters.

(** The managers the module can build: the constructor in some
    environment, then tools registered through the decorator, with any
    schema. *)
Inductive constructed : LLMManager -> Prop :=
| constructed_init (env : environ) : constructed (__init__ env)
| constructed_decorate (self : LLMManager) (tool_name : string)
    (tool_schema : value) (func : Callable) :
    constructed self ->
    constructed (snd (decorate tool_name tool_schema func self)).

(** Those among them whose tools were all registered with a schema that
    [get_available_tools] can read. *)
Inductive built : LLMManager -> Prop :=
| built_init (env : environ) : built (__init__ env)
| built_decorate (self : LLMManager) (tool_name : string)
    (tool_schema : value) (func : Callable) :
    built self ->
    well_formed_schema tool_schema ->
    built (snd (decorate tool_name tool_schema func self)).

(** The order of the attempts as the documentation of [generate_response]
    has it: the primary provider first, then the others as fallback.
    The primary provider is the active one, when it is configured; the
    others are the configured providers that are not active, in the order
    of the enumeration. *)
Definition attempt_order (self : LLMManager) : list LLMProvider :=
  (match active_provider self with
   | Some a => if provider_in a (providers self) then [a] else []
   | None => []
   end
   ++ filter (fun p => negb (is_active p self)
                       && provider_in p (providers self))
        [GEMINI; OPENAI])%list.

(** The first result that the calls of the providers give, in that
    order. *)
Fixpoint first_result (self : LLMManager) (prompt : string)
    (tools : option (list value)) (order : list LLMProvider)
  : option response :=
  match order with
  | [] => None
  | p :: rest =>
      match call_of self p prompt tools with
      | Some (Some r) => Some r
      | _ => first_result self prompt tools rest
      end
  end.

End WithCollaborators.

End LLM.

(* ================================================================== *)
(** * core/rag_system.py *)
(* ================================================================== *)

Module RAG.

Local Open Scope string_scope.

Record FAQ : Type := mkFAQ {
  question : string;
  answer : string;
  category : string;
  embeddings : option (list Q)
}.

(** [FAQ(question, answer, category)]: [embeddings] keeps its default. *)
Definition new_FAQ (q a c : string) : FAQ := mkFAQ q a c None.

(** A row of term weights over the columns of the fitted vocabulary, and
    the matrix of such rows.  Weights and scores are 64-bit floats in the
    program; the embedding keeps them as the rationals they denote. *)
Definition vector : Type := list Q.
Definition matrix : Type := list vector.

(** What the module calls in scikit-learn and NumPy. *)
Class Library : Type := {
  (** the state of a fitted [TfidfVectorizer]: vocabulary and weights *)
  fitted : Type;
  (** [vectorizer.fit_transform(questions)]; [None] is its [ValueError]
      (no term left in any document) *)
  fit_transform : list string -> option (fitted * matrix);
  (** [vectorizer.transform([query])], the single row *)
  transform : fitted -> string -> vector;
  (** [m.any()] on the matrix that [fit_transform] returns: the look-up
      of the attribute and the call *)
  any_entry : matrix -> result bool;
  (** [cosine_similarity] of two rows *)
  cosine : vector -> vector -> Q;
  (** [a.argsort()] *)
  argsort : list Q -> list nat
}.

Inductive lib_call : Type :=
| call_transform (text : string)
| call_cosine_similarity
| call_argsort.

(** A computation that may raise, with the calls it made to the
    vectoriser, to [cosine_similarity] and to [argsort]. *)
Definition traced (A : Type) : Type := list lib_call * result A.

Definition t_ret {A : Type} (a : A) : traced A := ([], Ok a).

Definition t_raise {A : Type} (e : exc) : traced A := ([], Raise e).

Definition t_call {A : Type} (c : lib_call) (a : A) : traced A := ([c], Ok a).

Definition t_lift {A : Type} (r : result A) : traced A := ([], r).

Definition t_bind {A B : Type} (m : traced A) (k : A -> traced B) : traced B :=
  match m with
  | (tr, Ok a) => let (tr', r) := k a in ((tr ++ tr')%list, r)
  | (tr, Raise e) => (tr, Raise e)
  end.

Notation "x <-- m ;; k" := (t_bind m (fun x => k))
  (at level 61, m at next level, right associativity).

Definition calls {A : Type} (m : traced A) : list lib_call := fst m.
Definition outcome {A : Type} (m : traced A) : result A := snd m.

(** The two thresholds of the module: the doubles that the literals
    [0.1] and [0.3] denote, as the rationals they are. *)
Definition display_threshold : Q := 3602879701896397 # 36028797018963968.
Definition accept_threshold : Q := 5404319552844595 # 18014398509481984.

(** [x > y] on scores *)
Definition gt (x y : Q) : bool := negb (Qle_bool x y).

Definition default_faqs : list FAQ :=
  [ new_FAQ "How do I create an invoice?"
      ("You can create an invoice by providing product details like quantity and price. "
       ++ "For example: '2x T-shirts @ 500' creates an invoice with 2 T-shirts at Rs. 500 each.")
      "billing";
    new_FAQ "What information do I need for an invoice?"
      ("You need at least one product item, customer name, and customer email. "
       ++ "Additional details like GST number, shipping fee, and discount codes can be added.")
      "billing";
    new_FAQ "How do I add items to my invoice?"
      ("You can add items by mentioning quantity, name, and price. "
       ++ "Examples: '3 shirts @ 499', '1 laptop 12999', '2 books at 299 each'.")
      "billing";
    new_FAQ "Can I update my invoice after creation?"
      ("Yes, you can continue adding items or updating details in the same conversation. "
       ++ "The system remembers your invoice draft until it's finalized.")
      "billing";
    new_FAQ "How do I download my invoice as PDF?"
      ("Once your invoice is generated, you'll see a download link in the chat interface. "
       ++ "The PDF is automatically created when your invoice is finalized.")
      "pdf";
    new_FAQ "What is GST and how is it calculated?"
      ("GST (Goods and Services Tax) is calculated as a percentage of the subtotal. "
       ++ "By default, it's set to 18%, but you can specify a different rate.")
      "tax";
    new_FAQ "Can I apply discounts to my invoice?"
      ("Yes, you can apply discounts by mentioning a discount code or amount. "
       ++ "Examples: 'Apply 10% discount', 'Use code SAVE10', 'Discount of 500'.")
      "billing";
    new_FAQ "How do I include shipping charges?"
      ("Shipping charges are automatically added to your invoice. "
       ++ "You can specify shipping fees like: 'Shipping: 100' or 'Delivery charge: 50'.")
      "billing";
    new_FAQ "What payment methods do you accept?"
      ("This system generates invoices for your records. "
       ++ "Actual payment methods depend on the merchant you're purchasing from.")
      "payment";
    new_FAQ "How do I cancel my invoice?"
      ("Invoices are generated only when complete. "
       ++ "If you want to start fresh, just begin a new conversation or say 'reset'.")
      "billing";
    new_FAQ "Can I send the invoice to someone else?"
      ("Yes, once generated, you can download the PDF and share it. "
       ++ "The system also stores invoices by ID for future reference.")
      "pdf";
    new_FAQ "How long are my invoices stored?"
      ("Invoices are stored in our secure database. "
       ++ "You can retrieve them using the invoice ID provided after generation.")
      "storage" ].

Section WithLibrary.

Context {L : Library}.

Record FAQRAGSystem : Type := mkFAQRAGSystem {
  faqs : list FAQ;
  (** the vectoriser, [None] until it is fitted *)
  vectorizer : option fitted;
  faq_vectors : option matrix
}.

Definition _load_default_faqs (self : FAQRAGSystem) : FAQRAGSystem :=
  mkFAQRAGSystem default_faqs (vectorizer self) (faq_vectors self).

Definition _build_index (self : FAQRAGSystem) : FAQRAGSystem :=
  match faqs self with
  | [] => mkFAQRAGSystem (faqs self) (vectorizer self) None
  | _ :: _ =>
      let questions := map question (faqs self) in
      match fit_transform questions with
      | Some (vz, m) => mkFAQRAGSystem (faqs self) (Some vz) (Some m)
      | None => mkFAQRAGSystem (faqs self) (vectorizer self) None
      end
  end.

(** [FAQRAGSystem()] *)
Definition __init__ : FAQRAGSystem :=
  _build_index (_load_default_faqs (mkFAQRAGSystem [] None None)).

Definition add_faq (self : FAQRAGSystem) (q a c : string) : FAQRAGSystem :=
  let faq := new_FAQ q a c in
  _build_index
    (mkFAQRAGSystem (faqs self ++ [faq])%list (vectorizer self)
       (faq_vectors self)).

(** The loop over [top_indices] that fills [results]. *)
Fixpoint collect_results (all_faqs : list FAQ) (similarities : list Q)
    (top_indices : list nat) : result (list (FAQ * Q)) :=
  match top_indices with
  | [] => Ok []
  | idx :: rest =>
      match nth_error similarities idx with
      | None => Raise IndexError
      | Some score =>
          if gt score display_threshold then
            match nth_error all_faqs idx with
            | None => Raise IndexError
            | Some faq =>
                others <- collect_results all_faqs similarities rest ;;
                Ok ((faq, score) :: others)
            end
          else collect_results all_faqs similarities rest
      end
  end.

Definition _find_similar_faqs (self : FAQRAGSystem) (query : string)
    (top_k : nat) : traced (list (FAQ * Q)) :=
  match faq_vectors self with
  | None => t_raise (AttributeError "any")
  | Some m =>
      has_any <-- t_lift (any_entry m) ;;
      if negb has_any || is_empty_str (strip query) then t_ret []
      else
        match vectorizer self with
        | None => t_raise NotFittedError
        | Some vz =>
            query_vector <-- t_call (call_transform query)
                               (transform vz query) ;;
            similarities <-- t_call call_cosine_similarity
                               (map (cosine query_vector) m) ;;
            order <-- t_call call_argsort (argsort similarities) ;;
            let top_indices := rev (last_k top_k order) in
            ([], collect_results (faqs self) similarities top_indices)
        end
  end.

Definition get_answer (self : FAQRAGSystem) (query : string)
  : traced (option string * bool) :=
  similar_faqs <-- _find_similar_faqs self query 2 ;;
  match similar_faqs with
  | (best_match, confidence) :: _ =>
      if gt confidence accept_threshold
      then t_ret (Some (answer best_match), true)
      else t_ret (None, false)
  | [] => t_ret (None, false)
  end.

(** The index is built and in step with the entries: row [i] of the matrix
    is the row of the question of entry [i]. *)
Definition index_built (self : FAQRAGSystem) (vz : fitted) (m : matrix)
  : Prop :=
  vectorizer self = Some vz
  /\ faq_vectors self = Some m
  /\ m = map (transform vz) (map question (faqs self)).

End WithLibrary.

(** What the module meets in the libraries it calls.  [fit_transform] of
    scikit-learn returns a SciPy sparse matrix (a [csr_matrix]), and that
    type has no attribute [any]: the look-up in the guard of
    [_find_similar_faqs] raises [AttributeError]. *)
Class Contract (L : Library) : Prop := {
  any_missing : forall m, any_entry m = Raise (AttributeError "any");
  (** [fit_transform] gives one row per document, the row [transform]
      gives for that document once fitted *)
  fit_rows : forall docs vz m,
    fit_transform docs = Some (vz, m) -> m = map (transform vz) docs
}.

(** ** The other methods of the system *)


Section Listings.

Context {L : Library}.


(** [search_faqs_by_category] *)
Definition search_faqs_by_category (self : FAQRAGSystem) (wanted : string)
  : list FAQ :=
  filter (fun faq => String.eqb (lower (category faq)) (lower wanted))
         (faqs self).

(** The systems the module builds: the constructed one and what
    [add_faq] makes of them. *)
Inductive reachable : FAQRAGSystem -> Prop :=
| reachable_init : reachable __init__
| reachable_add (self : FAQRAGSystem) (q a c : string) :
    reachable self -> reachable (add_faq self q a c).

End Listings.

(** [self.model.generate_content(prompt).text] *)
Class Model : Type := { model_generate_content : string -> result string }.

Definition line_feed : string := String (ascii_of_nat 10) EmptyString.

(** The indentation of the lines of the prompt in the source. *)
Definition margin : string := "            ".

(** The f-string [context_prompt]. *)
Definition context_prompt_of (query faq_answer conversation_context : string)
  : string :=
  String.concat line_feed
    [ EmptyString;
      margin ++ "You are an AI assistant for an e-commerce invoice system. ";
      margin ++ "Based on the user's query and the FAQ answer below, provide a helpful response.";
      margin;
      margin ++ "User Query: " ++ query;
      margin;
      margin ++ "FAQ Answer: " ++ faq_answer;
      margin;
      margin ++ "Conversation Context: " ++ conversation_context;
      margin;
      margin ++ "Provide a helpful, concise response that addresses the user's specific query.";
      margin ++ "If the FAQ doesn't fully address the query, acknowledge the limitation and offer assistance.";
      margin ].

(** [str(x)] for an optional string *)
Definition str_of_optional (x : option string) : string :=
  match x with
  | Some s => s
  | None => "None"
  end.

Section WithModel.

Context {L : Library} {G : Model}.

(** [get_contextual_answer]: the prompts sent to the model, then the
    library calls and the outcome.  An exception of the model call is
    caught and the answer of the entry returned. *)
Definition get_contextual_answer (self : FAQRAGSystem)
    (query conversation_context : string)
  : list string * traced (option string) :=
  match get_answer self query with
  | (library_calls, Raise e) => ([], (library_calls, Raise e))
  | (library_calls, Ok (faq_answer, is_from_faq)) =>
      if is_from_faq then
        let context_prompt :=
          context_prompt_of query (str_of_optional faq_answer)
            conversation_context in
        ([context_prompt],
         (library_calls,
          Ok (match model_generate_content context_prompt with
              | Ok response_text => Some response_text
              | Raise _ => faq_answer
              end)))
      else ([], (library_calls, Ok None))
  end.

End WithModel.

End RAG.

(* ================================================================== *)
(** * core/currency_converter.py *)
(* ================================================================== *)

Module Currency.

Local Open Scope string_scope.

(** The exceptions that occur in the module.  [RequestException] stands
    for [requests.exceptions.RequestException] and its subclasses, with
    the text that [str()] gives for it. *)
Inductive exn : Type :=
| RequestException (text : string)
| RuntimeError (message : string)
| ValueError (message : string)
| KeyError (key : string)
| TypeError
| AttributeError
| ZeroDivisionError
| OtherError.

Inductive res (A : Type) : Type :=
| Return (a : A)
| Throw (e : exn).

Arguments Return {A} a.
Arguments Throw {A} e.

(** An exception of a subscript or a membership test. *)
Definition of_py {A : Type} (r : result A) : res A :=
  match r with
  | Ok a => Return a
  | Raise (Py.KeyError k) => Throw (KeyError k)
  | Raise Py.TypeError => Throw TypeError
  | Raise _ => Throw OtherError
  end.

(** What the module calls on strings and numbers. *)
Class Services : Type := {
  (** [s.upper()] *)
  upper : string -> string;
  (** [to_rate / from_rate] on two values of the decoded response *)
  truediv : value -> value -> res value;
  (** [round(amount * rate, 2)] *)
  round_product : value -> value -> res value
}.

(** The surroundings of the converter: the clock and the rate service.
    Reading [k] of [datetime.now()] is [now_readings k], in microseconds;
    request [k], for a URL, has the outcome [get_json k url] of
    [requests.get(url, timeout=10)], [raise_for_status()] and
    [response.json()] together. *)
Record world : Type := mkWorld {
  now_readings : nat -> Z;
  clock_reads : nat;
  get_json : nat -> string -> res value;
  requested : list string
}.

Record CurrencyConverter : Type := mkCurrencyConverter {
  api_key : option string;
  base_url : string;
  cache_duration : Z;
  cache : list (string * value);
  last_cache_update : list (string * Z)
}.

(** [timedelta(minutes=30)] in microseconds *)
Definition thirty_minutes : Z := 30 * 60 * 1000000.

(** [CurrencyConverter()], given [os.getenv("EXCHANGE_RATE_API_KEY")] *)
Definition __init__ (EXCHANGE_RATE_API_KEY : option string)
  : CurrencyConverter :=
  mkCurrencyConverter EXCHANGE_RATE_API_KEY
    "https://api.exchangerate-api.com/v4/latest/" thirty_minutes [] [].

(** A method: it may raise, and it may change the converter and use the
    surroundings on the way; what it changed stays changed when it
    raises. *)
Definition M (A : Type) : Type :=
  CurrencyConverter * world -> res A * (CurrencyConverter * world).

Definition ret {A : Type} (a : A) : M A := fun s => (Return a, s).

Definition throw {A : Type} (e : exn) : M A := fun s => (Throw e, s).

Definition lift {A : Type} (r : res A) : M A := fun s => (r, s).

Definition bindM {A B : Type} (m : M A) (k : A -> M B) : M B :=
  fun s =>
    match m s with
    | (Return a, s') => k a s'
    | (Throw e, s') => (Throw e, s')
    end.

Notation "x <<- m ;; k" := (bindM m (fun x => k))
  (at level 61, m at next level, right associativity).

Definition get_self : M CurrencyConverter := fun s => (Return (fst s), s).

Definition put_self (self : CurrencyConverter) : M unit :=
  fun s => (Return tt, (self, snd s)).

(** The surroundings after one more reading of the clock. *)
Definition ticked (w : world) : world :=
  mkWorld (now_readings w) (S (clock_reads w)) (get_json w) (requested w).

(** The surroundings after one more request. *)
Definition asked (url : string) (w : world) : world :=
  mkWorld (now_readings w) (clock_reads w) (get_json w)
    (requested w ++ [url])%list.

(** [datetime.now()] *)
Definition datetime_now : M Z :=
  fun s =>
    let w := snd s in
    (Return (now_readings w (clock_reads w)), (fst s, ticked w)).

(** [requests.get(url, timeout=10)], [raise_for_status()], [json()] *)
Definition requests_get_json (url : string) : M value :=
  fun s =>
    let w := snd s in
    (get_json w (List.length (requested w)) url, (fst s, asked url w)).

(** [x in v] for a string [x] *)
Definition value_in (x : string) (v : value) : res bool :=
  match v with
  | VDict d => Return (dict_in x d)
  | VList l =>
      Return (existsb (fun e => match e with
                                | VStr s => String.eqb x s
                                | _ => false
                                end) l)
  | VStr s => Return (contains x s)
  | _ => Throw TypeError
  end.

(** The two [except] clauses of [_fetch_exchange_rate]. *)
Definition fetch_handler (e : exn) : exn :=
  match e with
  | RequestException text =>
      RuntimeError ("Failed to fetch exchange rate: " ++ text)
  | KeyError _ => ValueError "Invalid response format from exchange rate API"
  | _ => e
  end.

Definition try_fetch {A : Type} (body : M A) : M A :=
  fun s =>
    match body s with
    | (Return a, s') => (Return a, s')
    | (Throw e, s') => (Throw (fetch_handler e), s')
    end.

Definition source_not_supported (from_currency : string) : string :=
  "Source currency '" ++ from_currency ++ "' not supported".

Definition target_not_supported (to_currency : string) : string :=
  "Target currency '" ++ to_currency ++ "' not supported".

Section WithServices.

Context {V : Services}.

Definition base_currency_of (from_currency : string) : string :=
  if negb (String.eqb from_currency "USD") then "USD" else "EUR".

Definition _fetch_exchange_rate (from_currency to_currency : string)
  : M value :=
  let base_currency := base_currency_of from_currency in
  try_fetch
    (self <<- get_self ;;
     let url := base_url self ++ base_currency in
     data <<- requests_get_json url ;;
     rates <<- lift (of_py (getitem data "rates")) ;;
     has_source <<- lift (value_in from_currency rates) ;;
     if negb has_source
     then throw (ValueError (source_not_supported from_currency))
     else
       has_target <<- lift (value_in to_currency rates) ;;
       if negb has_target
       then throw (ValueError (target_not_supported to_currency))
       else
         from_rate <<- lift (of_py (getitem rates from_currency)) ;;
         to_rate <<- lift (of_py (getitem rates to_currency)) ;;
         lift (truediv to_rate from_rate)).

(** [f"{from_currency}_{to_currency}"] *)
Definition cache_key_of (from_currency to_currency : string) : string :=
  from_currency ++ "_" ++ to_currency.

(** [d[k]] on the two dictionaries of the converter *)
Definition subscript {A : Type} (d : list (string * A)) (k : string) : res A :=
  match find (fun kv => String.eqb k (fst kv)) d with
  | Some kv => Return (snd kv)
  | None => Throw (KeyError k)
  end.

Definition has_key {A : Type} (k : string) (d : list (string * A)) : bool :=
  existsb (fun kv => String.eqb k (fst kv)) d.

(** [d[k] = v] *)
Fixpoint store {A : Type} (k : string) (v : A) (d : list (string * A))
  : list (string * A) :=
  match d with
  | [] => [(k, v)]
  | (k', v') :: rest =>
      if String.eqb k k' then (k', v) :: rest else (k', v') :: store k v rest
  end.

(** The first part of [get_exchange_rate]: the cached rate, when there
    is one that is still valid. *)
Definition cached_rate (cache_key : string) : M (option value) :=
  self <<- get_self ;;
  if has_key cache_key (cache self) then
    now <<- datetime_now ;;
    last <<- lift (subscript (last_cache_update self) cache_key) ;;
    if (now - last <? cache_duration self)%Z then
      rate <<- lift (subscript (cache self) cache_key) ;;
      ret (Some rate)
    else ret None
  else ret None.

Definition get_exchange_rate (from_currency to_currency : string) : M value :=
  let cache_key := cache_key_of from_currency to_currency in
  cached <<- cached_rate cache_key ;;
  match cached with
  | Some rate => ret rate
  | None =>
      rate <<- _fetch_exchange_rate from_currency to_currency ;;
      self <<- get_self ;;
      _ <<- put_self
              (mkCurrencyConverter (api_key self) (base_url self)
                 (cache_duration self) (store cache_key rate (cache self))
                 (last_cache_update self)) ;;
      now <<- datetime_now ;;
      self <<- get_self ;;
      _ <<- put_self
              (mkCurrencyConverter (api_key self) (base_url self)
                 (cache_duration self) (cache self)
                 (store cache_key now (last_cache_update self))) ;;
      ret rate
  end.

Definition convert_amount (amount : value)
    (from_currency to_currency : string) : M value :=
  if String.eqb (upper from_currency) (upper to_currency) then ret amount
  else
    rate <<- get_exchange_rate (upper from_currency) (upper to_currency) ;;
    lift (round_product amount rate).

Definition default_currencies : list string :=
  ["USD"; "EUR"; "GBP"; "JPY"; "INR"; "CAD"; "AUD"; "CHF"; "CNY"; "SEK";
   "NZD"; "SGD"].

(** [list(v.keys())] *)
Definition keys_of (v : value) : res (list string) :=
  match v with
  | VDict d => Return (map fst d)
  | _ => Throw AttributeError
  end.

Definition get_supported_currencies : M (list string) :=
  fun s =>
    match (self <<- get_self ;;
           let url := base_url self ++ "USD" in
           data <<- requests_get_json url ;;
           rates <<- lift (of_py (getitem data "rates")) ;;
           lift (keys_of rates)) s with
    | (Return currencies, s') => (Return currencies, s')
    | (Throw _, s') => (Return default_currencies, s')
    end.

(** The module-level [convert_currency], on the singleton [converter]. *)
Definition convert_currency (amount : value)
    (from_currency to_currency : string) : M value :=
  convert_amount amount from_currency to_currency.

(** The converter after a fetched rate is stored. *)
Definition refreshed (self : CurrencyConverter) (key : string) (rate : value)
    (now : Z) : CurrencyConverter :=
  mkCurrencyConverter (api_key self) (base_url self) (cache_duration self)
    (store key rate (cache self)) (store key now (last_cache_update self)).

(** The outcomes of [get_exchange_rate], by the state of the cache. *)
Inductive rate_run (f t : string) (self : CurrencyConverter) (w : world)
  : res value -> CurrencyConverter -> world -> Prop :=
| run_hit (last : Z) (rate : value) :
    subscript (last_cache_update self) (cache_key_of f t) = Return last ->
    subscript (cache self) (cache_key_of f t) = Return rate ->
    (now_readings w (clock_reads w) - last < cache_duration self)%Z ->
    rate_run f t self w (Return rate) self (ticked w)
| run_unstamped (k : string) :
    has_key (cache_key_of f t) (cache self) = true ->
    has_key (cache_key_of f t) (last_cache_update self) = false ->
    rate_run f t self w (Throw (KeyError k)) self (ticked w)
| run_fetched (w0 : world) (rate : value) :
    w0 = w \/ w0 = ticked w ->
    _fetch_exchange_rate f t (self, w0)
    = (Return rate, (self, asked (base_url self ++ base_currency_of f) w0)) ->
    rate_run f t self w (Return rate)
      (refreshed self (cache_key_of f t) rate
         (now_readings w0 (clock_reads w0)))
      (ticked (asked (base_url self ++ base_currency_of f) w0))
| run_failed (w0 : world) (e : exn) :
    w0 = w \/ w0 = ticked w ->
    _fetch_exchange_rate f t (self, w0)
    = (Throw e, (self, asked (base_url self ++ base_currency_of f) w0)) ->
    (forall text, e <> RequestException text) ->
    (forall k, e <> KeyError k) ->
    rate_run f t self w (Throw e) self
      (asked (base_url self ++ base_currency_of f) w0).

End WithServices.


End Currency.

(* ================================================================== *)
(** * core/agent.py: ResponseGenerator and BizzHubChatbot *)
(* ================================================================== *)

Module Responder.

Import Agent.
Local Open Scope string_scope.

Record ChatResponse : Type := mkChatResponse {
  answer : string;
  (** a float literal of the source, kept as the rational it stands for *)
  confidence : Q;
  follow_up_questions : list string;
  source : string
}.

Definition newline : string := String (ascii_of_nat 10) EmptyString.

(** The lines of a string literal of the source, joined by newlines. *)
Definition text (ls : list string) : string := String.concat newline ls.

(** The pieces of an f-string, in order. *)
Definition concat_all (parts : list string) : string :=
  String.concat EmptyString parts.

(** The text that [str()] gives for a value that is not a string. *)
Class Text : Type := { repr_other : value -> string }.

(** [bool(v)] *)
Definition value_truthy (v : value) : bool :=
  match v with
  | VNone => false
  | VBool b => b
  | VInt z => negb (Z.eqb z 0)
  | VFloat q => negb (Qeq_bool q 0)
  | VStr s => negb (is_empty_str s)
  | VList l => match l with [] => false | _ :: _ => true end
  | VDict d => match d with [] => false | _ :: _ => true end
  end.

(** [v.get(key, default)] *)
Definition get_or (v : value) (key : string) (default : value) : result value :=
  match v with
  | VDict d => Ok (dict_get_default key default d)
  | _ => Raise (AttributeError "get")
  end.

Fixpoint chars (s : string) : list string :=
  match s with
  | EmptyString => []
  | String c rest => String c EmptyString :: chars rest
  end.

Fixpoint all_strings (vs : list value) : result (list string) :=
  match vs with
  | [] => Ok []
  | VStr s :: rest => others <- all_strings rest ;; Ok (s :: others)
  | _ :: _ => Raise TypeError
  end.

(** [sep.join(v)]: the items of a list have to be strings; a string
    gives its characters and a dict its keys. *)
Definition join_value (sep : string) (v : value) : result string :=
  match v with
  | VList l => ss <- all_strings l ;; Ok (String.concat sep ss)
  | VStr s => Ok (String.concat sep (chars s))
  | VDict d => Ok (String.concat sep (map fst d))
  | _ => Raise TypeError
  end.

Definition is_ascii_lower (c : ascii) : bool :=
  let n := nat_of_ascii c in ((97 <=? n)%nat && (n <=? 122)%nat).

Definition is_ascii_upper (c : ascii) : bool :=
  let n := nat_of_ascii c in ((65 <=? n)%nat && (n <=? 90)%nat).

(** [s.title()] on ASCII text (the keys of the location table are):
    a letter after a letter is lower-cased, any other letter is
    upper-cased. *)
Fixpoint title_from (previous_is_cased : bool) (s : string) : string :=
  match s with
  | EmptyString => EmptyString
  | String c rest =>
      let c' :=
        if is_ascii_lower c then
          if previous_is_cased then c
          else ascii_of_nat (nat_of_ascii c - 32)
        else if is_ascii_upper c then
          if previous_is_cased then ascii_of_nat (nat_of_ascii c + 32)
          else c
        else c in
      String c' (title_from (is_ascii_lower c || is_ascii_upper c) rest)
  end.

Definition title (s : string) : string := title_from false s.

(** [x == 'literal'] for an optional string. *)
Definition is_str (x : option string) (literal : string) : bool :=
  match x with
  | Some s => String.eqb s literal
  | None => false
  end.

(** [x or 'literal'] for an optional string. *)
Definition or_str (x : option string) (literal : string) : string :=
  match x with
  | Some (String c rest) => String c rest
  | _ => literal
  end.

Section WithText.

Context {T : Text}.

(** What an f-string puts for a value. *)
Definition str_of (v : value) : string :=
  match v with
  | VStr s => s
  | _ => repr_other v
  end.

Definition _format_general_pricing : string :=
  text [ "💼 **Pricing Overview:**";
           EmptyString;
           "**Co-Working Spaces:**";
           "• Hot Desk: ₹8,000 - ₹12,000/month";
           "• Dedicated Desk: ₹10,000 - ₹15,000/month";
           "• Day Pass: ₹800 - ₹1,200/day";
           EmptyString;
           "**Private Offices:**";
           "• 2-person cabin: ₹25,000 - ₹30,000/month";
           "• 4-person cabin: ₹35,000 - ₹40,000/month";
           "• Team suites (6-10p): ₹60,000 - ₹90,000/month";
           EmptyString;
           "**Additional Services:**";
           "• Parking: ₹800 - ₹2,000/month";
           "• Meeting Rooms: ₹500 - ₹1,500/hour";
           "• Virtual Office: ₹2,000 - ₹5,000/month";
           EmptyString;
           "*Note: All prices exclude GST. Exact rates depend on location and contract terms.*";
           EmptyString;
           "📞 For a personalized quote, contact our sales team at **080-4111-2000** or email **sales@bizzhub.com**." ].

Definition _format_specific_pricing (entity : option string) (info : value)
    (timeframe : string) : result string :=
  if is_str entity "co-working" then
    inner <- get_or info "daily" (VStr "₹8,000 - ₹12,000") ;;
    price <- get_or info "monthly" inner ;;
    let timeframe_display :=
      if String.eqb timeframe "monthly" then "/month" else "/day" in
    includes <- get_or info "includes"
                  (VList [VStr "Workspace access"; VStr "WiFi";
                          VStr "Basic amenities"]) ;;
    joined <- join_value ", " includes ;;
    Ok (concat_all
          [ text [ "💺 **Co-Working Space Pricing:**";
                 EmptyString;
                 "• **Price:** " ];
            str_of price;
            timeframe_display;
            text [ EmptyString;
                 "• **Includes:** " ];
            joined;
            text [ EmptyString;
                 EmptyString;
                 "💡 *Perfect for freelancers, remote workers, and small teams.*";
                 "📞 **Get exact quote:** Call 080-4111-2000 or visit our website." ] ])
  else if is_str entity "private_office" then
    price <- get_or info "monthly" (VStr "₹25,000 - ₹40,000") ;;
    includes <- get_or info "includes"
                  (VList [VStr "Private locked room"; VStr "Ergonomic chairs";
                          VStr "Custom layout"]) ;;
    joined <- join_value ", " includes ;;
    Ok (concat_all
          [ text [ "🚪 **Private Office Pricing:**";
                 EmptyString;
                 "• **Price:** " ];
            str_of price;
            text [ "/month";
                 "• **Includes:** " ];
            joined;
            text [ EmptyString;
                 EmptyString;
                 "💡 *Ideal for growing teams needing privacy and branding.*";
                 "📞 **Schedule a tour:** Call 080-4111-2000" ] ])
  else if is_str entity "parking" then
    price <- get_or info "monthly" (VStr "₹800 - ₹2,000") ;;
    Ok (concat_all
          [ text [ "🚗 **Parking Information:**";
                 EmptyString;
                 "• **Monthly parking:** " ];
            str_of price;
            text [ EmptyString;
                 "• **Availability:** All centers";
                 "• **Security:** CCTV monitored, 24/7";
                 EmptyString;
                 "📍 **Center-specific rates:**";
                 "- Koramangala: ₹1,000/month";
                 "- Whitefield: ₹1,500/month";
                 "- Electronic City: ₹800/month";
                 EmptyString;
                 "📞 **Confirm availability:** Call your nearest center." ] ])
  else
    description <- get_or info "description" (VStr "Service") ;;
    amount <- get_or info timeframe (VStr "Contact for pricing") ;;
    Ok (concat_all
          [ "**";
            str_of description;
            ":** ";
            str_of amount ]).

Definition _get_pricing_follow_ups (entity : option string) : list string :=
  if is_str entity "co-working" then
    [ "Do you need 24/7 access?";
            "How many meeting room hours do you need?";
            "Would you like to see our available centers?" ]
  else if is_str entity "private_office" then
    [ "How many people in your team?";
            "Do you need custom branding?";
            "Would you like a virtual tour?" ]
  else
    [ "What's your team size?";
            "Which location are you interested in?";
            "Do you need parking facilities?" ].

Definition _generate_pricing_response (kb : BizzHubKnowledgeBase)
    (intent : UserIntent) (question : string) : result ChatResponse :=
  if negb (is_specific intent) then
    Ok (mkChatResponse _format_general_pricing (9 # 10)%Q
          [ "Are you looking for co-working or private office?";
            "How many people are in your team?";
            "Do you need daily or monthly plans?" ]
          "knowledge_base")
  else
    let entity := entity intent in
    let timeframe := or_str (timeframe intent) "monthly" in
    pricing_info <- get_pricing kb entity (Some timeframe) ;;
    if negb (value_truthy pricing_info) then
      Ok (mkChatResponse
            "I understand you're asking about pricing. Could you specify if you're interested in co-working spaces, private offices, or other services?"
            (6 # 10)%Q (_get_pricing_follow_ups None) "knowledge_base")
    else
      answer <- _format_specific_pricing entity pricing_info timeframe ;;
      Ok (mkChatResponse answer (95 # 100)%Q (_get_pricing_follow_ups entity)
            "knowledge_base").

(** [kb.get_contact('general')['website']] *)
Definition general_website (kb : BizzHubKnowledgeBase) : result value :=
  general <- get_contact kb (Some "general") ;;
  getitem general "website".

Definition _generate_contact_response (kb : BizzHubKnowledgeBase)
    (intent : UserIntent) (question : string) : result ChatResponse :=
  if is_str (entity intent) "sales"
     || contains "visit" (lower question)
     || contains "tour" (lower question)
  then
    contact <- get_contact kb (Some "sales") ;;
    person <- getitem contact "person" ;;
    phone <- getitem contact "phone" ;;
    email <- getitem contact "email" ;;
    whatsapp <- getitem contact "whatsapp" ;;
    hours <- getitem contact "hours" ;;
    website <- general_website kb ;;
    Ok (mkChatResponse
          (concat_all
            [ text [ "📅 **Schedule a Site Visit:**";
                   EmptyString;
                   "• **Contact:** " ];
              str_of person;
              text [ " (Sales Manager)";
                   "• **Phone:** " ];
              str_of phone;
              text [ EmptyString;
                   "• **Email:** " ];
              str_of email;
              text [ EmptyString;
                   "• **WhatsApp:** " ];
              str_of whatsapp;
              text [ EmptyString;
                   "• **Hours:** " ];
              str_of hours;
              text [ EmptyString;
                   EmptyString;
                   "📍 **Available at all centers:**";
                   "- Koramangala: 080-4111-2222";
                   "- Whitefield: 080-4111-3333";
                   "- Electronic City: 080-4111-4444";
                   EmptyString;
                   "🌐 **Book online:** " ];
              str_of website;
              "/book-tour" ])
          (95 # 100)%Q
          [ "Which center would you like to visit?";
            "What time works for you?";
            "How many people in your team?" ]
          "knowledge_base")
  else
    contact <- get_contact kb (Some (or_str (entity intent) "general")) ;;
    phone <- getitem contact "phone" ;;
    email <- getitem contact "email" ;;
    hours <- getitem contact "hours" ;;
    website <- general_website kb ;;
    Ok (mkChatResponse
          (concat_all
            [ text [ "📞 **Contact BizzHub Workspaces:**";
                   EmptyString;
                   "**General Enquiries:**";
                   "• Phone: " ];
              str_of phone;
              text [ EmptyString;
                   "• Email: " ];
              str_of email;
              text [ EmptyString;
                   "• Hours: " ];
              str_of hours;
              text [ EmptyString;
                   EmptyString;
                   "**Website:** " ];
              str_of website;
              text [ EmptyString;
                   EmptyString;
                   "**Center Contacts:**";
                   "- Koramangala: 080-4111-2222";
                   "- Whitefield: 080-4111-3333  ";
                   "- Electronic City: 080-4111-4444";
                   "- Indiranagar: 080-4111-5555";
                   "- MG Road: 080-4111-6666";
                   EmptyString;
                   "**24/7 Support:** 080-4111-3000" ] ])
          (9 # 10)%Q
          [ "Are you looking for sales, support, or general info?";
            "Which center are you interested in?";
            "Can I help with anything specific?" ]
          "knowledge_base").

(** [kb.data['contact']['centers'][center]] *)
Definition center_contact (kb : BizzHubKnowledgeBase) (center : string)
  : result value :=
  contact <- getitem (data kb) "contact" ;;
  centers <- getitem contact "centers" ;;
  getitem centers center.

(** The loop over [locations.items()] that extends [answer]. *)
Fixpoint list_centers (kb : BizzHubKnowledgeBase) (items : dict)
    (answer : string) : result string :=
  match items with
  | [] => Ok answer
  | (center, address) :: rest =>
      contact <- center_contact kb center ;;
      phone <- getitem contact "phone" ;;
      manager <- getitem contact "manager" ;;
      list_centers kb rest
        (answer ++ concat_all
            [ "• **";
              title center;
              ":** ";
              str_of address;
              text [ EmptyString;
                   "   📞 " ];
              str_of phone;
              " (Manager: ";
              str_of manager;
              text [ ")";
                   EmptyString;
                   EmptyString ] ])
  end.

Definition _generate_location_response (kb : BizzHubKnowledgeBase)
    (intent : UserIntent) (question : string) : result ChatResponse :=
  match entity intent with
  | Some (String c0 rest0) =>
      let center := String c0 rest0 in
      location_info <- get_location kb (Some center) ;;
      locations <- getitem (data kb) "locations" ;;
      address <- getitem locations center ;;
      contact1 <- center_contact kb center ;;
      phone <- getitem contact1 "phone" ;;
      contact2 <- center_contact kb center ;;
      manager <- getitem contact2 "manager" ;;
      website <- general_website kb ;;
      Ok (mkChatResponse
            (concat_all
              [ "📍 **BizzHub ";
                title center;
                text [ " Center:**";
                     EmptyString;
                     "**Address:** " ];
                str_of address;
                text [ EmptyString;
                     "**Contact:** " ];
                str_of phone;
                text [ EmptyString;
                     "**Manager:** " ];
                str_of manager;
                text [ EmptyString;
                     EmptyString;
                     "**Features:**";
                     "- High-speed WiFi";
                     "- Meeting rooms";
                     "- Parking available";
                     "- 24/7 access (for members)";
                     "- Pantry facilities";
                     EmptyString;
                     "🚗 **Get directions:** " ];
                str_of website;
                "/locations/";
                center ])
            (95 # 100)%Q
            [ "Would you like to book a tour?";
            "Do you need parking information?";
            "What are your working hours?" ]
            "knowledge_base")
  | _ =>
      locations <- get_location kb None ;;
      items <- match locations with
               | VDict d => Ok d
               | _ => Raise (AttributeError "items")
               end ;;
      listed <- list_centers kb items
                  (text [ "📍 **Our Bangalore Centers:**";
                         EmptyString;
                         EmptyString ]) ;;
      website <- general_website kb ;;
      Ok (mkChatResponse
            (listed ++ concat_all
              [ "🌐 **View all centers:** ";
                str_of website;
                "/locations" ])
            (9 # 10)%Q
            [ "Which center are you closest to?";
            "Would you like directions to a specific center?";
            "Do you need center-specific pricing?" ]
            "knowledge_base")
  end.

Definition _generate_facility_response (kb : BizzHubKnowledgeBase)
    (intent : UserIntent) (question : string) : result ChatResponse :=
  if is_str (entity intent) "parking" then
    pricing <- get_pricing kb (Some "parking") None ;;
    monthly <- get_or pricing "monthly" (VStr "₹800 - ₹2,000") ;;
    description <- get_or pricing "description"
                     (VStr "Secure parking available") ;;
    Ok (mkChatResponse
          (concat_all
            [ text [ "🚗 **Parking Facilities:**";
                   EmptyString;
                   "**Availability:** All centers";
                   "**Cost:** " ];
              str_of monthly;
              text [ "/month";
                   EmptyString;
                   "**Center-Specific Rates:**";
                   EmptyString ];
              str_of description;
              text [ EmptyString;
                   EmptyString;
                   "**Features:**";
                   "• CCTV monitored 24/7";
                   "• Dedicated slots for members";
                   "• Visitor parking available";
                   "• EV charging (Whitefield & Electronic City)";
                   EmptyString;
                   "📞 **Reserve parking:** Contact your nearest center" ] ])
          (95 # 100)%Q
          [ "Which center are you at?";
            "Do you need monthly or visitor parking?";
            "Do you have an electric vehicle?" ]
          "knowledge_base")
  else if is_str (entity intent) "internet" then
    facility <- get_facility kb (Some "internet") ;;
    speed <- getitem facility "speed" ;;
    Ok (mkChatResponse
          (concat_all
            [ text [ "🌐 **Internet Services:**";
                   EmptyString;
                   "**Speed:** " ];
              str_of speed;
              text [ " dedicated fiber";
                   "**Availability:** Included in all plans";
                   "**Reliability:** 99.9% uptime guarantee";
                   EmptyString;
                   "**Features:**";
                   "• Enterprise-grade security";
                   "• Separate guest network";
                   "• IT support available";
                   "• Backup connection";
                   EmptyString;
                   "💡 *Perfect for video calls, large uploads, and remote teams.*" ] ])
          (95 # 100)%Q
          [ "Do you need dedicated bandwidth?";
            "How many devices will connect?";
            "Do you require VPN setup?" ]
          "knowledge_base")
  else
    facilities <- get_facility kb None ;;
    Ok (mkChatResponse
          (text [ "🛠️ **Our Facilities & Amenities:**";
                 EmptyString;
                 "**Core Services:**";
                 "• High-speed internet (100 Mbps, included)";
                 "• Meeting rooms (book by hour/day)";
                 "• 24/7 access for members";
                 "• Secure parking (additional cost)";
                 EmptyString;
                 "**Additional Amenities:**";
                 "• Pantry with tea/coffee";
                 "• Printing & scanning";
                 "• Mail handling";
                 "• Reception support";
                 "• Community events";
                 "• Basic IT support";
                 EmptyString;
                 "**Premium Services:**";
                 "• Dedicated internet lines";
                 "• Premium IT support";
                 "• Custom branding";
                 "• Event space rental";
                 EmptyString;
                 "📞 **Learn more:** 080-4111-1000" ])
          (9 # 10)%Q
          [ "Which facility are you most interested in?";
            "Do you need specific equipment?";
            "What's your team size?" ]
          "knowledge_base").

Definition _generate_general_response (question : string) : ChatResponse :=
  mkChatResponse
    (text [ "🏢 **Welcome to BizzHub Workspaces!**";
           EmptyString;
           "I can help you with:";
           "• **Pricing & Plans** - Co-working, private offices, day passes";
           "• **Locations** - Our 5 centers across Bangalore  ";
           "• **Facilities** - Internet, parking, meeting rooms";
           "• **Contact Information** - Phone, email, site visits";
           EmptyString;
           "What would you like to know about?" ])
    (7 # 10)%Q
    [ "What type of workspace do you need?";
            "How many people are in your team?";
            "Which area of Bangalore are you in?" ]
    "general_knowledge".

Definition generate_response (kb : BizzHubKnowledgeBase) (intent : UserIntent)
    (original_question : string) : result ChatResponse :=
  match type intent with
  | PRICING => _generate_pricing_response kb intent original_question
  | CONTACT => _generate_contact_response kb intent original_question
  | LOCATION => _generate_location_response kb intent original_question
  | FACILITY => _generate_facility_response kb intent original_question
  | GENERAL => Ok (_generate_general_response original_question)
  end.

(** ** BizzHubChatbot *)

Record BizzHubChatbot : Type := mkChatbot {
  knowledge_base : BizzHubKnowledgeBase;
  conversation_history : list dict
}.

(** [BizzHubChatbot()] *)
Definition new_chatbot : BizzHubChatbot := mkChatbot kb [].

Definition _format_output (response : ChatResponse) : string :=
  concat_all [answer response; text [EmptyString; EmptyString; EmptyString]].

(** [history[-1]['response'] = answer] *)
Fixpoint set_last_response (history : list dict) (answer : string)
  : result (list dict) :=
  match history with
  | [] => Raise IndexError
  | [last] => Ok [dict_set "response" (VStr answer) last]
  | entry :: rest =>
      rest' <- set_last_response rest answer ;;
      Ok (entry :: rest')
  end.

(** [process_message]; [timestamp] is what [_get_timestamp()] reads from
    the clock.  The chatbot comes back as the call leaves it, also when
    the call raises. *)
Definition process_message (self : BizzHubChatbot) (user_message : string)
    (timestamp : string) : result string * BizzHubChatbot :=
  let history :=
    (conversation_history self
     ++ [dict_literal [("user", VStr user_message);
                       ("timestamp", VStr timestamp)]])%list in
  let self1 := mkChatbot (knowledge_base self) history in
  let intent := parse user_message in
  match generate_response (knowledge_base self) intent user_message with
  | Raise e => (Raise e, self1)
  | Ok response =>
      match set_last_response history (answer response) with
      | Raise e => (Raise e, self1)
      | Ok history' =>
          (Ok (_format_output response),
           mkChatbot (knowledge_base self) history')
      end
  end.

End WithText.

(** ** The intents the parser can give *)

Definition is_None {A : Type} (o : option A) : bool :=
  match o with
  | None => true
  | Some _ => false
  end.

(** [x] is [None] or one of the names. *)
Definition one_of (names : list string) (x : option string) : bool :=
  match x with
  | None => true
  | Some s => existsb (String.eqb s) names
  end.

(** The shape of an intent that [parse] returns: the entity is a key of
    the pattern table of the category (for a facility, one of the four
    names of the parser), [is_specific] says whether there is one, and a
    timeframe comes with pricing only. *)
Definition parser_intent (i : UserIntent) : bool :=
  Bool.eqb (is_specific i) (is_not_None (entity i))
  && match type i with
     | PRICING =>
         one_of (map fst pricing_patterns) (entity i)
         && one_of ["monthly"; "daily"; "hourly"] (timeframe i)
     | CONTACT =>
         one_of (map fst contact_patterns) (entity i) && is_None (timeframe i)
     | LOCATION =>
         one_of (map fst location_patterns) (entity i) && is_None (timeframe i)
     | FACILITY =>
         one_of ["parking"; "internet"; "meeting_room"; "access_hours"]
                (entity i)
         && is_None (timeframe i)
     | GENERAL => is_None (entity i) && is_None (timeframe i)
     end.

(** The confidence values of the module. *)
Definition confidence_levels : list Q := [(6 # 10)%Q; (7 # 10)%Q; (9 # 10)%Q; (95 # 100)%Q].

End Responder.

(* ================================================================== *)
(** * The tool-call convention of the Gemini prompt *)
(* ================================================================== *)

Module Protocol.

Import LLM.
Local Open Scope string_scope.

(** The JSON text that the enhanced prompt asks the model for: a tool
    name and an arguments object with the given body. *)
Definition tool_call_text (tool_name body : string) : string :=
  "{" ++ dq ++ "tool" ++ dq ++ ": " ++ dq ++ tool_name ++ dq ++ ", "
  ++ dq ++ "arguments" ++ dq ++ ": {" ++ body ++ "}}".

(** The same request without arguments. *)
Definition bare_tool_call_text (tool_name : string) : string :=
  "{" ++ dq ++ "tool" ++ dq ++ ": " ++ dq ++ tool_name ++ dq ++ "}".

Fixpoint has_char (c : ascii) (s : string) : bool :=
  match s with
  | EmptyString => false
  | String d rest => Ascii.eqb c d || has_char c rest
  end.

(** The three names that [ToolCall.execute] knows. *)
Definition builtin_tools : list string :=
  ["currency_converter"; "get_current_time"; "calculate"].

End Protocol.

(* ================================================================== *)
(** * Concrete collaborators for the examples *)
(* ================================================================== *)

Module Scenario.

Import LLM.
Local Open Scope string_scope.

(** A world given by its two model back ends.  [eval] knows one sum,
    the rate service is out of reach. *)
Definition world (gemini : string -> result string)
    (chat : list chat_message -> option (list value) -> result (list message))
  : Collaborators :=
  {| Callable := unit;
     convert_currency := fun _ _ _ => Raise LibraryError;
     strftime_now := "2024-01-01 00:00:00";
     py_eval := fun e => if String.eqb e "2+2*5" then Ok (VInt 12)
                         else Raise LibraryError;
     json_loads := fun _ => Raise LibraryError;
     format_value := fun _ => "<value>";
     generate_content := gemini;
     ChatCompletion_create := chat |}.

Definition down {A : Type} : result A := Raise LibraryError.

(** Gemini answers in plain words; OpenAI cannot be reached. *)
Definition chatty_gemini : Collaborators :=
  world (fun _ => Ok "Hello! How can I help you today?") (fun _ _ => down).

(** Gemini cannot be reached; OpenAI answers in plain words. *)
Definition only_openai_up : Collaborators :=
  world (fun _ => down)
        (fun _ _ => Ok [mkMessage (Some "Hello from the second provider.") None]).

(** No back end can be reached. *)
Definition all_down : Collaborators :=
  world (fun _ => down) (fun _ _ => down).

Definition no_keys : environ := mkEnviron None None.
Definition gemini_key : environ := mkEnviron (Some "g-key") None.
Definition both_keys : environ := mkEnviron (Some "g-key") (Some "o-key").

(** ** A small library for the retrieval examples

    Terms are the lower-cased words between white space; a row holds 1
    for the words of the vocabulary that occur in the text; two rows that
    share a word have similarity 1 when they are equal and 1/2 otherwise;
    the sort is stable, so indices with equal scores stay in ascending
    order; the matrix is sparse and has no [any]. *)

Fixpoint split_words (s cur : string) : list string :=
  match s with
  | EmptyString => if is_empty_str cur then [] else [cur]
  | String c rest =>
      if isspace c then
        if is_empty_str cur then split_words rest EmptyString
        else cur :: split_words rest EmptyString
      else split_words rest (cur ++ String (lower_char c) EmptyString)
  end.

Definition words (s : string) : list string := split_words s EmptyString.

Definition has_word (ws : list string) (w : string) : bool :=
  existsb (String.eqb w) ws.

Fixpoint dedup (ws : list string) : list string :=
  match ws with
  | [] => []
  | w :: rest => if has_word rest w then dedup rest else w :: dedup rest
  end.

Definition toy_transform (vocabulary : list string) (text : string)
  : RAG.vector :=
  map (fun w => if has_word (words text) w then 1%Q else 0%Q) vocabulary.

Definition toy_fit_transform (docs : list string)
  : option (list string * RAG.matrix) :=
  match dedup (flat_map words docs) with
  | [] => None
  | vocabulary => Some (vocabulary, map (toy_transform vocabulary) docs)
  end.

Fixpoint row_eqb (u v : RAG.vector) : bool :=
  match u, v with
  | [], [] => true
  | a :: u', b :: v' => Qeq_bool a b && row_eqb u' v'
  | _, _ => false
  end.

Definition nonzero (w : Q) : bool := negb (Qeq_bool w 0).

(** Two rows share a column where both weights are non-zero: the texts
    share a word of the vocabulary. *)
Definition overlap (u v : RAG.vector) : bool :=
  existsb (fun ab => nonzero (fst ab) && nonzero (snd ab)) (combine u v).

Definition toy_cosine (u v : RAG.vector) : Q :=
  if overlap u v then (if row_eqb u v then 1%Q else (1 # 2)%Q) else 0%Q.

(** Index [i] goes before the first index of a greater score. *)
Fixpoint insert_index (a : list Q) (i : nat) (sorted : list nat) : list nat :=
  match sorted with
  | [] => [i]
  | j :: rest =>
      if negb (Qle_bool (nth j a 0%Q) (nth i a 0%Q)) then i :: j :: rest
      else j :: insert_index a i rest
  end.

Definition toy_argsort (a : list Q) : list nat :=
  fold_left (fun sorted i => insert_index a i sorted)
            (seq 0 (List.length a)) [].

Definition toy_library : RAG.Library :=
  {| RAG.fitted := list string;
     RAG.fit_transform := toy_fit_transform;
     RAG.transform := toy_transform;
     RAG.any_entry := fun _ => Raise (AttributeError "any");
     RAG.cosine := toy_cosine;
     RAG.argsort := toy_argsort |}.

(** The system as constructed, over the small library. *)
Definition toy_system : @RAG.FAQRAGSystem toy_library :=
  @RAG.__init__ toy_library.

(** The matrix of the constructed system. *)
Definition toy_matrix : RAG.matrix :=
  Eval vm_compute in
    match @RAG.faq_vectors toy_library toy_system with
    | Some m => m
    | None => []
    end.

(** A rendering of non-string values for the examples of the response
    generator. *)
Definition plain_text : Responder.Text :=
  {| Responder.repr_other := fun _ => "<value>" |}.

(** Gemini asks for a currency conversion; the arguments decode, and the
    rate service rejects the currency code. *)
Definition conversion_request : string :=
  Protocol.tool_call_text "currency_converter"
    (dq ++ "amount" ++ dq ++ ": 100, " ++ dq ++ "from_currency" ++ dq ++ ": "
     ++ dq ++ "USD" ++ dq ++ ", " ++ dq ++ "to_currency" ++ dq ++ ": "
     ++ dq ++ "XXX" ++ dq).

Definition conversion_arguments : value :=
  VDict [ ("amount", VInt 100); ("from_currency", VStr "USD");
          ("to_currency", VStr "XXX") ].

Definition rejecting_rates : Collaborators :=
  {| Callable := unit;
     convert_currency := fun _ _ _ => Raise LibraryError;
     strftime_now := "2024-01-01 00:00:00";
     py_eval := fun _ => Raise LibraryError;
     json_loads := fun _ => Ok conversion_arguments;
     format_value := fun _ => "<value>";
     generate_content := fun _ => Ok conversion_request;
     ChatCompletion_create := fun _ _ => down |}.

(** Gemini asks for a tool that was registered through the decorator. *)
Definition weather_request : string :=
  Protocol.tool_call_text "weather"
    (dq ++ "city" ++ dq ++ ": " ++ dq ++ "Pune" ++ dq).

Definition asks_for_weather : Collaborators :=
  {| Callable := unit;
     convert_currency := fun _ _ _ => Raise LibraryError;
     strftime_now := "2024-01-01 00:00:00";
     py_eval := fun _ => Raise LibraryError;
     json_loads := fun _ => Ok (VDict [("city", VStr "Pune")]);
     format_value := fun _ => "<value>";
     generate_content := fun _ => Ok weather_request;
     ChatCompletion_create := fun _ _ => down |}.

Definition weather_schema : value :=
  VDict [ ("description", VStr "Weather of a city");
          ("parameters", VDict [("type", VStr "object")]) ].

Definition openai_key : environ := mkEnviron None (Some "o-key").

(** The schemas that [get_available_tools] lists for a manager. *)
Definition offered `{W : Collaborators} (self : LLMManager) : list value :=
  match get_available_tools self with
  | Ok tools => tools
  | Raise _ => []
  end.

(** Managers with one tool registered through the decorator. *)
Definition converter_manager : LLMManager (W := rejecting_rates) :=
  snd (@decorate rejecting_rates "currency_converter"
         currency_converter_schema tt (@__init__ rejecting_rates gemini_key)).

Definition weather_manager : LLMManager (W := asks_for_weather) :=
  snd (@decorate asks_for_weather "weather" weather_schema tt
         (@__init__ asks_for_weather gemini_key)).

(** Gemini asks for the current time, a tool without arguments. *)
Definition time_request : string :=
  "One moment. " ++ Protocol.bare_tool_call_text "get_current_time".

Definition asks_for_time : Collaborators :=
  world (fun _ => Ok time_request) (fun _ _ => down).

Definition clock_manager : LLMManager (W := asks_for_time) :=
  snd (@decorate asks_for_time "get_current_time" get_current_time_schema tt
         (@__init__ asks_for_time gemini_key)).

(** OpenAI is the one configured provider and answers in plain words. *)
Definition openai_manager : LLMManager (W := only_openai_up) :=
  snd (@decorate only_openai_up "weather" weather_schema tt
         (@__init__ only_openai_up openai_key)).

(** No provider is configured, and a tool is registered with a schema
    that has neither a description nor parameters. *)
Definition note_manager : LLMManager (W := all_down) :=
  snd (@decorate all_down "note" (VDict []) tt (@__init__ all_down no_keys)).

(** The same tool registered twice. *)
Definition twice_registered : LLMManager (W := all_down) :=
  snd (@decorate all_down "weather" weather_schema tt
         (snd (@decorate all_down "weather" weather_schema tt
                 (@__init__ all_down no_keys)))).

(** ** The retrieval system *)

(** A system object before its entries are loaded. *)
Definition bare_system : @RAG.FAQRAGSystem toy_library :=
  @RAG.mkFAQRAGSystem toy_library [] None None.

(** The constructed system with one more entry. *)
Definition grown_system : @RAG.FAQRAGSystem toy_library :=
  @RAG.add_faq toy_library toy_system "Where is my refund?"
    "Refunds reach you within five days." "payment".

(** The model cannot be reached. *)
Definition silent_model : RAG.Model :=
  {| RAG.model_generate_content := fun _ => Raise LibraryError |}.

(** ** The currency converter

    In the examples [upper] acts on the letters a to z, and exact
    arithmetic on rationals stands for the floats; products are not
    rounded. *)

Definition upper_char (c : ascii) : ascii :=
  let n := nat_of_ascii c in
  if ((97 <=? n)%nat && (n <=? 122)%nat) then ascii_of_nat (n - 32) else c.

Fixpoint upper_letters (s : string) : string :=
  match s with
  | EmptyString => EmptyString
  | String c rest => String (upper_char c) (upper_letters rest)
  end.

Definition exact_services : Currency.Services :=
  {| Currency.upper := upper_letters;
     Currency.truediv := fun a b =>
       match a, b with
       | VFloat x, VFloat y =>
           if Qeq_bool y 0 then Currency.Throw Currency.ZeroDivisionError
           else Currency.Return (VFloat (Qred (x / y)))
       | _, _ => Currency.Throw Currency.TypeError
       end;
     Currency.round_product := fun a r =>
       match a, r with
       | VFloat x, VFloat y => Currency.Return (VFloat (Qred (x * y)))
       | _, _ => Currency.Throw Currency.TypeError
       end |}.

(** The answer of the rate service for the table of USD. *)
Definition usd_table : value :=
  VDict [ ("base", VStr "USD");
          ("rates", VDict [ ("USD", VFloat 1%Q); ("EUR", VFloat (9 # 10)%Q);
                            ("INR", VFloat 81%Q) ]) ].

(** The service answers every request with that table; the clock
    advances one second per reading. *)
Definition steady_world : Currency.world :=
  Currency.mkWorld (fun k => (Z.of_nat k * 1000000)%Z) 0
    (fun _ _ => Currency.Return usd_table) [].


Definition fresh_converter : Currency.CurrencyConverter :=
  Currency.__init__ None.

(** The converter and the surroundings after a first look-up of the
    rate from EUR to INR. *)
Definition after_first_rate : Currency.CurrencyConverter * Currency.world :=
  snd (@Currency.get_exchange_rate exact_services "EUR" "INR"
         (fresh_converter, steady_world)).


End Scenario.

(* ================================================================== *)
(** * Properties of core/agent.py *)
(* ================================================================== *)

Module AgentProofs.

Import Agent.

Lemma first_entity_None (table : list (string * list string)) (q : string) :
  (forall e ps p, In (e, ps) table -> In p ps -> contains p q = false) ->
  first_entity table q = None.
Proof.
  induction table as [|[e ps] rest IH]; intros Hno; cbn [first_entity].
  - reflexivity.
  - assert (Hps : any_in ps q = false).
    { unfold any_in. apply not_true_is_false. intros Hex.
      apply existsb_exists in Hex. destruct Hex as (p & Hin & Hp).
      rewrite (Hno e ps p (or_introl eq_refl) Hin) in Hp. discriminate. }
    rewrite Hps. apply IH. intros e' ps' p Hin Hp.
    apply (Hno e' ps' p); [right; exact Hin | exact Hp].
Qed.

Lemma first_entity_Some (table : list (string * list string)) (q e : string) :
  first_entity table q = Some e ->
  exists before ps after,
    table = (before ++ (e, ps) :: after)%list
    /\ any_in ps q = true
    /\ Forall (fun ep => any_in (snd ep) q = false) before.
Proof.
  induction table as [|[e' ps'] rest IH]; cbn [first_entity]; [discriminate|].
  destruct (any_in ps' q) eqn:Hany; intros H.
  - injection H as <-. exists [], ps', rest. auto.
  - destruct (IH H) as (before & ps & after & -> & Hps & Hbefore).
    exists ((e', ps') :: before), ps, after. repeat split; auto.
Qed.

(** C6. [parse] is an ordered cascade over the lower-cased question:
    a pricing keyword gives the pricing parser and category pricing; failing
    that a contact keyword gives category contact; failing that a location
    keyword gives category location; failing that a facility keyword gives
    category facility; with no keyword at all the intent is general and not
    specific.  A question with a pricing keyword in which no phrase of the
    pricing pattern table occurs is classified pricing, not specific, with
    no entity. *)
Theorem C6_parse_cascade (question : string) :
  let q := lower question in
  (any_in pricing_keywords q = true ->
     parse question = _parse_pricing_intent q
     /\ type (parse question) = PRICING)
  /\ (any_in pricing_keywords q = false ->
      any_in contact_keywords q = true ->
        parse question = _parse_contact_intent q
        /\ type (parse question) = CONTACT)
  /\ (any_in pricing_keywords q = false ->
      any_in contact_keywords q = false ->
      any_in location_keywords q = true ->
        parse question = _parse_location_intent q
        /\ type (parse question) = LOCATION)
  /\ (any_in pricing_keywords q = false ->
      any_in contact_keywords q = false ->
      any_in location_keywords q = false ->
      any_in facility_keywords q = true ->
        parse question = _parse_facility_intent q
        /\ type (parse question) = FACILITY)
  /\ (any_in pricing_keywords q = false ->
      any_in contact_keywords q = false ->
      any_in location_keywords q = false ->
      any_in facility_keywords q = false ->
        parse question = mkUserIntent GENERAL false None None)
  /\ (any_in pricing_keywords q = true ->
      (forall e ps p, In (e, ps) pricing_patterns -> In p ps ->
                      contains p q = false) ->
        type (parse question) = PRICING
        /\ is_specific (parse question) = false
        /\ entity (parse question) = None).
Proof.
  intros q. unfold parse. fold q.
  repeat split; intros;
    repeat match goal with
           | H : any_in _ q = _ |- _ => rewrite H
           end;
    try reflexivity.
  - unfold _parse_pricing_intent. cbn [is_specific].
    rewrite (first_entity_None pricing_patterns q) by assumption. reflexivity.
  - unfold _parse_pricing_intent. cbn [entity].
    apply first_entity_None. assumption.
Qed.

(** The cascade at the question "What is the PRICE?": a pricing keyword and
    no phrase of the pricing pattern table. *)
Lemma C6_parse_cascade_witness :
  type (parse "What is the PRICE?") = PRICING
  /\ is_specific (parse "What is the PRICE?") = false
  /\ entity (parse "What is the PRICE?") = None.
Proof.
  refine (proj2 (proj2 (proj2 (proj2 (proj2
            (C6_parse_cascade "What is the PRICE?"))))) _ _).
  - vm_compute. reflexivity.
  - intros e ps p He Hp. cbn in He.
    repeat (destruct He as [He | He];
            [ injection He as <- <-; cbn in Hp;
              repeat (destruct Hp as [<- | Hp]; [vm_compute; reflexivity|]);
              contradiction
            | ]).
    contradiction.
Defined.

(** Scenarios of the specification. *)
Example parse_per_seat_cost :
  parse "What's the per seat cost?"
  = mkUserIntent PRICING true (Some "co-working") None.
Proof. vm_compute. reflexivity. Qed.

Example parse_electronic_city :
  parse "Where is your Electronic City center?"
  = mkUserIntent LOCATION true (Some "electronic_city") None.
Proof. vm_compute. reflexivity. Qed.

Example parse_general : parse "Hello there" = mkUserIntent GENERAL false None None.
Proof. vm_compute. reflexivity. Qed.

(** ** The knowledge base *)

Lemma getitem_in (k : string) (d : dict) :
  dict_in k d = true -> exists v, getitem (VDict d) k = Ok v.
Proof.
  unfold dict_in, getitem. destruct (dict_get k d) as [v|]; [|discriminate].
  intros _. exists v. reflexivity.
Qed.

Lemma dict_get_In (k : string) (d : dict) (v : value) :
  dict_get k d = Some v -> In (k, v) d.
Proof.
  induction d as [|[k' v'] rest IH]; cbn [dict_get]; [discriminate|].
  destruct (String.eqb k k') eqn:E.
  - apply String.eqb_eq in E. subst k'. intros [= ->]. left. reflexivity.
  - intros H. right. exact (IH H).
Qed.

(** Every pricing entry is a dictionary with a description. *)
Lemma pricing_entries_described (e : string) (item : value) :
  dict_get e pricing_table = Some item ->
  exists d, item = VDict d /\ dict_in "description" d = true.
Proof.
  intros H. apply dict_get_In in H. cbn in H.
  repeat (destruct H as [H | H];
          [ injection H as _ <-; eexists; split; reflexivity | ]).
  contradiction.
Qed.

(** Every center with an address has a contact entry. *)
Lemma centers_cover_locations (c : string) :
  dict_in c locations_table = true ->
  exists centers,
    getitem (VDict contact_table) "centers" = Ok (VDict centers)
    /\ dict_in c centers = true.
Proof.
  intros H. eexists. split; [reflexivity|].
  unfold dict_in in *. destruct (dict_get c locations_table) as [v|] eqn:E;
    [|discriminate].
  apply dict_get_In in E. cbn in E.
  repeat (destruct E as [E | E]; [ injection E as <- _; reflexivity | ]).
  contradiction.
Qed.

Lemma get_pricing_returns (entity timeframe : option string) :
  exists v, get_pricing kb entity timeframe = Ok v.
Proof.
  unfold get_pricing.
  change (getitem (data kb) "pricing") with (Ok (VDict pricing_table)).
  cbn [bind]. destruct entity as [e|]; cbn [contains_key bind];
    [|eexists; reflexivity].
  unfold dict_in at 1. destruct (dict_get e pricing_table) as [item|] eqn:He;
    [|eexists; reflexivity].
  destruct (pricing_entries_described e item He) as (d & -> & Hdesc).
  cbn [getitem_opt getitem]. rewrite He. cbn [bind].
  destruct timeframe as [tf|]; cbn [truthy]; [|eexists; reflexivity].
  destruct tf as [|c tf]; [eexists; reflexivity|].
  cbn [contains_key bind]. set (t := String c tf).
  destruct (dict_in t d) eqn:Htf; [|eexists; reflexivity].
  destruct (getitem_in _ _ Hdesc) as [dv ->].
  destruct (getitem_in _ _ Htf) as [tv Htv].
  cbn [bind getitem_opt]. rewrite Htv. cbn [bind].
  destruct (dict_in "variations" d) eqn:Hv.
  - destruct (getitem_in _ _ Hv) as [vv ->]. eexists; reflexivity.
  - eexists; reflexivity.
Qed.

Lemma get_location_returns (center : option string) :
  exists v, get_location kb center = Ok v.
Proof.
  unfold get_location.
  change (getitem (data kb) "locations") with (Ok (VDict locations_table)).
  cbn [bind]. destruct center as [[|c s]|]; cbn [truthy bind];
    try (eexists; reflexivity).
  cbn [contains_key bind]. set (t := String c s).
  destruct (dict_in t locations_table) eqn:Hin; [|eexists; reflexivity].
  destruct (getitem_in _ _ Hin) as [addr Haddr].
  destruct (centers_cover_locations t Hin) as (centers & Hc & Hin').
  destruct (getitem_in _ _ Hin') as [cc Hcc].
  cbn [getitem_opt]. rewrite Haddr. cbn [bind].
  change (getitem (data kb) "contact") with (Ok (VDict contact_table)).
  cbn [bind]. rewrite Hc. cbn [bind]. rewrite Hcc. cbn [bind].
  eexists; reflexivity.
Qed.

(** C9. The four accessors of the knowledge base return for every argument
    ([None] or a string) and never raise.  For an entity that is no key of
    the pricing table [get_pricing] returns the empty mapping; for an entity
    that is no key of the contact table [get_contact] returns the 'general'
    entry; [get_location] with no center or one that is no key of the
    location table returns the full location table; [get_facility] with no
    name or one that is no key of the facility table returns the full
    facility table. *)
Theorem C9_accessors_total :
  (forall entity timeframe, exists v, get_pricing kb entity timeframe = Ok v)
  /\ (forall entity, exists v, get_contact kb entity = Ok v)
  /\ (forall center, exists v, get_location kb center = Ok v)
  /\ (forall facility, exists v, get_facility kb facility = Ok v)
  /\ (forall entity timeframe,
        unknown entity pricing_table ->
        get_pricing kb entity timeframe = Ok (VDict []))
  /\ (forall entity,
        unknown entity contact_table ->
        exists general,
          dict_get "general" contact_table = Some general
          /\ get_contact kb entity = Ok general)
  /\ (forall center,
        unknown center locations_table ->
        get_location kb center = Ok (VDict locations_table))
  /\ (forall facility,
        unknown facility facilities_table ->
        get_facility kb facility = Ok (VDict facilities_table)).
Proof.
  split; [exact get_pricing_returns|].
  split.
  { intros entity. unfold get_contact.
    change (getitem (data kb) "contact") with (Ok (VDict contact_table)).
    cbn [bind]. destruct entity as [e|]; cbn [contains_key bind];
      [|eexists; reflexivity].
    destruct (dict_in e contact_table) eqn:He; [|eexists; reflexivity].
    cbn [getitem_opt]. exact (getitem_in _ _ He). }
  split; [exact get_location_returns|].
  split.
  { intros facility. unfold get_facility.
    change (getitem (data kb) "facilities") with (Ok (VDict facilities_table)).
    cbn [bind]. destruct facility as [[|c s]|]; cbn [truthy bind];
      try (eexists; reflexivity).
    cbn [contains_key bind].
    destruct (dict_in (String c s) facilities_table) eqn:He;
      [|eexists; reflexivity].
    cbn [getitem_opt]. exact (getitem_in _ _ He). }
  split.
  { intros entity timeframe Hun. unfold get_pricing.
    change (getitem (data kb) "pricing") with (Ok (VDict pricing_table)).
    cbn [bind]. destruct entity as [e|]; cbn [contains_key bind];
      [|reflexivity].
    rewrite (Hun e eq_refl). reflexivity. }
  split.
  { intros entity Hun. eexists. split; [reflexivity|]. unfold get_contact.
    change (getitem (data kb) "contact") with (Ok (VDict contact_table)).
    cbn [bind]. destruct entity as [e|]; cbn [contains_key bind];
      [rewrite (Hun e eq_refl)|]; reflexivity. }
  split.
  { intros center Hun. unfold get_location.
    change (getitem (data kb) "locations") with (Ok (VDict locations_table)).
    cbn [bind]. destruct center as [[|c s]|]; cbn [truthy bind];
      try reflexivity.
    cbn [contains_key bind]. rewrite (Hun _ eq_refl). reflexivity. }
  { intros facility Hun. unfold get_facility.
    change (getitem (data kb) "facilities") with (Ok (VDict facilities_table)).
    cbn [bind]. destruct facility as [[|c s]|]; cbn [truthy bind];
      try reflexivity.
    cbn [contains_key bind]. rewrite (Hun _ eq_refl). reflexivity. }
Qed.

(** The accessors at an entity the tables do not hold. *)
Lemma C9_accessors_total_witness :
  get_pricing kb (Some "helipad") (Some "monthly") = Ok (VDict [])
  /\ get_location kb (Some "helipad") = Ok (VDict locations_table)
  /\ get_facility kb None = Ok (VDict facilities_table).
Proof.
  destruct C9_accessors_total as (_ & _ & _ & _ & Hp & _ & Hl & Hf).
  split; [|split].
  - apply Hp. intros s [= <-]. vm_compute. reflexivity.
  - apply Hl. intros s [= <-]. vm_compute. reflexivity.
  - apply Hf. intros s [=].
Defined.

Example get_pricing_monthly_parking :
  get_pricing kb (Some "parking") (Some "monthly")
  = Ok (VDict [ ("description", VStr "Dedicated parking spot");
                ("monthly", VStr "₹800 - ₹2,000");
                ("includes", VList []);
                ("variations", VDict
                   [ ("koramangala", VStr "₹1,000/month");
                     ("whitefield", VStr "₹1,500/month");
                     ("electronic_city", VStr "₹800/month");
                     ("indiranagar", VStr "₹1,200/month");
                     ("mg_road", VStr "₹2,000/month") ]) ]).
Proof. vm_compute. reflexivity. Qed.

Example get_contact_unknown :
  get_contact kb (Some "helipad")
  = Ok (VDict [ ("phone", VStr "080-4111-1000");
                ("email", VStr "info@bizzhub.com");
                ("hours", VStr "9 AM - 7 PM");
                ("website", VStr "https://www.bizzhubworkspaces.com") ]).
Proof. vm_compute. reflexivity. Qed.

End AgentProofs.

(* ================================================================== *)
(** * Properties of core/llm_manager.py *)
(* ================================================================== *)

Module LLMProofs.

Import LLM Scenario.
Local Open Scope string_scope.

(** ** The arithmetic tool *)

(** [re] is not among the names of the module. *)
Lemma re_is_unbound : global_name "re" = Raise (NameError "re").
Proof. vm_compute. reflexivity. Qed.

Lemma calculate_always_errors `{W : Collaborators} (args : dict) :
  execute (mkToolCall "calculate" (VDict args))
  = Ok (VStr "Calculation error").
Proof.
  unfold execute. cbn [name arguments String.eqb Ascii.eqb Bool.eqb].
  cbn [arguments_get bind]. rewrite re_is_unbound. reflexivity.
Qed.

Lemma all_whitelisted_false (e : string) (c : ascii) :
  whitelisted c = false ->
  (exists before after, e = before ++ String c after) ->
  all_whitelisted e = false.
Proof.
  intros Hc (before & after & ->).
  induction before as [|b before IH]; cbn [append all_whitelisted].
  - rewrite Hc. reflexivity.
  - rewrite IH. apply andb_false_r.
Qed.

(** Past the name [re], the body of the [try] does what the whitelist is
    for: an expression with a character outside the class is rejected
    without a call of [eval]. *)
Lemma calculate_checked_rejects `{W : Collaborators} (e : string) (c : ascii) :
  whitelisted c = false ->
  (exists before after, e = before ++ String c after) ->
  calculate_checked (VStr e) = Ok (VStr "Invalid expression").
Proof.
  intros Hc He. unfold calculate_checked, whitelist_match.
  rewrite (all_whitelisted_false e c Hc He), andb_false_r. reflexivity.
Qed.

Lemma calculate_checked_evaluates `{W : Collaborators} :
  calculate_checked (VStr "2+2*5") = py_eval "2+2*5".
Proof. reflexivity. Qed.

(** C1. The arithmetic tool on "2+2*5" and on "import os": in both cases
    [execute] returns "Calculation error", whatever [eval] would give,
    because the name [re] that the whitelist test needs is not bound in
    the module and the bare [except] turns the [NameError] into that
    string.  So "2+2*5" does not give 12 and "import os" does not give
    "Invalid expression". *)
Theorem C1_calculate_returns_error `{W : Collaborators} :
  execute (mkToolCall "calculate" (VDict [("expression", VStr "2+2*5")]))
  = Ok (VStr "Calculation error")
  /\ execute (mkToolCall "calculate" (VDict [("expression", VStr "import os")]))
    = Ok (VStr "Calculation error").
Proof. split; apply calculate_always_errors. Qed.

Example unknown_tool `{W : Collaborators} :
  execute (mkToolCall "teleport" (VDict [])) = Ok (VStr "Unknown tool: teleport").
Proof. reflexivity. Qed.

(** ** The tool registry *)

Lemma setup_keeps_registry `{W : Collaborators} (env : environ) (self : LLMManager) :
  tool_registry (snd (_setup_providers env self)) = tool_registry self.
Proof.
  unfold _setup_providers. cbn [snd].
  destruct (truthy (GOOGLE_API_KEY env)), (truthy (OPENAI_API_KEY env));
    reflexivity.
Qed.

Lemma register_default_tools_is_no_op `{W : Collaborators} (self : LLMManager) :
  _register_default_tools self = (tt, self).
Proof. reflexivity. Qed.

(** The closure, once applied, does store the tool. *)
Lemma decorate_registers `{W : Collaborators} (n : string) (sch : value)
    (f : Callable) (self : LLMManager) :
  tool_registry self = [] ->
  tool_registry (snd (decorate n sch f self)) = [(n, mkToolEntry f sch)].
Proof. intros H. cbn. rewrite H. reflexivity. Qed.

Lemma init_registry_empty `{W : Collaborators} (env : environ) :
  tool_registry (__init__ env) = [].
Proof.
  unfold __init__.
  destruct (_setup_providers env (mkLLMManager [] None [])) as [u self] eqn:E.
  rewrite register_default_tools_is_no_op.
  change self with (snd (u, self)). rewrite <- E.
  apply setup_keeps_registry.
Qed.

(** C2. After [LLMManager()] in any environment the tool registry is empty
    and [get_available_tools] returns the empty list: [register_tool] only
    builds the closure that would store the tool, and
    [_register_default_tools] never calls the three closures.  None of
    currency_converter, get_current_time and calculate is registered. *)
Theorem C2_registry_empty_after_init `{W : Collaborators} (env : environ) :
  tool_registry (__init__ env) = []
  /\ get_available_tools (__init__ env) = Ok [].
Proof.
  split; [apply init_registry_empty|].
  unfold get_available_tools. rewrite init_registry_empty. reflexivity.
Qed.

(** The shape of a schema that [get_available_tools] gives for a tool that
    a decorator did register. *)
Example available_tools_shape :
  @get_available_tools chatty_gemini
    (snd (@decorate chatty_gemini "get_current_time" get_current_time_schema
            tt (@__init__ chatty_gemini no_keys)))
  = Ok [ VDict
           [ ("type", VStr "function");
             ("function", VDict
                [ ("name", VStr "get_current_time");
                  ("description", VStr "Get the current time and date");
                  ("parameters", VDict [ ("type", VStr "object");
                                         ("properties", VDict []) ]) ]) ] ].
Proof. vm_compute. reflexivity. Qed.

(** ** Provider calls *)

Ltac crunch :=
  repeat match goal with
         | H : Ok _ = Ok _ |- _ => injection H as H; try subst
         | H : Some _ = Some _ |- _ => injection H as H; try subst
         | H : Ok _ = Raise _ |- _ => discriminate H
         | H : Raise _ = Ok _ |- _ => discriminate H
         | H : None = Some _ |- _ => discriminate H
         | H : Some _ = None |- _ => discriminate H
         | H : context [bind ?m _] |- _ => destruct m eqn:?; cbn [bind] in H
         | H : context [match ?x with _ => _ end] |- _ => destruct x eqn:?
         end.

Lemma call_gemini_provider `{W : Collaborators} self prompt tools r :
  _call_gemini self prompt tools = Some r -> provider r = provider_value GEMINI.
Proof.
  unfold _call_gemini, try_except, _call_gemini_body. intros H.
  crunch; reflexivity.
Qed.

Lemma call_openai_provider `{W : Collaborators} self prompt tools r :
  _call_openai self prompt tools = Some r -> provider r = provider_value OPENAI.
Proof.
  unfold _call_openai, try_except, _call_openai_body. intros H.
  crunch; reflexivity.
Qed.

(** With a non-empty tool list, whatever [_call_gemini] returns records a
    tool call: a reply without one is never returned. *)
Lemma gemini_with_tools_never_plain `{W : Collaborators}
    self prompt tool more r :
  _call_gemini self prompt (Some (tool :: more)) = Some r ->
  tool_calls r <> [].
Proof.
  unfold _call_gemini, try_except, _call_gemini_body. intros H.
  crunch; discriminate.
Qed.

(** A reply of Gemini that holds no tool call, to a prompt sent with
    tools, makes [_call_gemini] return [None]. *)
Lemma gemini_plain_reply_dropped `{W : Collaborators}
    self prompt tool more reply :
  (forall p, generate_content p = Ok reply) ->
  tool_search reply = None ->
  _call_gemini self prompt (Some (tool :: more)) = None.
Proof.
  intros Hgen Hplain.
  destruct (_call_gemini self prompt (Some (tool :: more))) as [r|] eqn:E;
    [|reflexivity].
  exfalso. revert E.
  unfold _call_gemini, try_except, _call_gemini_body. intros H.
  crunch.
  all: match goal with
       | G : generate_content _ = Ok ?t, S : tool_search ?t = Some _ |- _ =>
           rewrite Hgen in G; injection G as <-; rewrite Hplain in S;
           discriminate S
       end.
Qed.

(** The sibling path: the OpenAI call returns such a reply as it is. *)
Lemma openai_plain_reply_kept `{W : Collaborators}
    self prompt tool more functions msg others :
  get_available_tools self = Ok functions ->
  ChatCompletion_create [mkChatMessage user prompt] (Some functions)
  = Ok (msg :: others) ->
  function_call msg = None ->
  _call_openai self prompt (Some (tool :: more))
  = Some (mkResponse (message_content msg) [] (provider_value OPENAI)).
Proof.
  intros Hf Hc Hm. unfold _call_openai, _call_openai_body.
  rewrite Hf. cbn [bind]. rewrite Hc. cbn [bind first_message].
  rewrite Hm. reflexivity.
Qed.

(** C3. A manager with Gemini configured and one tool registered through
    the decorator; Gemini answers the prompt, sent with the tool schema,
    in plain words that encode no tool call.  [_call_gemini] returns
    [None] and [generate_response] returns the fallback message: the
    reply is lost, where the specification expects it as the content of
    the result, with provider "gemini".  (Without tools the same reply
    comes back as it is.) *)
Theorem C3_gemini_plain_reply_lost :
  let self := snd (@decorate chatty_gemini "calculate" calculate_schema tt
                     (@__init__ chatty_gemini gemini_key)) in
  let prompt := "What is 2+2*5?" in
  (exists tool,
     @get_available_tools chatty_gemini self = Ok [tool]
     /\ @_call_gemini chatty_gemini self prompt (Some [tool]) = None)
  /\ @generate_content chatty_gemini prompt
     = Ok "Hello! How can I help you today?"
  /\ tool_search "Hello! How can I help you today?" = None
  /\ @generate_response chatty_gemini self prompt true
     = Ok (fallback_response prompt)
  /\ @generate_response chatty_gemini self prompt false
     = Ok (mkResponse (Some "Hello! How can I help you today?") [] "gemini").
Proof.
  cbv zeta. split.
  - eexists. split; [vm_compute; reflexivity|]. vm_compute. reflexivity.
  - repeat split; vm_compute; reflexivity.
Qed.

(** ** Fallback *)

(** [_setup_providers] never configures [LOCAL]. *)
Lemma init_never_local `{W : Collaborators} (env : environ) :
  provider_in LOCAL (providers (__init__ env)) = false.
Proof.
  unfold __init__, _setup_providers, _register_default_tools.
  destruct env as [[[|c g]|] [[|c' o]|]]; reflexivity.
Qed.

Lemma fallback_when_exhausted `{W : Collaborators}
    (self : LLMManager) (prompt : string) (use_tools : bool)
    (tools : option (list value)) :
  tools_for self use_tools = Ok tools ->
  provider_in LOCAL (providers self) = false ->
  (provider_in GEMINI (providers self) = true ->
     _call_gemini self prompt tools = None) ->
  (provider_in OPENAI (providers self) = true ->
     _call_openai self prompt tools = None) ->
  generate_response self prompt use_tools = Ok (fallback_response prompt).
Proof.
  intros Htools Hlocal Hg Ho.
  unfold generate_response. rewrite Htools. cbn [bind].
  unfold LLMProvider_members, is_active. cbn [try_other_providers].
  rewrite Hlocal. unfold is_active.
  destruct (provider_in GEMINI (providers self)) eqn:EG;
    destruct (provider_in OPENAI (providers self)) eqn:EO;
    try rewrite (Hg eq_refl); try rewrite (Ho eq_refl);
    destruct (active_provider self) as [[| |]|];
    cbn [provider_eqb andb negb bind];
    try rewrite (Hg eq_refl); try rewrite (Ho eq_refl);
    reflexivity.
Qed.

Lemma registry_set_well_formed `{W : Collaborators} (n : string)
    (e : tool_entry) (reg : list (string * tool_entry)) :
  well_formed_schema (schema e) ->
  Forall (fun ne => well_formed_schema (schema (snd ne))) reg ->
  Forall (fun ne => well_formed_schema (schema (snd ne))) (registry_set n e reg).
Proof.
  intros He Hreg.
  induction Hreg as [|[k e'] rest Hk Hrest IH]; cbn [registry_set].
  - repeat constructor. exact He.
  - destruct (String.eqb n k); constructor; cbn [snd]; assumption.
Qed.

Lemma available_tools_total `{W : Collaborators}
    (reg : list (string * tool_entry)) :
  Forall (fun ne => well_formed_schema (schema (snd ne))) reg ->
  exists tools, available_tools_of reg = Ok tools.
Proof.
  induction 1 as [|[k e] rest (d & p & Hd & Hp) _ [tools IH]];
    cbn [available_tools_of].
  - eexists. reflexivity.
  - cbn [snd] in Hd, Hp. rewrite Hd, Hp, IH. eexists. reflexivity.
Qed.

(** What holds of every manager the module builds: [LOCAL] is not
    configured and every registered schema can be read. *)
Lemma built_invariant `{W : Collaborators} (self : LLMManager) :
  built self ->
  provider_in LOCAL (providers self) = false
  /\ Forall (fun ne => well_formed_schema (schema (snd ne)))
            (tool_registry self).
Proof.
  induction 1 as [env | self n sch f _ [Hlocal Hreg] Hsch].
  - split; [apply init_never_local|].
    rewrite (init_registry_empty env). constructor.
  - split; [exact Hlocal|]. cbn. apply registry_set_well_formed; assumption.
Qed.

(** [_setup_providers] is the only code that configures a provider. *)
Lemma constructed_never_local `{W : Collaborators} (self : LLMManager) :
  constructed self -> provider_in LOCAL (providers self) = false.
Proof.
  induction 1 as [env | self n sch f _ IH].
  - apply init_never_local.
  - exact IH.
Qed.

(** [s[:n]] is the prefix of [s] that has [n] characters, or all of [s]
    when it is shorter. *)
Lemma slice_prefix (n : nat) (s : string) :
  String.prefix (substring 0 n s) s = true
  /\ String.length (substring 0 n s) = Nat.min n (String.length s).
Proof.
  revert s. induction n as [|n IH]; intros [|c s]; cbn; auto.
  destruct (IH s) as [Hp Hl].
  destruct (Ascii.ascii_dec c c) as [_|Hc]; [|contradiction].
  split; [exact Hp | rewrite Hl; reflexivity].
Qed.

(** C4. For every manager the module can build, every prompt and both
    values of [use_tools], provided the schemas of the registered tools can
    be listed (which is so whenever [use_tools] is false or no tool is
    registered): if the call of every configured provider fails, which
    includes the case that none is configured, [generate_response]
    returns, without raising, the fallback result: provider "fallback",
    no tool calls, and the apology followed by the first 100 characters of
    the prompt (the whole prompt when it is shorter) and three dots. *)
Theorem C4_fallback_when_all_fail `{W : Collaborators}
    (self : LLMManager) (prompt : string) (use_tools : bool)
    (tools : option (list value)) :
  constructed self ->
  tools_for self use_tools = Ok tools ->
  (provider_in GEMINI (providers self) = true ->
     _call_gemini self prompt tools = None) ->
  (provider_in OPENAI (providers self) = true ->
     _call_openai self prompt tools = None) ->
  exists echoed,
    generate_response self prompt use_tools
    = Ok (mkResponse
            (Some ("I'm sorry, but I couldn't process your request. The input was: "
                   ++ echoed ++ "..."))
            [] "fallback")
    /\ String.prefix echoed prompt = true
    /\ String.length echoed = Nat.min 100 (String.length prompt).
Proof.
  intros Hc Htools Hg Ho.
  exists (first_100 prompt). split.
  - exact (fallback_when_exhausted self prompt use_tools tools Htools
             (constructed_never_local self Hc) Hg Ho).
  - apply slice_prefix.
Qed.

(** The fallback with no provider configured, and with two configured
    providers that both fail. *)
Lemma C4_fallback_when_all_fail_witness :
  (exists echoed,
     @generate_response all_down (@__init__ all_down no_keys)
       "Convert 100 USD to INR" true
     = Ok (mkResponse
             (Some ("I'm sorry, but I couldn't process your request. The input was: "
                    ++ echoed ++ "..."))
             [] "fallback")
     /\ String.prefix echoed "Convert 100 USD to INR" = true
     /\ String.length echoed
        = Nat.min 100 (String.length "Convert 100 USD to INR"))
  /\ (exists echoed,
        @generate_response all_down (@__init__ all_down both_keys)
          "Convert 100 USD to INR" false
        = Ok (mkResponse
                (Some ("I'm sorry, but I couldn't process your request. The input was: "
                       ++ echoed ++ "..."))
                [] "fallback")
        /\ String.prefix echoed "Convert 100 USD to INR" = true
        /\ String.length echoed
           = Nat.min 100 (String.length "Convert 100 USD to INR")).
Proof.
  split.
  - apply (@C4_fallback_when_all_fail all_down (@__init__ all_down no_keys)
             "Convert 100 USD to INR" true (Some [])).
    + apply constructed_init.
    + reflexivity.
    + intros H. discriminate H.
    + intros H. discriminate H.
  - apply (@C4_fallback_when_all_fail all_down (@__init__ all_down both_keys)
             "Convert 100 USD to INR" false None).
    + apply constructed_init.
    + reflexivity.
    + intros _. reflexivity.
    + intros _. reflexivity.
Defined.

(** C4 as stated fails: the schemas are listed before any provider is
    tried and outside every [try], so a manager with no provider and a
    tool registered with the schema [{}] makes [generate_response] raise
    [KeyError] where the claim expects the fallback result. *)
Lemma C4_counterexample :
  ~ (forall (W : Collaborators) (self : @LLMManager W) (prompt : string)
            (use_tools : bool),
        @constructed W self ->
        @providers W self = [] ->
        exists r, @generate_response W self prompt use_tools = Ok r
                  /\ provider r = "fallback").
Proof.
  intros H.
  destruct (H all_down note_manager "Hi" true) as (r & Hr & _).
  - apply constructed_decorate, constructed_init.
  - reflexivity.
  - vm_compute in Hr. discriminate Hr.
Qed.

Lemma note_manager_raises :
  @generate_response all_down note_manager "Hi" true
  = Raise (KeyError "description").
Proof. reflexivity. Qed.

(** C5. Let the active provider be configured and its call fail, and let
    another provider be configured and its call return a result.  Then
    [generate_response] returns that result, and its provider field is the
    identifier of that other provider. *)
Theorem C5_fallback_to_other_provider `{W : Collaborators}
    (self : LLMManager) (prompt : string) (use_tools : bool)
    (tools : option (list value)) (a b : LLMProvider) (r : response) :
  tools_for self use_tools = Ok tools ->
  active_provider self = Some a ->
  provider_in a (providers self) = true ->
  call_of self a prompt tools = Some None ->
  b <> a ->
  provider_in b (providers self) = true ->
  call_of self b prompt tools = Some (Some r) ->
  generate_response self prompt use_tools = Ok r
  /\ provider r = provider_value b.
Proof.
  intros Htools Hactive Ha Hfail Hneq Hb Hok.
  unfold generate_response. rewrite Htools. cbn [bind].
  unfold LLMProvider_members, is_active. cbn [try_other_providers].
  unfold is_active. rewrite Hactive.
  destruct a, b; try contradiction; try discriminate;
    cbn [call_of] in Hfail, Hok;
    injection Hfail as Hfail; injection Hok as Hok;
    rewrite Ha, ?Hb; cbn [provider_eqb andb negb];
    rewrite ?Hfail, ?Hb; cbn [andb negb]; rewrite ?Hok; cbn [bind].
  - split; [reflexivity | exact (call_openai_provider _ _ _ _ Hok)].
  - split; [reflexivity | exact (call_gemini_provider _ _ _ _ Hok)].
Qed.

(** Gemini is active and fails, OpenAI is configured and answers. *)
Lemma C5_fallback_to_other_provider_witness :
  @generate_response only_openai_up (@__init__ only_openai_up both_keys)
    "Convert 100 USD to INR" true
  = Ok (mkResponse (Some "Hello from the second provider.") [] "openai")
  /\ provider (mkResponse (Some "Hello from the second provider.") [] "openai")
     = provider_value OPENAI.
Proof.
  apply (@C5_fallback_to_other_provider only_openai_up
           (@__init__ only_openai_up both_keys) "Convert 100 USD to INR" true
           (Some []) GEMINI OPENAI).
  - reflexivity.
  - reflexivity.
  - reflexivity.
  - reflexivity.
  - discriminate.
  - reflexivity.
  - reflexivity.
Defined.

End LLMProofs.

(* ================================================================== *)
(** * Properties of core/rag_system.py *)
(* ================================================================== *)

Module RAGProofs.

Import RAG Scenario.
Local Open Scope string_scope.

(** ** Scores *)

Lemma gt_iff (x y : Q) : gt x y = true <-> (y < x)%Q.
Proof.
  unfold gt. rewrite negb_true_iff. split.
  - intros H. apply Qnot_le_lt. intros Hle.
    apply Qle_bool_iff in Hle. congruence.
  - intros H. apply not_true_is_false. intros Hle.
    apply Qle_bool_iff in Hle. exact (Qlt_not_le _ _ H Hle).
Qed.

Lemma gt_false_iff (x y : Q) : gt x y = false <-> (x <= y)%Q.
Proof.
  unfold gt. rewrite negb_false_iff. apply Qle_bool_iff.
Qed.

Lemma thresholds_ordered : (display_threshold < accept_threshold)%Q.
Proof. reflexivity. Qed.

Section WithLibrary.

Context {L : Library}.

(** ** What the code does with the result of the search

    [get_answer] accepts the first candidate when its score exceeds the
    double 0.3, and passes an exception of the search on. *)
Lemma get_answer_outcome (self : FAQRAGSystem) (query : string) :
  outcome (get_answer self query)
  = match outcome (_find_similar_faqs self query 2) with
    | Ok ((best_match, confidence) :: _) =>
        if gt confidence accept_threshold
        then Ok (Some (answer best_match), true)
        else Ok (None, false)
    | Ok [] => Ok (None, false)
    | Raise e => Raise e
    end.
Proof.
  unfold get_answer, outcome, t_bind.
  destruct (_find_similar_faqs self query 2) as [tr [[|[best conf] rest]|e]];
    cbn [snd]; try reflexivity.
  destruct (gt conf accept_threshold); reflexivity.
Qed.

(** ** The guard

    The first operand of the guard is evaluated for every query: when it
    raises, the search raises, before the query is looked at and before
    any call to the vectoriser. *)
Lemma guard_raises (self : FAQRAGSystem) (m : matrix) (e : exc)
    (query : string) (k : nat) :
  faq_vectors self = Some m ->
  any_entry m = Raise e ->
  _find_similar_faqs self query k = ([], Raise e)
  /\ get_answer self query = ([], Raise e).
Proof.
  intros Hm Hany. unfold get_answer, _find_similar_faqs.
  rewrite Hm, Hany. split; reflexivity.
Qed.

Lemma no_index_raises (self : FAQRAGSystem) (query : string) (k : nat) :
  faq_vectors self = None ->
  _find_similar_faqs self query k = ([], Raise (AttributeError "any"))
  /\ get_answer self query = ([], Raise (AttributeError "any")).
Proof.
  intros H. unfold get_answer, _find_similar_faqs. rewrite H. split; reflexivity.
Qed.

(** Were the call to return, a blank query and a matrix without an entry
    would give the empty list, as the guard is written. *)
Lemma guard_returns (self : FAQRAGSystem) (m : matrix) (has_any : bool)
    (query : string) (k : nat) :
  faq_vectors self = Some m ->
  any_entry m = Ok has_any ->
  negb has_any || is_empty_str (strip query) = true ->
  _find_similar_faqs self query k = ([], Ok []).
Proof.
  intros Hm Hany Hguard. unfold _find_similar_faqs.
  rewrite Hm, Hany. cbn [t_lift t_bind]. rewrite Hguard. reflexivity.
Qed.

(** ** Rebuilding the index *)

Lemma add_faq_rebuilds (self : FAQRAGSystem) (q a c : string)
    (vz : fitted) (m : matrix) :
  fit_transform (map question (faqs self ++ [new_FAQ q a c])) = Some (vz, m) ->
  add_faq self q a c
  = mkFAQRAGSystem (faqs self ++ [new_FAQ q a c])%list (Some vz) (Some m).
Proof.
  intros Hfit. unfold add_faq, _build_index. cbn [faqs vectorizer faq_vectors].
  destruct (faqs self ++ [new_FAQ q a c])%list as [|f fs] eqn:E.
  - apply app_eq_nil in E. destruct E as [_ E]. discriminate E.
  - rewrite Hfit. reflexivity.
Qed.

End WithLibrary.

Section WithContract.

Context {L : Library} {C : Contract L}.

(** With the libraries as they are, every search raises. *)
Lemma search_raises (self : FAQRAGSystem) (query : string) (k : nat) :
  _find_similar_faqs self query k = ([], Raise (AttributeError "any"))
  /\ get_answer self query = ([], Raise (AttributeError "any")).
Proof.
  destruct (faq_vectors self) as [m|] eqn:Hm.
  - exact (guard_raises self m _ query k Hm (any_missing m)).
  - exact (no_index_raises self query k Hm).
Qed.

(** C7. With the index built, [get_answer] raises [AttributeError] for
    every query, whatever the scores would be: the guard of
    [_find_similar_faqs] calls [any()] on the sparse matrix, which has no
    such attribute.  No similarity is computed and the threshold 0.3 is
    never reached; the claim expects (answer, True) or (None, False). *)
Theorem C7_get_answer_raises (self : FAQRAGSystem) (m : matrix)
    (query : string) :
  faq_vectors self = Some m ->
  _find_similar_faqs self query 2 = ([], Raise (AttributeError "any"))
  /\ get_answer self query = ([], Raise (AttributeError "any"))
  /\ calls (get_answer self query) = [].
Proof.
  intros Hm.
  destruct (guard_raises self m _ query 2 Hm (any_missing m)) as [Hf Hg].
  split; [exact Hf|]. split; [exact Hg|]. rewrite Hg. reflexivity.
Qed.

(** C8. After [add_faq] with a question that the vectoriser can fit, the
    entry is stored last and the index is rebuilt in step with the entries
    (row i for entry i); yet [get_answer] on the question of the new entry
    raises [AttributeError], by the same call of [any()]: the entry is not
    retrieved. *)
Theorem C8_added_faq_not_retrieved (self : FAQRAGSystem) (q a c : string)
    (vz : fitted) (m : matrix) :
  fit_transform (map question (faqs self ++ [new_FAQ q a c])) = Some (vz, m) ->
  faqs (add_faq self q a c) = (faqs self ++ [new_FAQ q a c])%list
  /\ index_built (add_faq self q a c) vz m
  /\ get_answer (add_faq self q a c) q = ([], Raise (AttributeError "any")).
Proof.
  intros Hfit. rewrite (add_faq_rebuilds self q a c vz m Hfit).
  split; [reflexivity|]. split.
  - unfold index_built. cbn [faqs vectorizer faq_vectors].
    repeat split. exact (fit_rows _ _ _ Hfit).
  - apply (guard_raises _ m _ q 2); [reflexivity | apply any_missing].
Qed.

(** C10. For a query that is empty or white space only, the search raises
    [AttributeError] like for any other query, in every state and for
    every [top_k]: [faq_vectors.any()] is the first operand of the guard
    and is evaluated before [query.strip()].  The claim expects the empty
    list and (None, False). *)
Theorem C10_blank_query_raises (self : FAQRAGSystem) (query : string)
    (k : nat) :
  all_space query = true ->
  _find_similar_faqs self query k = ([], Raise (AttributeError "any"))
  /\ get_answer self query = ([], Raise (AttributeError "any")).
Proof. intros _. apply search_raises. Qed.

End WithContract.

(** ** The small library *)

Lemma toy_contract : Contract toy_library.
Proof.
  constructor;
    cbn [fit_transform transform any_entry cosine argsort fitted toy_library].
  - reflexivity.
  - intros docs vz m. unfold toy_fit_transform.
    destruct (dedup (flat_map words docs)); [discriminate|].
    intros [= <- <-]. reflexivity.
Qed.

Lemma toy_index : @faq_vectors toy_library toy_system = Some toy_matrix.
Proof. vm_compute. reflexivity. Qed.

(** ** The properties at concrete inputs *)

(** A question of the constructed system, word for word. *)
Lemma C7_get_answer_raises_witness :
  @_find_similar_faqs toy_library toy_system "How do I cancel my invoice?" 2
  = ([], Raise (AttributeError "any"))
  /\ @get_answer toy_library toy_system "How do I cancel my invoice?"
     = ([], Raise (AttributeError "any"))
  /\ calls (@get_answer toy_library toy_system "How do I cancel my invoice?")
     = [].
Proof.
  apply (@C7_get_answer_raises toy_library toy_contract toy_system toy_matrix
           "How do I cancel my invoice?").
  exact toy_index.
Defined.

Lemma C8_added_faq_not_retrieved_witness :
  exists vz m,
    @faqs toy_library
      (@add_faq toy_library toy_system "Where is my refund?"
         "Refunds reach you within five days." "payment")
    = (@faqs toy_library toy_system
       ++ [new_FAQ "Where is my refund?"
             "Refunds reach you within five days." "payment"])%list
    /\ @index_built toy_library
         (@add_faq toy_library toy_system "Where is my refund?"
            "Refunds reach you within five days." "payment") vz m
    /\ @get_answer toy_library
         (@add_faq toy_library toy_system "Where is my refund?"
            "Refunds reach you within five days." "payment")
         "Where is my refund?"
       = ([], Raise (AttributeError "any")).
Proof.
  destruct (@fit_transform toy_library
              (map question
                 (@faqs toy_library toy_system
                  ++ [new_FAQ "Where is my refund?"
                        "Refunds reach you within five days." "payment"])))
    as [[vz m]|] eqn:E; [|vm_compute in E; discriminate E].
  exists vz, m.
  exact (@C8_added_faq_not_retrieved toy_library toy_contract toy_system
           "Where is my refund?" "Refunds reach you within five days."
           "payment" vz m E).
Defined.

Lemma C10_blank_query_raises_witness :
  @_find_similar_faqs toy_library toy_system "   " 2
  = ([], Raise (AttributeError "any"))
  /\ @get_answer toy_library toy_system "   "
     = ([], Raise (AttributeError "any")).
Proof.
  apply (@C10_blank_query_raises toy_library toy_contract toy_system "   " 2).
  reflexivity.
Defined.

End RAGProofs.

(* ================================================================== *)
(** * Properties of the response generator and the chatbot *)
(* ================================================================== *)

Module ResponderProofs.

Import Agent Responder.
Local Open Scope string_scope.

Ltac break_binds :=
  repeat match goal with
         | H : Ok _ = Ok _ |- _ => injection H as H; try subst
         | H : Ok _ = Raise _ |- _ => discriminate H
         | H : Raise _ = Ok _ |- _ => discriminate H
         | H : context [bind ?m _] |- _ => destruct m eqn:?; cbn [bind] in H
         | H : context [if ?b then _ else _] |- _ => destruct b eqn:?
         | H : context [match ?x with _ => _ end] |- _ => destruct x eqn:?
         end.

Lemma one_of_cases (names : list string) (x : option string) :
  one_of names x = true ->
  x = None \/ exists s, x = Some s /\ In s names.
Proof.
  destruct x as [s|]; [|left; reflexivity]. cbn [one_of]. intros H. right.
  apply existsb_exists in H. destruct H as (n & Hin & Heq).
  apply String.eqb_eq in Heq. subst n. eauto.
Qed.

Lemma one_of_cons (n : string) (names : list string) (x : option string) :
  one_of names x = true -> one_of (n :: names) x = true.
Proof.
  destruct x as [s|]; [|reflexivity]. cbn [one_of existsb]. intros ->.
  apply orb_true_r.
Qed.

Lemma first_entity_one_of (table : list (string * list string)) (q : string) :
  one_of (map fst table) (first_entity table q) = true.
Proof.
  induction table as [|[e ps] rest IH]; cbn [first_entity map fst];
    [reflexivity|].
  destruct (any_in ps q).
  - cbn [one_of existsb]. rewrite String.eqb_refl. reflexivity.
  - apply one_of_cons, IH.
Qed.

Lemma is_None_cases {A : Type} (o : option A) : is_None o = true -> o = None.
Proof. destruct o; [discriminate | reflexivity]. Qed.

Lemma parse_shape (question : string) :
  parser_intent (parse question) = true.
Proof.
  unfold parse, parser_intent.
  destruct (any_in pricing_keywords (lower question)).
  { unfold _parse_pricing_intent. cbn [type is_specific entity timeframe].
    rewrite Bool.eqb_reflx, first_entity_one_of. cbn [andb].
    repeat match goal with
           | |- context [if ?b then _ else _] => destruct b
           end; reflexivity. }
  destruct (any_in contact_keywords (lower question)).
  { unfold _parse_contact_intent. cbn [type is_specific entity timeframe].
    rewrite Bool.eqb_reflx, first_entity_one_of. reflexivity. }
  destruct (any_in location_keywords (lower question)).
  { unfold _parse_location_intent. cbn [type is_specific entity timeframe].
    rewrite Bool.eqb_reflx, first_entity_one_of. reflexivity. }
  destruct (any_in facility_keywords (lower question)); [|reflexivity].
  unfold _parse_facility_intent. cbn [type is_specific entity timeframe].
  repeat match goal with
         | |- context [if ?b then _ else _] => destruct b
         end; reflexivity.
Qed.

(** X1. Whatever the question, the intent that [parse] returns has the
    shape [parser_intent]: its entity is a key of the pattern table of its
    category (one of parking, internet, meeting_room, access_hours for a
    facility), [is_specific] holds exactly when there is an entity, a
    timeframe (monthly, daily or hourly) comes with category pricing only,
    and a general intent has neither. *)
Theorem X1_parse_gives_parser_intent (question : string) :
  parser_intent (parse question) = true.
Proof. exact (parse_shape question). Qed.

(** The loop with [break] picks the first entry of the table, in table
    order, one of whose phrases occurs in the question. *)
Lemma first_entity_first_match (table : list (string * list string))
    (q e : string) :
  first_entity table q = Some e <->
  exists before ps after,
    table = (before ++ (e, ps) :: after)%list
    /\ any_in ps q = true
    /\ Forall (fun ep => any_in (snd ep) q = false) before.
Proof.
  split; [apply AgentProofs.first_entity_Some|].
  intros (before & ps & after & -> & Hps & Hbefore).
  induction Hbefore as [|[e' ps'] before He' _ IH]; cbn [app first_entity].
  - rewrite Hps. reflexivity.
  - cbn [snd] in He'. rewrite He'. exact IH.
Qed.

(** X2. For a question classified as pricing, the entity is the first
    entry of the pricing pattern table, in table order, with a phrase
    that occurs in the lower-cased question: an entry is returned exactly
    when one of its phrases occurs and no phrase of any earlier entry
    does. *)
Theorem X2_pricing_entity_first_match (question e : string) :
  type (parse question) = PRICING ->
  (entity (parse question) = Some e <->
   exists before ps after,
     pricing_patterns = (before ++ (e, ps) :: after)%list
     /\ any_in ps (lower question) = true
     /\ Forall (fun ep => any_in (snd ep) (lower question) = false) before).
Proof.
  intros Hty. rewrite <- first_entity_first_match.
  unfold parse in *.
  destruct (any_in pricing_keywords (lower question)); [reflexivity|].
  destruct (any_in contact_keywords (lower question)); [discriminate|].
  destruct (any_in location_keywords (lower question)); [discriminate|].
  destruct (any_in facility_keywords (lower question)); discriminate.
Qed.

(** Phrases of co-working and of parking both occur: the earlier entry of
    the table wins. *)
Lemma X2_pricing_entity_first_match_witness :
  entity (parse "Price of a hot desk with car parking?") = Some "co-working".
Proof.
  apply (proj2 (X2_pricing_entity_first_match
                  "Price of a hot desk with car parking?" "co-working"
                  eq_refl)).
  exists [], ["coworking"; "shared desk"; "hot desk"; "shared space";
             "per seat"; "seat cost"], (tl pricing_patterns).
  repeat split. constructor.
Defined.

Section WithText.

Context {T : Text}.

(** X3. For every intent, question and knowledge base: when
    [generate_response] returns, the confidence is one of 0.6, 0.7, 0.9
    and 0.95, there are exactly three follow-up questions, and the source
    is "general_knowledge" for a general intent and "knowledge_base" for
    every other. *)
Theorem X3_response_shape (kb0 : BizzHubKnowledgeBase) (intent : UserIntent)
    (question : string) (r : ChatResponse) :
  generate_response kb0 intent question = Ok r ->
  In (confidence r) confidence_levels
  /\ List.length (follow_up_questions r) = 3
  /\ source r = (match type intent with
                 | GENERAL => "general_knowledge"
                 | _ => "knowledge_base"
                 end).
Proof.
  unfold generate_response, _generate_pricing_response,
    _generate_contact_response, _generate_location_response,
    _generate_facility_response, _generate_general_response,
    _get_pricing_follow_ups, confidence_levels.
  intros H. destruct (type intent); break_binds;
    cbn [confidence follow_up_questions source List.length In];
    repeat split; auto 6;
    repeat match goal with
           | |- context [if ?b then _ else _] => destruct b
           end; reflexivity.
Qed.

Lemma set_last_response_snoc (history : list dict) (last : dict)
    (text_answer : string) :
  set_last_response (history ++ [last]) text_answer
  = Ok (history ++ [dict_set "response" (VStr text_answer) last])%list.
Proof.
  induction history as [|h rest IH]; [reflexivity|].
  cbn [app set_last_response]. rewrite IH.
  destruct (rest ++ [last])%list eqn:E; [|reflexivity].
  apply app_eq_nil in E. destruct E as [_ E]. discriminate E.
Qed.

Ltac names_of H :=
  destruct (one_of_cases _ _ H) as [?|(? & ? & Hin)]; subst;
  [ | cbn in Hin;
      repeat (destruct Hin as [Hin|Hin]; [subst|]); try contradiction ].

Ltac settle_by_computation :=
  match goal with
  | |- exists r, ?call = Ok r =>
      let E := fresh "E" in
      destruct call eqn:E; [eauto | vm_compute in E; discriminate E]
  end.

Lemma responses_total (intent : UserIntent) (question : string) :
  parser_intent intent = true ->
  exists r, generate_response kb intent question = Ok r.
Proof.
  destruct intent as [ty sp e tf]. unfold parser_intent.
  cbn [type is_specific entity timeframe]. intros H.
  apply andb_true_iff in H. destruct H as [Hsp H].
  apply Bool.eqb_prop in Hsp. subst sp.
  destruct ty; apply andb_true_iff in H; destruct H as [He Htf].
  - names_of He; names_of Htf; settle_by_computation.
  - apply is_None_cases in Htf. subst tf.
    names_of He;
      unfold generate_response, _generate_contact_response;
      cbn [type entity];
      match goal with
      | |- context [if ?b then _ else _] => destruct b
      end; settle_by_computation.
  - apply is_None_cases in Htf. subst tf.
    names_of He; settle_by_computation.
  - apply is_None_cases in Htf. subst tf.
    names_of He; settle_by_computation.
  - eexists. reflexivity.
Qed.

(** X4. For every intent of the shape the parser gives and every
    question, [generate_response] over the module's knowledge base returns
    a response: none of the subscripts of the templates misses its key. *)
Theorem X4_generate_response_total (intent : UserIntent) (question : string) :
  parser_intent intent = true ->
  exists r, generate_response kb intent question = Ok r.
Proof. exact (responses_total intent question). Qed.

Lemma get_pricing_unknown (entity tf : option string) :
  unknown entity pricing_table ->
  get_pricing kb entity tf = Ok (VDict []).
Proof.
  intros Hun. unfold get_pricing.
  change (getitem (data kb) "pricing") with (Ok (VDict pricing_table)).
  cbn [bind]. destruct entity as [e|]; cbn [contains_key bind]; [|reflexivity].
  rewrite (Hun e eq_refl). reflexivity.
Qed.

(** X5. A specific pricing intent whose entity is no key of the pricing
    table gets the clarifying question, with confidence 0.6 and the
    generic follow-ups.  The parser's entity private_office is such an
    entity, so every question that [parse] resolves to private_office
    gets that answer, never the private-office price template. *)
Theorem X5_unknown_pricing_entity_clarifies (intent : UserIntent)
    (question : string) :
  type intent = PRICING ->
  is_specific intent = true ->
  unknown (entity intent) pricing_table ->
  generate_response kb intent question
  = Ok (mkChatResponse
          ("I understand you're asking about pricing. Could you specify "
           ++ "if you're interested in co-working spaces, private offices, "
           ++ "or other services?")
          (6 # 10)%Q
          ["What's your team size?"; "Which location are you interested in?";
           "Do you need parking facilities?"]
          "knowledge_base").
Proof.
  intros Hty Hsp Hun. unfold generate_response, _generate_pricing_response.
  rewrite Hty, Hsp. cbn [negb].
  rewrite (get_pricing_unknown _ _ Hun). reflexivity.
Qed.

(** X6. [generate_response] for a location intent whose entity is a
    non-empty string that is no key of the location table raises
    [KeyError]: the fallback of [get_location] is computed and dropped, and
    the template subscripts the location table with the entity. *)
Theorem X6_unknown_center_raises (intent : UserIntent) (question : string)
    (center : string) :
  type intent = LOCATION ->
  entity intent = Some center ->
  center <> EmptyString ->
  dict_in center locations_table = false ->
  generate_response kb intent question = Raise (KeyError center).
Proof.
  intros Hty He Hne Hun. unfold generate_response, _generate_location_response.
  rewrite Hty, He. destruct center as [|c0 rest0]; [contradiction|].
  unfold get_location.
  change (getitem (data kb) "locations") with (Ok (VDict locations_table)).
  cbn [bind truthy contains_key]. rewrite Hun. cbn [bind getitem].
  unfold dict_in in Hun.
  destruct (dict_get (String c0 rest0) locations_table); [discriminate|].
  reflexivity.
Qed.

(** X7. For a chatbot over the module's knowledge base, every message
    and every clock reading: [process_message] returns the answer of the
    generated response followed by two newlines, and leaves the history
    with exactly one more entry, after the old ones, that holds the
    message, the timestamp and that answer. *)
Theorem X7_process_message (self : BizzHubChatbot)
    (user_message timestamp : string) :
  knowledge_base self = kb ->
  exists r,
    generate_response kb (parse user_message) user_message = Ok r
    /\ process_message self user_message timestamp
       = (Ok (answer r ++ newline ++ newline),
          mkChatbot kb
            (conversation_history self
             ++ [[ ("user", VStr user_message);
                   ("timestamp", VStr timestamp);
                   ("response", VStr (answer r)) ]])%list).
Proof.
  intros Hkb.
  destruct (responses_total (parse user_message) user_message
              (parse_shape user_message)) as [r Hr].
  exists r. split; [exact Hr|].
  unfold process_message. rewrite Hkb, Hr, set_last_response_snoc.
  unfold _format_output, concat_all, text, newline.
  cbn [String.concat append]. reflexivity.
Qed.

End WithText.

Lemma X3_response_shape_witness :
  exists r,
    @generate_response Scenario.plain_text kb (parse "What's the per seat cost?")
      "What's the per seat cost?" = Ok r
    /\ In (confidence r) confidence_levels
    /\ List.length (follow_up_questions r) = 3
    /\ source r = "knowledge_base".
Proof.
  destruct (@generate_response Scenario.plain_text kb
              (parse "What's the per seat cost?")
              "What's the per seat cost?") as [r|e] eqn:E;
    [|vm_compute in E; discriminate E].
  exists r. split; [reflexivity|].
  exact (@X3_response_shape Scenario.plain_text kb _ _ r E).
Defined.

Lemma X4_generate_response_total_witness :
  exists r,
    @generate_response Scenario.plain_text kb
      (mkUserIntent LOCATION true (Some "mg_road") None)
      "Where is your MG Road center?" = Ok r.
Proof.
  apply (@X4_generate_response_total Scenario.plain_text). reflexivity.
Defined.

(** A question of the module's own demonstration list. *)
Lemma X5_unknown_pricing_entity_clarifies_witness :
  parse "How much for a private office for 4 people?"
  = mkUserIntent PRICING true (Some "private_office") None
  /\ exists r,
       @generate_response Scenario.plain_text kb
         (parse "How much for a private office for 4 people?")
         "How much for a private office for 4 people?" = Ok r
       /\ confidence r = (6 # 10)%Q.
Proof.
  split; [vm_compute; reflexivity|].
  eexists. split.
  - apply (@X5_unknown_pricing_entity_clarifies Scenario.plain_text).
    + reflexivity.
    + reflexivity.
    + intros s' Hs. vm_compute in Hs. injection Hs as <-.
      vm_compute. reflexivity.
  - reflexivity.
Defined.

Lemma X6_unknown_center_raises_witness :
  @generate_response Scenario.plain_text kb
    (mkUserIntent LOCATION true (Some "jayanagar") None) "Jayanagar?"
  = Raise (KeyError "jayanagar").
Proof.
  apply (@X6_unknown_center_raises Scenario.plain_text).
  - reflexivity.
  - reflexivity.
  - discriminate.
  - reflexivity.
Defined.

Lemma X7_process_message_witness :
  exists r,
    @generate_response Scenario.plain_text kb (parse "Hello") "Hello" = Ok r
    /\ @process_message Scenario.plain_text new_chatbot "Hello" "10:15:00"
       = (Ok (answer r ++ newline ++ newline),
          mkChatbot kb [[ ("user", VStr "Hello");
                          ("timestamp", VStr "10:15:00");
                          ("response", VStr (answer r)) ]]).
Proof.
  apply (@X7_process_message Scenario.plain_text new_chatbot "Hello" "10:15:00").
  reflexivity.
Defined.

End ResponderProofs.

(* ================================================================== *)
(** * Further properties of core/llm_manager.py *)
(* ================================================================== *)

Module LLMToolProofs.

Import LLM Protocol Scenario.
Local Open Scope string_scope.

(** ** Provider set-up *)

(** X8. After [LLMManager()] the active provider is the first configured
    one in the order gemini, openai: gemini when its key is a non-empty
    string, else openai when its key is, else none.  An active provider is
    always a configured one, and there is an active provider exactly when
    some provider is configured; an empty key counts as absent. *)
Theorem X8_active_provider `{W : Collaborators} (env : environ) :
  let self := __init__ env in
  active_provider self
  = (if truthy (GOOGLE_API_KEY env) then Some GEMINI
     else if truthy (OPENAI_API_KEY env) then Some OPENAI
     else None)
  /\ provider_in GEMINI (providers self) = truthy (GOOGLE_API_KEY env)
  /\ provider_in OPENAI (providers self) = truthy (OPENAI_API_KEY env)
  /\ (forall p, active_provider self = Some p ->
                provider_in p (providers self) = true)
  /\ (active_provider self = None <-> providers self = []).
Proof.
  unfold __init__, _setup_providers, _register_default_tools.
  destruct (truthy (GOOGLE_API_KEY env)) eqn:Eg;
    destruct (truthy (OPENAI_API_KEY env)) eqn:Eo;
    cbn; rewrite ?Eg, ?Eo; cbn;
    (repeat split; try reflexivity; try discriminate;
     try (intros p [= <-]; reflexivity)).
Qed.

(** ** Where a result comes from *)

Lemma try_other_origin `{W : Collaborators} self prompt tools members
    (v : local (option response)) (r : response) :
  (forall r', v <> Bound (Some r')) ->
  try_other_providers self prompt tools members v = Ok (Some r) ->
  _call_gemini self prompt tools = Some r
  \/ _call_openai self prompt tools = Some r.
Proof.
  revert v. induction members as [|p rest IH]; intros v Hv;
    cbn [try_other_providers]; [discriminate|].
  destruct (negb (is_active p self) && provider_in p (providers self));
    [|apply IH; exact Hv].
  destruct p.
  - destruct (_call_gemini self prompt tools) as [r'|] eqn:E.
    + intros [= <-]. left. reflexivity.
    + apply IH. intros r' H. discriminate H.
  - destruct (_call_openai self prompt tools) as [r'|] eqn:E.
    + intros [= <-]. right. reflexivity.
    + apply IH. intros r' H. discriminate H.
  - destruct v as [|[r'|]].
    + discriminate.
    + exfalso. exact (Hv r' eq_refl).
    + apply IH. exact Hv.
Qed.

(** Every result of [generate_response] is the fallback or what one of
    the two provider calls returned for the tools of this call. *)
Lemma generate_response_origin `{W : Collaborators} self prompt use_tools r :
  generate_response self prompt use_tools = Ok r ->
  exists tools,
    tools_for self use_tools = Ok tools
    /\ (r = fallback_response prompt
        \/ _call_gemini self prompt tools = Some r
        \/ _call_openai self prompt tools = Some r).
Proof.
  unfold generate_response.
  destruct (tools_for self use_tools) as [tools|e]; [|discriminate].
  cbn [bind]. intros H. exists tools. split; [reflexivity|].
  destruct (is_active GEMINI self && provider_in GEMINI (providers self)).
  - destruct (_call_gemini self prompt tools) as [r1|] eqn:Eg.
    { injection H as <-. auto. }
    destruct (is_active OPENAI self && provider_in OPENAI (providers self)).
    + destruct (_call_openai self prompt tools) as [r2|] eqn:Eo.
      { injection H as <-. auto. }
      destruct (try_other_providers self prompt tools LLMProvider_members
                  (Bound None)) as [[r3|]|e] eqn:Et; cbn [bind] in H;
        try discriminate; injection H as <-; [|auto].
      right. assert (H' := try_other_origin _ _ _ _ _ _
                           (fun r' (E : Bound None = Bound (Some r')) =>
                              ltac:(discriminate E)) Et).
      rewrite ?Eg, ?Eo in H'. exact H'.
    + destruct (try_other_providers self prompt tools LLMProvider_members
                  (Bound None)) as [[r3|]|e] eqn:Et; cbn [bind] in H;
        try discriminate; injection H as <-; [|auto].
      right. assert (H' := try_other_origin _ _ _ _ _ _
                           (fun r' (E : Bound None = Bound (Some r')) =>
                              ltac:(discriminate E)) Et).
      rewrite ?Eg, ?Eo in H'. exact H'.
  - destruct (is_active OPENAI self && provider_in OPENAI (providers self)).
    + destruct (_call_openai self prompt tools) as [r2|] eqn:Eo.
      { injection H as <-. auto. }
      destruct (try_other_providers self prompt tools LLMProvider_members
                  (Bound None)) as [[r3|]|e] eqn:Et; cbn [bind] in H;
        try discriminate; injection H as <-; [|auto].
      right. assert (H' := try_other_origin _ _ _ _ _ _
                           (fun r' (E : Bound None = Bound (Some r')) =>
                              ltac:(discriminate E)) Et).
      rewrite ?Eg, ?Eo in H'. exact H'.
    + destruct (try_other_providers self prompt tools LLMProvider_members
                  Unbound) as [[r3|]|e] eqn:Et; cbn [bind] in H;
        try discriminate; injection H as <-; [|auto].
      right. eapply try_other_origin; [|exact Et].
      intros r' Hr'. discriminate Hr'.
Qed.

Lemma call_gemini_without_tools `{W : Collaborators} self prompt r :
  _call_gemini self prompt None = Some r -> tool_calls r = [].
Proof.
  unfold _call_gemini, try_except, _call_gemini_body. intros H.
  LLMProofs.crunch; reflexivity.
Qed.

Lemma call_openai_without_tools `{W : Collaborators} self prompt r :
  _call_openai self prompt None = Some r -> tool_calls r = [].
Proof.
  unfold _call_openai, try_except, _call_openai_body. intros H.
  LLMProofs.crunch; reflexivity.
Qed.

(** X9. For every manager and prompt: a result of [generate_response]
    carries the provider "gemini", "openai" or "fallback", and with
    [use_tools = False] it never carries a tool call. *)
Theorem X9_result_provider_and_tools `{W : Collaborators}
    (self : LLMManager) (prompt : string) (use_tools : bool) (r : response) :
  generate_response self prompt use_tools = Ok r ->
  In (provider r) ["gemini"; "openai"; "fallback"]
  /\ (use_tools = false -> tool_calls r = []).
Proof.
  intros H.
  destruct (generate_response_origin self prompt use_tools r H)
    as (tools & Htools & [-> | [Hg | Ho]]).
  - split; [cbn; auto | reflexivity].
  - split.
    + rewrite (LLMProofs.call_gemini_provider _ _ _ _ Hg). cbn. auto.
    + intros ->. cbn in Htools. injection Htools as <-.
      exact (call_gemini_without_tools _ _ _ Hg).
  - split.
    + rewrite (LLMProofs.call_openai_provider _ _ _ _ Ho). cbn. auto.
    + intros ->. cbn in Htools. injection Htools as <-.
      exact (call_openai_without_tools _ _ _ Ho).
Qed.

Lemma X9_result_provider_and_tools_witness :
  In "gemini" ["gemini"; "openai"; "fallback"]
  /\ (false = false ->
      tool_calls (mkResponse (Some "Hello! How can I help you today?") []
                    "gemini") = []).
Proof.
  apply (@X9_result_provider_and_tools chatty_gemini
           (@__init__ chatty_gemini gemini_key) "Hi" false
           (mkResponse (Some "Hello! How can I help you today?") [] "gemini")).
  reflexivity.
Defined.

Lemma active_provider_result `{W : Collaborators}
    (self : LLMManager) (prompt : string) (use_tools : bool)
    (tools : option (list value)) (a : LLMProvider) (r : response) :
  tools_for self use_tools = Ok tools ->
  active_provider self = Some a ->
  provider_in a (providers self) = true ->
  call_of self a prompt tools = Some (Some r) ->
  generate_response self prompt use_tools = Ok r.
Proof.
  intros Htools Hactive Ha Hcall. unfold generate_response.
  rewrite Htools. cbn [bind]. unfold is_active. rewrite Hactive.
  destruct a; cbn [call_of] in Hcall; [| |discriminate];
    injection Hcall as Hcall; cbn [provider_eqb]; rewrite Ha; cbn [andb];
    rewrite Hcall; reflexivity.
Qed.

(** X10. For every manager the module can build whose tool schemas can
    be listed: [generate_response] returns the first result that the calls
    of the providers give in the order of [attempt_order] (the active
    provider when it is configured, then the configured providers that
    are not active, gemini before openai), and the fallback response when
    none of them gives a result. *)
Theorem X10_attempt_order `{W : Collaborators}
    (self : LLMManager) (prompt : string) (use_tools : bool)
    (tools : option (list value)) :
  constructed self ->
  tools_for self use_tools = Ok tools ->
  generate_response self prompt use_tools
  = Ok (match first_result self prompt tools (attempt_order self) with
        | Some r => r
        | None => fallback_response prompt
        end).
Proof.
  intros Hc Htools. pose proof (LLMProofs.constructed_never_local self Hc) as Hlocal.
  unfold generate_response, attempt_order. rewrite Htools. cbn [bind].
  unfold LLMProvider_members, is_active. cbn [try_other_providers filter].
  rewrite Hlocal. unfold is_active.
  destruct (active_provider self) as [[| |]|];
    destruct (provider_in GEMINI (providers self));
    destruct (provider_in OPENAI (providers self));
    rewrite ?Hlocal;
    cbn [provider_eqb andb negb bind app first_result call_of];
    destruct (_call_gemini self prompt tools);
    destruct (_call_openai self prompt tools);
    reflexivity.
Qed.

(** Gemini is active and fails, OpenAI answers. *)
Lemma X10_attempt_order_witness :
  @generate_response only_openai_up (@__init__ only_openai_up both_keys)
    "Hi" false
  = Ok (mkResponse (Some "Hello from the second provider.") [] "openai").
Proof.
  apply (@X10_attempt_order only_openai_up (@__init__ only_openai_up both_keys)
           "Hi" false None).
  - apply constructed_init.
  - reflexivity.
Defined.

(** ** The tool-call convention *)

Lemma append_assoc (a b c : string) : (a ++ b) ++ c = a ++ (b ++ c).
Proof. induction a as [|x a IH]; cbn [append]; [reflexivity | rewrite IH; reflexivity]. Qed.

Lemma drop_prefix_append (p s : string) : drop_prefix p (p ++ s) = Some s.
Proof.
  induction p as [|c p IH]; cbn [append drop_prefix]; [reflexivity|].
  rewrite Ascii.eqb_refl. exact IH.
Qed.

Lemma span_not_append (c : ascii) (a rest : string) :
  has_char c a = false ->
  span_not c (a ++ String c rest) = (a, String c rest).
Proof.
  induction a as [|d a IH]; cbn [append span_not has_char].
  - intros _. rewrite Ascii.eqb_refl. reflexivity.
  - intros H. apply orb_false_iff in H. destruct H as [Hd Ha].
    rewrite Hd, (IH Ha). reflexivity.
Qed.

Lemma lstrip_space (s : string) : lstrip (String " " s) = lstrip s.
Proof. reflexivity. Qed.

Lemma lstrip_keep (c : ascii) (s : string) :
  isspace c = false -> lstrip (String c s) = String c s.
Proof. intros H. cbn [lstrip]. rewrite H. reflexivity. Qed.

Ltac concrete_quote :=
  unfold dq in *;
  let v := eval vm_compute in (ascii_of_nat 34) in
  change (ascii_of_nat 34) with v in *.

Ltac step :=
  cbn [append drop_prefix Ascii.eqb Bool.eqb];
  rewrite ?lstrip_space;
  rewrite ?lstrip_keep by reflexivity.

Lemma tool_match_at_call (tool_name body after : string) :
  tool_name <> EmptyString ->
  has_char (ascii_of_nat 34) tool_name = false ->
  body <> EmptyString ->
  has_char "}" body = false ->
  tool_match_at (tool_call_text tool_name body ++ after)
  = Some (tool_name, Some ("{" ++ body ++ "}")).
Proof.
  intros Hn Hnq Hb Hbb. unfold tool_call_text, tool_match_at, arguments_group.
  rewrite !append_assoc. concrete_quote. step. step.
  rewrite (span_not_append _ _ _ Hnq).
  destruct tool_name as [|c0 n0]; [contradiction|]. cbn [is_empty_str].
  step. step. step.
  rewrite (span_not_append _ _ _ Hbb).
  destruct body as [|b0 b1]; [contradiction|]. cbn [is_empty_str].
  step. reflexivity.
Qed.

Lemma tool_match_at_bare (tool_name after : string) :
  tool_name <> EmptyString ->
  has_char (ascii_of_nat 34) tool_name = false ->
  tool_match_at (bare_tool_call_text tool_name ++ after)
  = Some (tool_name, None).
Proof.
  intros Hn Hnq. unfold bare_tool_call_text, tool_match_at, arguments_group.
  rewrite !append_assoc. concrete_quote. step. step.
  rewrite (span_not_append _ _ _ Hnq).
  destruct tool_name as [|c0 n0]; [contradiction|]. cbn [is_empty_str].
  step. reflexivity.
Qed.

Lemma tool_match_at_needs_brace (s : string) (groups : string * option string) :
  tool_match_at s = Some groups -> exists rest, s = String "{" rest.
Proof.
  unfold tool_match_at. destruct s as [|c rest]; cbn [append drop_prefix].
  - discriminate.
  - destruct (Ascii.eqb "{" c) eqn:E; [|discriminate].
    apply Ascii.eqb_eq in E. subst c. eauto.
Qed.

Lemma tool_search_skips (before s : string) :
  has_char "{" before = false ->
  tool_search (before ++ s) = tool_search s.
Proof.
  induction before as [|c before IH]; cbn [append has_char]; [reflexivity|].
  intros H. apply orb_false_iff in H. destruct H as [Hc Hb].
  cbn [tool_search].
  destruct (tool_match_at (String c (before ++ s))) as [g|] eqn:E.
  - apply tool_match_at_needs_brace in E. destruct E as [rest E].
    injection E as -> _. rewrite Ascii.eqb_refl in Hc. discriminate Hc.
  - exact (IH Hb).
Qed.

Lemma tool_search_at (s : string) (groups : string * option string) :
  tool_match_at s = Some groups -> tool_search s = Some groups.
Proof. intros H. destruct s; cbn [tool_search]; rewrite H; reflexivity. Qed.

(** X11. Round trip of the tool-call convention: a reply that holds the
    JSON text the prompt asks for (a non-empty tool name without a double
    quote, a non-empty arguments body without a closing brace), after any
    text without an opening brace and before any text, is decoded by the
    tool pattern into that name and that arguments object. *)
Theorem X11_tool_call_round_trip (before tool_name body after : string) :
  has_char "{" before = false ->
  tool_name <> EmptyString ->
  has_char (ascii_of_nat 34) tool_name = false ->
  body <> EmptyString ->
  has_char "}" body = false ->
  tool_search (before ++ tool_call_text tool_name body ++ after)
  = Some (tool_name, Some ("{" ++ body ++ "}")).
Proof.
  intros Hbefore Hn Hnq Hb Hbb. rewrite (tool_search_skips _ _ Hbefore).
  apply tool_search_at, tool_match_at_call; assumption.
Qed.

Lemma X11_tool_call_round_trip_witness :
  tool_search ("Let me check. " ++ weather_request ++ " One moment.")
  = Some ("weather", Some ("{" ++ dq ++ "city" ++ dq ++ ": " ++ dq ++ "Pune"
                           ++ dq ++ "}")).
Proof.
  apply (X11_tool_call_round_trip "Let me check. " "weather"
           (dq ++ "city" ++ dq ++ ": " ++ dq ++ "Pune" ++ dq) " One moment.").
  - reflexivity.
  - discriminate.
  - reflexivity.
  - discriminate.
  - reflexivity.
Defined.

(** ** Tools through the provider calls *)

Lemma as_strings_of_names (names : list string) :
  as_strings (map VStr names) = Ok names.
Proof.
  induction names as [|n rest IH]; cbn [map as_strings]; [reflexivity|].
  rewrite IH. reflexivity.
Qed.

Lemma available_tool_names `{W : Collaborators}
    (reg : list (string * tool_entry)) (ts : list value) :
  available_tools_of reg = Ok ts ->
  tool_names_of ts = Ok (map VStr (map fst reg))
  /\ List.length ts = List.length reg.
Proof.
  revert ts. induction reg as [|[n e] rest IH]; intros ts;
    cbn [available_tools_of].
  - intros [= <-]. split; reflexivity.
  - destruct (getitem (schema e) "description") as [d|]; [|discriminate].
    destruct (getitem (schema e) "parameters") as [p|]; [|discriminate].
    cbn [bind]. destruct (available_tools_of rest) as [others|];
      [|discriminate].
    cbn [bind]. intros [= <-]. destruct (IH others eq_refl) as [Hn Hl].
    split.
    + cbn [tool_names_of getitem dict_get String.eqb Ascii.eqb Bool.eqb bind].
      rewrite Hn. reflexivity.
    + cbn [List.length]. rewrite Hl. reflexivity.
Qed.

(** What [_call_gemini] does with a reply that asks for a tool with
    arguments, for the tools that [get_available_tools] lists. *)
Lemma gemini_tool_request `{W : Collaborators} self prompt tool more
    reply n a :
  provider_in GEMINI (providers self) = true ->
  get_available_tools self = Ok (tool :: more) ->
  (forall p, generate_content p = Ok reply) ->
  tool_search reply = Some (n, Some a) ->
  is_empty_str a = false ->
  _call_gemini self prompt (Some (tool :: more))
  = match json_loads a with
    | Raise _ => None
    | Ok args =>
        match execute (mkToolCall n args) with
        | Raise _ => None
        | Ok tool_result =>
            Some (mkResponse (Some reply)
                    [mkToolRecord n args tool_result]
                    (provider_value GEMINI))
        end
    end.
Proof.
  intros Hp Havail Hgen Hsearch Ha.
  unfold _call_gemini, _call_gemini_body. rewrite Hp. cbn [bind].
  destruct (available_tool_names _ _ Havail) as [Hnames _].
  rewrite Hnames. cbn [bind]. rewrite as_strings_of_names. cbn [bind].
  rewrite Hgen. cbn [bind]. rewrite Hsearch, Ha.
  destruct (json_loads a) as [args|]; [|reflexivity]. cbn [bind].
  destruct (execute (mkToolCall n args)) as [res|]; [|reflexivity].
  cbn [bind]. rewrite Hgen. reflexivity.
Qed.

Lemma argument_group_not_empty (s a rest : string) :
  arguments_group s = Some (a, rest) -> is_empty_str a = false.
Proof.
  unfold arguments_group. intros H.
  repeat match type of H with
         | context [match ?x with _ => _ end] => destruct x
         | context [if ?b then _ else _] => destruct b
         end; try discriminate.
  injection H as <- _. reflexivity.
Qed.

Lemma tool_match_at_args_not_empty (s n a : string) :
  tool_match_at s = Some (n, Some a) -> is_empty_str a = false.
Proof.
  unfold tool_match_at. intros H.
  repeat match type of H with
         | context [match arguments_group ?x with _ => _ end] =>
             let E := fresh "E" in
             destruct (arguments_group x) as [[? ?]|] eqn:E
         | context [match ?x with _ => _ end] => destruct x
         | context [if ?b then _ else _] => destruct b
         end; try discriminate;
    injection H as _ <-; eapply argument_group_not_empty; eassumption.
Qed.

Lemma tool_search_args_not_empty (s n a : string) :
  tool_search s = Some (n, Some a) -> is_empty_str a = false.
Proof.
  induction s as [|c s IH]; cbn [tool_search].
  - destruct (tool_match_at EmptyString) as [g|] eqn:E; [|discriminate].
    intros [= ->]. exact (tool_match_at_args_not_empty _ _ _ E).
  - destruct (tool_match_at (String c s)) as [g|] eqn:E; [|exact IH].
    intros [= ->]. exact (tool_match_at_args_not_empty _ _ _ E).
Qed.

Lemma execute_unknown `{W : Collaborators} (n : string) (args : value) :
  ~ In n builtin_tools ->
  execute (mkToolCall n args) = Ok (VStr ("Unknown tool: " ++ n)).
Proof.
  intros H. unfold execute. cbn [name].
  destruct (String.eqb n "currency_converter") eqn:E1.
  { apply String.eqb_eq in E1. exfalso. apply H. subst n. cbn. auto. }
  destruct (String.eqb n "get_current_time") eqn:E2.
  { apply String.eqb_eq in E2. exfalso. apply H. subst n. cbn. auto. }
  destruct (String.eqb n "calculate") eqn:E3.
  { apply String.eqb_eq in E3. exfalso. apply H. subst n. cbn. auto. }
  reflexivity.
Qed.

Lemma registry_set_keys `{W : Collaborators} (n : string) (e : tool_entry)
    (reg : list (string * tool_entry)) :
  map fst (registry_set n e reg)
  = if existsb (String.eqb n) (map fst reg) then map fst reg
    else (map fst reg ++ [n])%list.
Proof.
  induction reg as [|[k e'] rest IH]; cbn [registry_set map fst existsb app];
    [reflexivity|].
  destruct (String.eqb n k); cbn [orb map fst]; [reflexivity|].
  rewrite IH. destruct (existsb (String.eqb n) (map fst rest)); reflexivity.
Qed.

Lemma registry_set_has_key `{W : Collaborators} (n : string) (e : tool_entry)
    (reg : list (string * tool_entry)) :
  In n (map fst (registry_set n e reg)).
Proof.
  rewrite registry_set_keys.
  destruct (existsb (String.eqb n) (map fst reg)) eqn:E.
  - apply existsb_exists in E. destruct E as (k & Hin & Hk).
    apply String.eqb_eq in Hk. subst k. exact Hin.
  - apply in_or_app. right. left. reflexivity.
Qed.

Lemma registry_set_NoDup `{W : Collaborators} (n : string) (e : tool_entry)
    (reg : list (string * tool_entry)) :
  NoDup (map fst reg) -> NoDup (map fst (registry_set n e reg)).
Proof.
  intros H. rewrite registry_set_keys.
  destruct (existsb (String.eqb n) (map fst reg)) eqn:E; [exact H|].
  apply NoDup_app; [exact H | repeat constructor; intros [] |].
  intros k Hk [Hn|[]]. subst k.
  assert (existsb (String.eqb n) (map fst reg) = true).
  { apply existsb_exists. exists n. split; [exact Hk | apply String.eqb_refl]. }
  congruence.
Qed.

(** X12. Gemini is the only configured provider and asks, with
    arguments that decode, for a tool whose execution raises (the currency
    converter on an unsupported code, say).  Then [_call_gemini] returns
    [None] and [generate_response] returns the fallback message: the error
    of the tool is not reported, the whole call counts as failed. *)
Theorem X12_tool_error_gives_fallback `{W : Collaborators}
    (self : LLMManager) (prompt : string) (tool : value) (more : list value)
    (reply n a : string) (args : value) (e : exc) :
  active_provider self = Some GEMINI ->
  provider_in GEMINI (providers self) = true ->
  provider_in OPENAI (providers self) = false ->
  provider_in LOCAL (providers self) = false ->
  get_available_tools self = Ok (tool :: more) ->
  (forall p, generate_content p = Ok reply) ->
  tool_search reply = Some (n, Some a) ->
  json_loads a = Ok args ->
  execute (mkToolCall n args) = Raise e ->
  _call_gemini self prompt (Some (tool :: more)) = None
  /\ generate_response self prompt true = Ok (fallback_response prompt).
Proof.
  intros Hactive Hg Ho Hl Havail Hgen Hsearch Hjson Hexec.
  assert (Hcall : _call_gemini self prompt (Some (tool :: more)) = None).
  { rewrite (gemini_tool_request self prompt tool more reply n a Hg Havail
               Hgen Hsearch (tool_search_args_not_empty _ _ _ Hsearch)).
    rewrite Hjson, Hexec. reflexivity. }
  split; [exact Hcall|].
  apply (LLMProofs.fallback_when_exhausted self prompt true
           (Some (tool :: more))).
  - unfold tools_for. rewrite Havail. reflexivity.
  - exact Hl.
  - intros _. exact Hcall.
  - intros H. congruence.
Qed.

(** X13. A tool registered through the decorator under a name other than
    the three built-in ones is in the registry and is offered to the
    model, yet when Gemini asks for it [execute] does not find it: the
    call returns a result whose one tool record holds
    "Unknown tool: <name>". *)
Theorem X13_registered_tool_is_unknown `{W : Collaborators}
    (self0 : LLMManager) (n : string) (sch : value) (f : Callable)
    (prompt : string) (tools : list value) (reply a : string) (args : value) :
  ~ In n builtin_tools ->
  provider_in GEMINI (providers self0) = true ->
  get_available_tools (snd (decorate n sch f self0)) = Ok tools ->
  (forall p, generate_content p = Ok reply) ->
  tool_search reply = Some (n, Some a) ->
  json_loads a = Ok args ->
  In n (map fst (tool_registry (snd (decorate n sch f self0))))
  /\ (exists names, tool_names_of tools = Ok names /\ In (VStr n) names)
  /\ _call_gemini (snd (decorate n sch f self0)) prompt (Some tools)
     = Some (mkResponse (Some reply)
               [mkToolRecord n args (VStr ("Unknown tool: " ++ n))]
               (provider_value GEMINI)).
Proof.
  intros Hn Hg Havail Hgen Hsearch Hjson.
  set (self := snd (decorate n sch f self0)) in *.
  assert (Hkey : In n (map fst (tool_registry self))).
  { apply registry_set_has_key. }
  destruct (available_tool_names _ _ Havail) as [Hnames Hlen].
  split; [exact Hkey|]. split.
  { eexists. split; [exact Hnames|]. apply in_map. exact Hkey. }
  destruct tools as [|tool more].
  { destruct (tool_registry self); [destruct Hkey | discriminate Hlen]. }
  rewrite (gemini_tool_request self prompt tool more reply n a Hg Havail
             Hgen Hsearch (tool_search_args_not_empty _ _ _ Hsearch)).
  rewrite Hjson, (execute_unknown n args Hn). reflexivity.
Qed.

(** X14. A reply of Gemini that asks for a tool without arguments, as
    the current-time tool needs none, is dropped: the pattern finds the
    name, the guard on the arguments fails, and [_call_gemini] returns
    [None] without executing the tool. *)
Theorem X14_bare_tool_request_dropped `{W : Collaborators}
    (self : LLMManager) (prompt : string) (tool : value) (more : list value)
    (before tool_name after : string) :
  has_char "{" before = false ->
  tool_name <> EmptyString ->
  has_char (ascii_of_nat 34) tool_name = false ->
  (forall p, generate_content p
             = Ok (before ++ bare_tool_call_text tool_name ++ after)) ->
  tool_search (before ++ bare_tool_call_text tool_name ++ after)
  = Some (tool_name, None)
  /\ _call_gemini self prompt (Some (tool :: more)) = None.
Proof.
  intros Hbefore Hn Hnq Hgen.
  assert (Hsearch : tool_search (before ++ bare_tool_call_text tool_name ++ after)
                    = Some (tool_name, None)).
  { rewrite (tool_search_skips _ _ Hbefore).
    apply tool_search_at, tool_match_at_bare; assumption. }
  split; [exact Hsearch|].
  unfold _call_gemini, _call_gemini_body.
  destruct (provider_in GEMINI (providers self)); cbn [bind];
    [|reflexivity].
  destruct (tool_names_of (tool :: more)) as [names|]; cbn [bind];
    [|reflexivity].
  destruct (as_strings names) as [tool_names|]; cbn [bind]; [|reflexivity].
  rewrite Hgen. cbn [bind]. rewrite Hsearch. reflexivity.
Qed.

Lemma genuine_records_gemini `{W : Collaborators} self prompt tools r :
  _call_gemini self prompt tools = Some r ->
  List.length (tool_calls r) <= 1
  /\ forall record, In record (tool_calls r) ->
       execute (mkToolCall (tr_name record) (tr_arguments record))
       = Ok (tr_result record).
Proof.
  unfold _call_gemini, try_except, _call_gemini_body. intros H.
  LLMProofs.crunch; cbn [tool_calls List.length In];
    (split; [lia|]); intros record Hin;
    try contradiction; destruct Hin as [<-|[]]; assumption.
Qed.

Lemma genuine_records_openai `{W : Collaborators} self prompt tools r :
  _call_openai self prompt tools = Some r ->
  List.length (tool_calls r) <= 1
  /\ forall record, In record (tool_calls r) ->
       execute (mkToolCall (tr_name record) (tr_arguments record))
       = Ok (tr_result record).
Proof.
  unfold _call_openai, try_except, _call_openai_body. intros H.
  LLMProofs.crunch; cbn [tool_calls List.length In];
    (split; [lia|]); intros record Hin;
    try contradiction; destruct Hin as [<-|[]]; assumption.
Qed.

(** X15. For every manager and prompt, a result of [generate_response]
    has at most one tool record, and a record holds what [execute]
    returned for the recorded name and arguments. *)
Theorem X15_tool_records_are_genuine `{W : Collaborators}
    (self : LLMManager) (prompt : string) (use_tools : bool) (r : response) :
  generate_response self prompt use_tools = Ok r ->
  List.length (tool_calls r) <= 1
  /\ forall record, In record (tool_calls r) ->
       execute (mkToolCall (tr_name record) (tr_arguments record))
       = Ok (tr_result record).
Proof.
  intros H.
  destruct (generate_response_origin self prompt use_tools r H)
    as (tools & _ & [-> | [Hg | Ho]]).
  - split; [cbn; lia | intros record []].
  - exact (genuine_records_gemini _ _ _ _ Hg).
  - exact (genuine_records_openai _ _ _ _ Ho).
Qed.

(** X16. In every manager the module builds, the tool names of the
    registry are pairwise distinct (registering a name again replaces its
    entry in place), and [get_available_tools] lists one schema per
    registered tool, by name, in registry order. *)
Theorem X16_registry_names `{W : Collaborators} (self : LLMManager) :
  built self ->
  NoDup (map fst (tool_registry self))
  /\ exists tools,
       get_available_tools self = Ok tools
       /\ tool_names_of tools = Ok (map VStr (map fst (tool_registry self)))
       /\ List.length tools = List.length (tool_registry self).
Proof.
  intros Hbuilt. split.
  - induction Hbuilt as [env | self n sch f _ IH _].
    + rewrite (LLMProofs.init_registry_empty env). constructor.
    + cbn. apply registry_set_NoDup. exact IH.
  - destruct (LLMProofs.built_invariant self Hbuilt) as [_ Hreg].
    destruct (LLMProofs.available_tools_total _ Hreg) as [tools Htools].
    exists tools. split; [exact Htools|].
    exact (available_tool_names _ _ Htools).
Qed.

(** X17. OpenAI is the active provider and answers a prompt, sent with
    the schemas of the registered tools, by a message without a function
    call.  [generate_response] returns that message as it is: its content,
    no tool record, provider "openai".  (The Gemini path drops such a
    reply.) *)
Theorem X17_openai_plain_reply_kept `{W : Collaborators}
    (self : LLMManager) (prompt : string) (tool : value) (more : list value)
    (msg : message) (others : list message) :
  active_provider self = Some OPENAI ->
  provider_in OPENAI (providers self) = true ->
  get_available_tools self = Ok (tool :: more) ->
  ChatCompletion_create [mkChatMessage user prompt] (Some (tool :: more))
  = Ok (msg :: others) ->
  function_call msg = None ->
  generate_response self prompt true
  = Ok (mkResponse (message_content msg) [] (provider_value OPENAI)).
Proof.
  intros Hactive Hp Havail Hchat Hmsg.
  apply (active_provider_result self prompt true (Some (tool :: more)) OPENAI).
  - unfold tools_for. rewrite Havail. reflexivity.
  - exact Hactive.
  - exact Hp.
  - cbn [call_of]. f_equal.
    exact (LLMProofs.openai_plain_reply_kept self prompt tool more
             (tool :: more) msg others Havail Hchat Hmsg).
Qed.

(** ** The properties at concrete inputs *)

Lemma X12_tool_error_gives_fallback_witness :
  @_call_gemini rejecting_rates converter_manager "What is 100 USD in XXX?"
    (Some (offered converter_manager)) = None
  /\ @generate_response rejecting_rates converter_manager
       "What is 100 USD in XXX?" true
     = Ok (fallback_response "What is 100 USD in XXX?").
Proof.
  apply (@X12_tool_error_gives_fallback rejecting_rates converter_manager
           "What is 100 USD in XXX?"
           (hd VNone (offered converter_manager))
           (tl (offered converter_manager))
           conversion_request "currency_converter"
           ("{" ++ dq ++ "amount" ++ dq ++ ": 100, " ++ dq ++ "from_currency"
            ++ dq ++ ": " ++ dq ++ "USD" ++ dq ++ ", " ++ dq ++ "to_currency"
            ++ dq ++ ": " ++ dq ++ "XXX" ++ dq ++ "}")
           conversion_arguments LibraryError); reflexivity.
Defined.

Lemma X13_registered_tool_is_unknown_witness :
  @_call_gemini asks_for_weather weather_manager "Weather in Pune?"
    (Some (offered weather_manager))
  = Some (mkResponse (Some weather_request)
            [mkToolRecord "weather" (VDict [("city", VStr "Pune")])
               (VStr "Unknown tool: weather")]
            "gemini").
Proof.
  apply (@X13_registered_tool_is_unknown asks_for_weather
           (@__init__ asks_for_weather gemini_key) "weather" weather_schema tt
           "Weather in Pune?" (offered weather_manager) weather_request
           ("{" ++ dq ++ "city" ++ dq ++ ": " ++ dq ++ "Pune" ++ dq ++ "}")
           (VDict [("city", VStr "Pune")])).
  - intros [H|[H|[H|[]]]]; discriminate H.
  - reflexivity.
  - reflexivity.
  - reflexivity.
  - reflexivity.
  - reflexivity.
Defined.

Lemma X14_bare_tool_request_dropped_witness :
  tool_search time_request = Some ("get_current_time", None)
  /\ @_call_gemini asks_for_time clock_manager "What time is it?"
       (Some (offered clock_manager)) = None.
Proof.
  apply (@X14_bare_tool_request_dropped asks_for_time clock_manager
           "What time is it?" (hd VNone (offered clock_manager))
           (tl (offered clock_manager)) "One moment. " "get_current_time"
           EmptyString).
  - reflexivity.
  - discriminate.
  - reflexivity.
  - reflexivity.
Defined.

Lemma X15_tool_records_are_genuine_witness :
  List.length
    [mkToolRecord "weather" (VDict [("city", VStr "Pune")])
       (VStr "Unknown tool: weather")] <= 1
  /\ forall record,
       In record [mkToolRecord "weather" (VDict [("city", VStr "Pune")])
                    (VStr "Unknown tool: weather")] ->
       @execute asks_for_weather
         (mkToolCall (tr_name record) (tr_arguments record))
       = Ok (tr_result record).
Proof.
  apply (@X15_tool_records_are_genuine asks_for_weather weather_manager
           "Weather in Pune?" true
           (mkResponse (Some weather_request)
              [mkToolRecord "weather" (VDict [("city", VStr "Pune")])
                 (VStr "Unknown tool: weather")]
              "gemini")).
  reflexivity.
Defined.

Lemma X16_registry_names_witness :
  NoDup (map fst (tool_registry twice_registered))
  /\ exists tools,
       @get_available_tools all_down twice_registered = Ok tools
       /\ tool_names_of tools
          = Ok (map VStr (map fst (tool_registry twice_registered)))
       /\ List.length tools = List.length (tool_registry twice_registered).
Proof.
  apply (@X16_registry_names all_down twice_registered).
  assert (Hw : well_formed_schema weather_schema).
  { exists (VStr "Weather of a city"), (VDict [("type", VStr "object")]).
    split; reflexivity. }
  apply built_decorate; [apply built_decorate; [apply built_init|exact Hw]
                        |exact Hw].
Defined.

Lemma X17_openai_plain_reply_kept_witness :
  @generate_response only_openai_up openai_manager "Hi" true
  = Ok (mkResponse (Some "Hello from the second provider.") [] "openai").
Proof.
  apply (@X17_openai_plain_reply_kept only_openai_up openai_manager "Hi"
           (hd VNone (offered openai_manager)) (tl (offered openai_manager))
           (mkMessage (Some "Hello from the second provider.") None) []);
    reflexivity.
Defined.

End LLMToolProofs.

(* ================================================================== *)
(** * Further properties of core/rag_system.py *)
(* ================================================================== *)

Module RAGIndexProofs.

Import RAG Scenario.
Local Open Scope string_scope.

(** ** Sorted lists *)








(** ** The selection and the loop of [_find_similar_faqs] *)

Section WithLibrary.

Context {L : Library}.





(** ** States without an index *)

(** X19. When the index cannot be built, because the system has no entry
    or because [fit_transform] raises its [ValueError], [_build_index]
    itself returns, with [faq_vectors] set to [None]; from then on every
    query, a blank one included, raises [AttributeError] in
    [_find_similar_faqs] and in [get_answer], without a call to the
    library. *)
Theorem X19_no_index_raises (self : FAQRAGSystem) (query : string) (k : nat) :
  faqs self = [] \/ fit_transform (map question (faqs self)) = None ->
  faqs (_build_index self) = faqs self
  /\ faq_vectors (_build_index self) = None
  /\ _find_similar_faqs (_build_index self) query k
     = ([], Raise (AttributeError "any"))
  /\ get_answer (_build_index self) query
     = ([], Raise (AttributeError "any")).
Proof.
  intros H.
  assert (Hb : faqs (_build_index self) = faqs self
               /\ faq_vectors (_build_index self) = None).
  { unfold _build_index. destruct (faqs self) as [|f rest] eqn:Ef.
    - cbn. rewrite ?Ef. split; reflexivity.
    - destruct H as [H|H]; [discriminate H|]. rewrite H. cbn. rewrite ?Ef.
      split; reflexivity. }
  destruct Hb as [Hf Hv]. split; [exact Hf|]. split; [exact Hv|].
  apply RAGProofs.no_index_raises. exact Hv.
Qed.

End WithLibrary.

(** ** Reachable states *)

Section WithContract.

Context {L : Library} {C : Contract L}.

Lemma build_index_state (self : FAQRAGSystem) :
  faqs (_build_index self) = faqs self
  /\ (faq_vectors (_build_index self) = None
      \/ exists vz m, index_built (_build_index self) vz m).
Proof.
  unfold _build_index. destruct (faqs self) as [|f rest] eqn:Ef.
  - cbn. rewrite ?Ef. auto.
  - destruct (fit_transform (map question (f :: rest))) as [[vz m]|] eqn:E.
    + cbn [faqs faq_vectors]. split; [reflexivity|]. right. exists vz, m.
      unfold index_built. cbn [faqs faq_vectors vectorizer].
      repeat split. exact (fit_rows _ _ _ E).
    + cbn. rewrite ?Ef. auto.
Qed.

Lemma reachable_state (self : FAQRAGSystem) :
  reachable self ->
  (exists more, faqs self = (default_faqs ++ more)%list)
  /\ (faq_vectors self = None \/ exists vz m, index_built self vz m).
Proof.
  induction 1 as [|self q a c _ [[more Hmore] _]].
  - unfold __init__.
    destruct (build_index_state
                (_load_default_faqs (mkFAQRAGSystem [] None None)))
      as [Hf Hi].
    split; [|exact Hi]. exists []. rewrite Hf, app_nil_r. reflexivity.
  - unfold add_faq.
    match goal with
    | |- context [_build_index ?s] =>
        destruct (build_index_state s) as [Hf Hi]
    end.
    split; [|exact Hi]. exists (more ++ [new_FAQ q a c])%list.
    rewrite Hf. cbn [faqs]. rewrite Hmore, app_assoc. reflexivity.
Qed.

(** X20. In every state the module reaches (the constructed system and
    what [add_faq] makes of it) the default entries come first in [faqs],
    the index is absent or in step with the entries (row i is the vector
    of the question of entry i), and [get_answer] raises [AttributeError]
    for every query: without an index [None] has no [any], with an index
    the sparse matrix has none. *)
Theorem X20_reachable_states (self : FAQRAGSystem) (query : string) :
  reachable self ->
  (exists more, faqs self = (default_faqs ++ more)%list)
  /\ (faq_vectors self = None \/ exists vz m, index_built self vz m)
  /\ get_answer self query = ([], Raise (AttributeError "any")).
Proof.
  intros H. destruct (reachable_state self H) as [Hf Hi].
  split; [exact Hf|]. split; [exact Hi|].
  exact (proj2 (RAGProofs.search_raises self query 2)).
Qed.

End WithContract.

(** ** Answers phrased by the model *)

Section WithModel.

Context {L : Library} {C : Contract L} {G : Model}.

(** X21. [get_contextual_answer] raises [AttributeError] for every state,
    query and conversation context, and sends no prompt to the model: the
    call of [get_answer] stands before the [try] that guards the model
    call, so its exception passes through. *)
Theorem X21_contextual_answer_raises (self : FAQRAGSystem)
    (query context : string) :
  get_contextual_answer self query context
  = ([], ([], Raise (AttributeError "any"))).
Proof.
  unfold get_contextual_answer.
  rewrite (proj2 (RAGProofs.search_raises self query 2)). reflexivity.
Qed.

End WithModel.

(** ** Categories *)

Lemma lower_char_idempotent (c : ascii) :
  lower_char (lower_char c) = lower_char c.
Proof.
  destruct c as [[|] [|] [|] [|] [|] [|] [|] [|]]; reflexivity.
Qed.

Lemma lower_idempotent (s : string) : lower (lower s) = lower s.
Proof.
  induction s as [|c s IH]; cbn [lower]; [reflexivity|].
  rewrite lower_char_idempotent, IH. reflexivity.
Qed.

(** X22. [search_faqs_by_category] returns, in the order of [faqs],
    exactly the entries whose category equals the wanted one up to case;
    the case of the argument does not matter; and [add_faq] appends its
    entry to the listing of its own category and changes no other
    listing, whether or not the index could be rebuilt. *)
Theorem X22_search_by_category `{L : Library} (self : FAQRAGSystem)
    (wanted q a c : string) :
  (forall faq, In faq (search_faqs_by_category self wanted)
               <-> In faq (faqs self)
                   /\ lower (category faq) = lower wanted)
  /\ search_faqs_by_category self (lower wanted)
     = search_faqs_by_category self wanted
  /\ search_faqs_by_category (add_faq self q a c) wanted
     = (search_faqs_by_category self wanted
        ++ (if String.eqb (lower c) (lower wanted) then [new_FAQ q a c]
            else []))%list.
Proof.
  unfold search_faqs_by_category. split; [|split].
  - intros faq. rewrite filter_In, String.eqb_eq. reflexivity.
  - rewrite lower_idempotent. reflexivity.
  - assert (Hf : faqs (add_faq self q a c) = (faqs self ++ [new_FAQ q a c])%list).
    { unfold add_faq, _build_index. cbn [faqs].
      destruct (faqs self ++ [new_FAQ q a c])%list eqn:E; [reflexivity|].
      destruct (fit_transform _) as [[vz m]|]; reflexivity. }
    rewrite Hf, filter_app. cbn [filter category new_FAQ]. reflexivity.
Qed.

(** ** The properties at concrete inputs *)


Lemma X19_no_index_raises_witness :
  @faqs toy_library (@_build_index toy_library bare_system) = []
  /\ @faq_vectors toy_library (@_build_index toy_library bare_system) = None
  /\ @_find_similar_faqs toy_library (@_build_index toy_library bare_system)
       "   " 3 = ([], Raise (AttributeError "any"))
  /\ @get_answer toy_library (@_build_index toy_library bare_system) "   "
     = ([], Raise (AttributeError "any")).
Proof.
  apply (@X19_no_index_raises toy_library bare_system "   " 3).
  left. reflexivity.
Defined.

Lemma X20_reachable_states_witness :
  (exists more,
     @faqs toy_library grown_system = (default_faqs ++ more)%list)
  /\ (@faq_vectors toy_library grown_system = None
      \/ exists vz m, @index_built toy_library grown_system vz m)
  /\ @get_answer toy_library grown_system "Where is my refund?"
     = ([], Raise (AttributeError "any")).
Proof.
  apply (@X20_reachable_states toy_library RAGProofs.toy_contract grown_system
           "Where is my refund?").
  apply reachable_add. apply reachable_init.
Defined.

Lemma X21_contextual_answer_raises_witness :
  @get_contextual_answer toy_library silent_model toy_system
    "How do I cancel my invoice?" "We spoke about refunds."
  = ([], ([], Raise (AttributeError "any"))).
Proof.
  exact (@X21_contextual_answer_raises toy_library RAGProofs.toy_contract
           silent_model toy_system "How do I cancel my invoice?"
           "We spoke about refunds.").
Defined.

End RAGIndexProofs.

(* ================================================================== *)
(** * Properties of core/currency_converter.py *)
(* ================================================================== *)

Module CurrencyProofs.

Import Currency Protocol.
Local Open Scope string_scope.

(** ** The two dictionaries *)

Lemma subscript_store {A : Type} (k : string) (v : A) (d : list (string * A)) :
  subscript (store k v d) k = Return v.
Proof.
  unfold subscript. induction d as [|[k' v'] rest IH]; cbn [store find fst snd].
  - rewrite String.eqb_refl. reflexivity.
  - destruct (String.eqb k k') eqn:E; cbn [find fst snd]; rewrite E.
    + reflexivity.
    + exact IH.
Qed.


Lemma has_key_subscript {A : Type} (k : string) (d : list (string * A)) :
  has_key k d = true -> exists v, subscript d k = Return v.
Proof.
  unfold has_key, subscript.
  induction d as [|[k' v'] rest IH]; cbn [existsb find fst snd];
    [discriminate|].
  destruct (String.eqb k k'); [eauto | exact IH].
Qed.

Lemma subscript_has_key {A : Type} (k : string) (d : list (string * A)) (v : A) :
  subscript d k = Return v -> has_key k d = true.
Proof.
  unfold has_key, subscript.
  induction d as [|[k' v'] rest IH]; cbn [existsb find fst snd];
    [discriminate|].
  destruct (String.eqb k k'); [reflexivity | exact IH].
Qed.

Section WithServices.

Context {V : Services}.

(** ** The runs of the methods *)

Ltac run :=
  unfold bindM, ret, throw, lift, get_self, put_self, datetime_now,
    requests_get_json; cbn [fst snd].

(** [_fetch_exchange_rate] makes one request, changes nothing in the
    converter, and lets neither a [RequestException] nor a [KeyError]
    through. *)
Lemma fetch_run (f t : string) (self : CurrencyConverter) (w : world) :
  exists r,
    _fetch_exchange_rate f t (self, w)
    = (r, (self, asked (base_url self ++ base_currency_of f) w))
    /\ (forall text, r <> Throw (RequestException text))
    /\ (forall k, r <> Throw (KeyError k)).
Proof.
  unfold _fetch_exchange_rate, try_fetch. run.
  destruct (get_json w (List.length (requested w))
              (base_url self ++ base_currency_of f)) as [data|e].
  2: { eexists. split; [reflexivity|].
       split; intros x; destruct e; cbn; discriminate. }
  destruct (of_py (getitem data "rates")) as [rates|e].
  2: { eexists. split; [reflexivity|].
       split; intros x; destruct e; cbn; discriminate. }
  destruct (value_in f rates) as [[|]|e]; cbn [negb].
  2, 3: eexists; (split; [reflexivity|]);
        split; intros x; try destruct e; cbn; discriminate.
  destruct (value_in t rates) as [[|]|e]; cbn [negb].
  2, 3: eexists; (split; [reflexivity|]);
        split; intros x; try destruct e; cbn; discriminate.
  destruct (of_py (getitem rates f)) as [from_rate|e].
  2: { eexists. split; [reflexivity|].
       split; intros x; destruct e; cbn; discriminate. }
  destruct (of_py (getitem rates t)) as [to_rate|e].
  2: { eexists. split; [reflexivity|].
       split; intros x; destruct e; cbn; discriminate. }
  destruct (truediv to_rate from_rate) as [rate|e].
  - eexists. split; [reflexivity|]. split; intros x; discriminate.
  - eexists. split; [reflexivity|].
    split; intros x; destruct e; cbn; discriminate.
Qed.

Lemma cached_rate_run (key : string) (self : CurrencyConverter) (w : world) :
  cached_rate key (self, w)
  = if has_key key (cache self) then
      match subscript (last_cache_update self) key with
      | Throw e => (Throw e, (self, ticked w))
      | Return last =>
          if (now_readings w (clock_reads w) - last <? cache_duration self)%Z
          then match subscript (cache self) key with
               | Return rate => (Return (Some rate), (self, ticked w))
               | Throw e => (Throw e, (self, ticked w))
               end
          else (Return None, (self, ticked w))
      end
    else (Return None, (self, w)).
Proof.
  unfold cached_rate. run.
  destruct (has_key key (cache self)); [|reflexivity].
  cbn [fst snd].
  destruct (subscript (last_cache_update self) key) as [last|e];
    [|reflexivity].
  cbn [fst snd].
  destruct (now_readings w (clock_reads w) - last <? cache_duration self)%Z;
    [|reflexivity].
  destruct (subscript (cache self) key); reflexivity.
Qed.

Lemma get_exchange_rate_run (f t : string) (self : CurrencyConverter)
    (w : world) :
  get_exchange_rate f t (self, w)
  = match cached_rate (cache_key_of f t) (self, w) with
    | (Return (Some rate), s) => (Return rate, s)
    | (Return None, s) =>
        match _fetch_exchange_rate f t s with
        | (Return rate, (self', w')) =>
            (Return rate,
             (refreshed self' (cache_key_of f t) rate
                (now_readings w' (clock_reads w')), ticked w'))
        | (Throw e, s') => (Throw e, s')
        end
    | (Throw e, s) => (Throw e, s)
    end.
Proof.
  unfold get_exchange_rate. unfold bindM at 1.
  destruct (cached_rate (cache_key_of f t) (self, w)) as [[[rate|]|e] s];
    try reflexivity.
  unfold bindM at 1.
  destruct (_fetch_exchange_rate f t s) as [[rate|e] [self' w']];
    reflexivity.
Qed.

Lemma get_exchange_rate_cases (f t : string) (self : CurrencyConverter)
    (w : world) (r : res value) (self1 : CurrencyConverter) (w1 : world) :
  get_exchange_rate f t (self, w) = (r, (self1, w1)) ->
  rate_run f t self w r self1 w1.
Proof.
  rewrite get_exchange_rate_run, cached_rate_run.
  assert (Hfetch : forall w0, w0 = w \/ w0 = ticked w ->
            match _fetch_exchange_rate f t (self, w0) with
            | (Return rate, (self', w')) =>
                (Return rate,
                 (refreshed self' (cache_key_of f t) rate
                    (now_readings w' (clock_reads w')), ticked w'))
            | (Throw e, s') => (Throw e, s')
            end = (r, (self1, w1)) ->
            rate_run f t self w r self1 w1).
  { intros w0 Hw0 H.
    destruct (fetch_run f t self w0) as (r0 & Hr0 & Hreq & Hkey).
    rewrite Hr0 in H. destruct r0 as [rate|e].
    - injection H as <- <- <-.
      exact (run_fetched f t self w w0 rate Hw0 Hr0).
    - injection H as <- <- <-.
      apply (run_failed f t self w w0 e Hw0 Hr0).
      + intros text ->. exact (Hreq text eq_refl).
      + intros k ->. exact (Hkey k eq_refl). }
  destruct (has_key (cache_key_of f t) (cache self)) eqn:Ec.
  2: { apply Hfetch. left. reflexivity. }
  destruct (subscript (last_cache_update self) (cache_key_of f t))
    as [last|e] eqn:El.
  2: { intros [= <- <- <-].
       unfold subscript in El.
       destruct (find _ (last_cache_update self)) eqn:Ef in El;
         [discriminate|]. injection El as <-.
       apply run_unstamped; [exact Ec|].
       destruct (has_key (cache_key_of f t) (last_cache_update self)) eqn:Eh;
         [|reflexivity].
       destruct (has_key_subscript _ _ Eh) as [v Hv].
       unfold subscript in Hv. rewrite Ef in Hv. discriminate Hv. }
  destruct (now_readings w (clock_reads w) - last <? cache_duration self)%Z
    eqn:Et.
  2: { apply Hfetch. right. reflexivity. }
  destruct (has_key_subscript _ _ Ec) as [rate Hrate]. rewrite Hrate.
  intros [= <- <- <-].
  apply (run_hit f t self w last rate El Hrate). apply Z.ltb_lt. exact Et.
Qed.

Lemma get_exchange_rate_hit (f t : string) (self : CurrencyConverter)
    (w : world) (last : Z) (rate : value) :
  subscript (last_cache_update self) (cache_key_of f t) = Return last ->
  subscript (cache self) (cache_key_of f t) = Return rate ->
  (now_readings w (clock_reads w) - last < cache_duration self)%Z ->
  get_exchange_rate f t (self, w) = (Return rate, (self, ticked w)).
Proof.
  intros Hl Hc Ht. rewrite get_exchange_rate_run, cached_rate_run.
  rewrite (subscript_has_key _ _ _ Hc), Hl.
  apply Z.ltb_lt in Ht. rewrite Ht, Hc. reflexivity.
Qed.

(** ** Caching *)

(** X23. After [get_exchange_rate] has returned a rate for a pair of
    currencies, the rate and a time stamp are in the cache under the key
    of the pair, and every later call for the pair whose clock reading is
    less than [cache_duration] after the stamp returns the same rate,
    whatever the rate service would answer: it makes no request and
    leaves the converter as it is. *)
Theorem X23_cached_rate_round_trip (f t : string) (self : CurrencyConverter)
    (w : world) (rate : value) (self1 : CurrencyConverter) (w1 : world) :
  get_exchange_rate f t (self, w) = (Return rate, (self1, w1)) ->
  exists stamp,
    subscript (cache self1) (cache_key_of f t) = Return rate
    /\ subscript (last_cache_update self1) (cache_key_of f t) = Return stamp
    /\ forall w2,
         (now_readings w2 (clock_reads w2) - stamp < cache_duration self1)%Z ->
         get_exchange_rate f t (self1, w2) = (Return rate, (self1, ticked w2))
         /\ requested (ticked w2) = requested w2.
Proof.
  intros H. apply get_exchange_rate_cases in H.
  inversion H as [last rate' Hl Hc Ht | | w0 rate' Hw0 Hf | ]; subst.
  - exists last. repeat split; try assumption.
    apply get_exchange_rate_hit with (last := last); assumption.
  - eexists. split; [apply subscript_store|].
    split; [apply subscript_store|].
    intros w2 Hw2. split; [|reflexivity].
    apply get_exchange_rate_hit
      with (last := now_readings w0 (clock_reads w0)).
    + apply subscript_store.
    + apply subscript_store.
    + exact Hw2.
Qed.


(** ** Conversion *)



(** X26. A conversion between different codes whose pair is not in the
    cache, when the service answers with a table of rates that lacks the
    source currency: [convert_amount] raises [ValueError] with the message
    for the source, which names the upper-cased code, whether or not the
    table has the target; nothing is stored. *)
Theorem X26_unsupported_source (amount : value) (f t : string)
    (self : CurrencyConverter) (w : world) (data rates : dict) :
  upper f <> upper t ->
  has_key (cache_key_of (upper f) (upper t)) (cache self) = false ->
  get_json w (List.length (requested w))
    (base_url self ++ base_currency_of (upper f)) = Return (VDict data) ->
  dict_get "rates" data = Some (VDict rates) ->
  dict_get (upper f) rates = None ->
  convert_amount amount f t (self, w)
  = (Throw (ValueError (source_not_supported (upper f))),
     (self, asked (base_url self ++ base_currency_of (upper f)) w)).
Proof.
  intros Hdiff Hcache Hjson Hrates Hsource.
  unfold convert_amount. apply String.eqb_neq in Hdiff. rewrite Hdiff.
  unfold bindM at 1. rewrite get_exchange_rate_run, cached_rate_run, Hcache.
  unfold _fetch_exchange_rate, try_fetch. run.
  rewrite Hjson. cbn [getitem]. rewrite Hrates. cbn [of_py value_in].
  unfold dict_in. rewrite Hsource. reflexivity.
Qed.

(** ** The list of currencies *)

(** X27. [get_supported_currencies] never raises and never changes the
    converter; it makes one request, for the table of USD.  When the
    answer is a dictionary with a dictionary under [rates] it returns the
    keys of the rates, in their order; in every other case (the request
    fails, the answer has another form) it returns the twelve default
    codes. *)
Theorem X27_supported_currencies (self : CurrencyConverter) (w : world) :
  (exists currencies,
     get_supported_currencies (self, w)
     = (Return currencies, (self, asked (base_url self ++ "USD") w)))
  /\ (forall data rates,
        get_json w (List.length (requested w)) (base_url self ++ "USD")
        = Return (VDict data) ->
        dict_get "rates" data = Some (VDict rates) ->
        get_supported_currencies (self, w)
        = (Return (map fst rates), (self, asked (base_url self ++ "USD") w)))
  /\ ((forall data rates,
         get_json w (List.length (requested w)) (base_url self ++ "USD")
         = Return (VDict data) ->
         dict_get "rates" data <> Some (VDict rates)) ->
      get_supported_currencies (self, w)
      = (Return default_currencies,
         (self, asked (base_url self ++ "USD") w))).
Proof.
  unfold get_supported_currencies, bindM, ret, throw, lift, get_self,
    requests_get_json. cbn [fst snd].
  destruct (get_json w (List.length (requested w)) (base_url self ++ "USD"))
    as [data|e] eqn:Ej.
  2: { split; [eauto|]. split; [intros data rates H; discriminate H | auto]. }
  destruct data as [| | | | |?|data]; cbn [getitem of_py];
    try solve [split; [eauto|]; split;
               [intros data rates H; discriminate H | auto]].
  destruct (dict_get "rates" data) as [rates|] eqn:Er; cbn [of_py].
  2: { split; [eauto|]. split; [|auto].
       intros data' rates' [= <-] H. congruence. }
  destruct rates as [| | | | |?|rates]; cbn [keys_of];
    try solve [split; [eauto|]; split;
               [intros data' rates' [= <-] H; congruence | auto]].
  split; [eauto|]. split.
  - intros data' rates' [= <-] H. rewrite Er in H. injection H as <-.
    reflexivity.
  - intros Hnot. exfalso. exact (Hnot data rates eq_refl Er).
Qed.

End WithServices.

(** ** Cache keys *)

Lemma key_split (f1 t1 f2 t2 : string) :
  has_char "_" f1 = false -> has_char "_" f2 = false ->
  f1 ++ String "_" t1 = f2 ++ String "_" t2 -> f1 = f2 /\ t1 = t2.
Proof.
  revert f2. induction f1 as [|c f1 IH]; intros [|d f2] H1 H2 E;
    cbn [append has_char] in *.
  - injection E as <-. auto.
  - injection E as <- _. rewrite Ascii.eqb_refl in H2. discriminate H2.
  - injection E as -> _. rewrite Ascii.eqb_refl in H1. discriminate H1.
  - injection E as <- E. apply orb_false_elim in H1, H2.
    destruct (IH f2 (proj2 H1) (proj2 H2) E) as [-> ->]. auto.
Qed.

(** X28. Two pairs of currency codes without an underscore share a cache
    key only when they are the same pair: a rate cached for one pair is
    never served for another. *)
Theorem X28_cache_key_injective (f1 t1 f2 t2 : string) :
  has_char "_" f1 = false -> has_char "_" f2 = false ->
  cache_key_of f1 t1 = cache_key_of f2 t2 -> f1 = f2 /\ t1 = t2.
Proof. unfold cache_key_of. apply key_split. Qed.

(** ** The properties at concrete inputs *)

Lemma X23_cached_rate_round_trip_witness :
  exists stamp,
    subscript (cache (fst Scenario.after_first_rate))
      (cache_key_of "EUR" "INR") = Return (VFloat 90%Q)
    /\ subscript (last_cache_update (fst Scenario.after_first_rate))
         (cache_key_of "EUR" "INR") = Return stamp
    /\ forall w2,
         (now_readings w2 (clock_reads w2) - stamp
          < cache_duration (fst Scenario.after_first_rate))%Z ->
         @get_exchange_rate Scenario.exact_services "EUR" "INR"
           (fst Scenario.after_first_rate, w2)
         = (Return (VFloat 90%Q), (fst Scenario.after_first_rate, ticked w2))
         /\ requested (ticked w2) = requested w2.
Proof.
  apply (@X23_cached_rate_round_trip Scenario.exact_services "EUR" "INR"
           Scenario.fresh_converter Scenario.steady_world (VFloat 90%Q)
           (fst Scenario.after_first_rate) (snd Scenario.after_first_rate)).
  reflexivity.
Defined.




Lemma X26_unsupported_source_witness :
  @convert_amount Scenario.exact_services (VFloat 5%Q) "xyz" "abc"
    (Scenario.fresh_converter, Scenario.steady_world)
  = (Throw (ValueError "Source currency 'XYZ' not supported"),
     (Scenario.fresh_converter,
      asked "https://api.exchangerate-api.com/v4/latest/USD"
        Scenario.steady_world)).
Proof.
  apply (@X26_unsupported_source Scenario.exact_services (VFloat 5%Q)
           "xyz" "abc" Scenario.fresh_converter Scenario.steady_world
           [ ("base", VStr "USD");
             ("rates", VDict [ ("USD", VFloat 1%Q); ("EUR", VFloat (9 # 10)%Q);
                               ("INR", VFloat 81%Q) ]) ]
           [ ("USD", VFloat 1%Q); ("EUR", VFloat (9 # 10)%Q);
             ("INR", VFloat 81%Q) ]).
  - discriminate.
  - reflexivity.
  - reflexivity.
  - reflexivity.
  - reflexivity.
Defined.

Lemma X28_cache_key_injective_witness :
  "EUR" = "EUR" /\ "INR" = "INR".
Proof.
  apply (X28_cache_key_injective "EUR" "INR" "EUR" "INR"); reflexivity.
Defined.

End CurrencyProofs.
